(** * napari-mobilesam: prompt conversion, model wrapper and label bookkeeping

    A shallow embedding of the conversion and bookkeeping code of the plugin
    ([utils.py], [mobilesam_wrapper.py] and the label / mask handling methods
    of [_widget.py]) together with the properties its specification states
    and further properties read off the code.

    Conventions of the embedding:
    - Python floats and numpy float arrays are IEEE binary64 values
      ([PrimFloat.float]); integers are [Z].
    - A raised exception is a value of [exn]; a function that can raise
      returns a [result]; a method that mutates its object is a function of
      type [M S A], which returns the outcome together with the state the
      object is left in (also when it raises).
    - The segmentation model and the image conversions of OpenCV are
      collaborators outside the repository: they are the fields of the class
      [SamBackend], and every theorem holds for every such backend.
      [np.argmax], [cv2.dilate] / [cv2.erode] with the kernel the code uses,
      [colorsys.hsv_to_rgb] and numpy's item assignment are written out.
    - Of the GUI, the state holds the viewer's layers (data and metadata);
      notifications, status-bar text, button enabling, the entries of the
      drop-down boxes and the display colours of a layer are presentation and
      are left out. What a method reads from a drop-down box or a dialog is
      a parameter of the method.
    - The widget listens to the layer list: inserting or removing a layer
      runs [_on_layer_change] before the call returns, and the embedding runs
      it at the same places. Replacing the data or the metadata of a layer
      raises no such event.
    - The clock, random names and the file system are outside the model: of
      [utils.py] the functions that name and save files are not embedded, nor
      are the methods of the widget that react to the features table of the
      annotation layer; reading an image file is a parameter of the method
      that loads it. *)

From Stdlib Require Import ZArith List String Ascii Floats Lia Bool DecimalString.
From Stdlib Require Import DecimalZ DecimalPos.
From stdpp Require Import base list.
Import ListNotations.
Set Warnings "-inexact-float".
Open Scope Z_scope.

(** ** Exceptions and results *)

Inductive exn :=
| ValueError | KeyError | IndexError | TypeError
| OverflowError | AttributeError | RuntimeError.

Inductive result (A : Type) :=
| Ok (a : A)
| Raise (e : exn).
Arguments Ok {A} a.
Arguments Raise {A} e.

#[global] Instance result_ret : MRet result := fun A a => Ok a.
#[global] Instance result_bind : MBind result :=
  fun A B f m => match m with Ok a => f a | Raise e => Raise e end.
#[global] Instance result_fmap : FMap result :=
  fun A B f m => match m with Ok a => Ok (f a) | Raise e => Raise e end.

(** [try: body except (IndexError, KeyError, ValueError): handler] *)
Definition caught_by_box_handler (e : exn) : bool :=
  match e with
  | IndexError | KeyError | ValueError => true
  | _ => false
  end.

(** ** Methods: a state that survives exceptions *)

Definition M (S A : Type) : Type := S -> result A * S.

#[global] Instance M_ret {S} : MRet (M S) := fun A a s => (Ok a, s).
#[global] Instance M_bind {S} : MBind (M S) :=
  fun A B f m s =>
    match m s with
    | (Ok a, s') => f a s'
    | (Raise e, s') => (Raise e, s')
    end.

Definition gets {S A} (f : S -> A) : M S A := fun s => (Ok (f s), s).
Definition modify {S} (f : S -> S) : M S unit := fun s => (Ok tt, f s).
Definition raise {S A} (e : exn) : M S A := fun s => (Raise e, s).
Definition lift {S A} (r : result A) : M S A := fun s => (r, s).

(** [try: body except Exception: handler]; the handler starts from the state
    the body left behind. *)
Definition try_except {S A} (body : M S A) (handler : exn -> M S A) : M S A :=
  fun s =>
    match body s with
    | (Ok a, s') => (Ok a, s')
    | (Raise e, s') => handler e s'
    end.

(** ** Python and numpy numerics *)

Definition b2z (b : bool) : Z := if b then 1 else 0.

(** [float(n)] for a Python int: round to nearest even, [OverflowError] when
    the integer is too large for a double. *)
Definition Z2F (z : Z) : float := SF2Prim (binary_normalize prec emax z 0 false).

Definition int_to_float (z : Z) : result float :=
  let f := Z2F z in
  if is_infinity f then Raise OverflowError else Ok f.

(** [int(x)] for a Python float: truncation toward zero. *)
Definition float_to_int (x : float) : result Z :=
  match Prim2SF x with
  | S754_nan => Raise ValueError
  | S754_infinity _ => Raise OverflowError
  | S754_zero _ => Ok 0
  | S754_finite s m e =>
      let a := if 0 <=? e then Z.shiftl (Zpos m) e else Z.shiftr (Zpos m) (- e) in
      Ok (if s then - a else a)
  end.

(** C's [fmod(x, 1.0)]: the fractional part with the sign of [x]; exact. *)
Definition fmod_one (x : float) : float :=
  match Prim2SF x with
  | S754_nan | S754_infinity _ => nan
  | S754_zero _ => x
  | S754_finite s m e =>
      if 0 <=? e then (if s then neg_zero else zero)
      else
        let r := Z.land (Zpos m) (Z.ones (- e)) in
        if r =? 0 then (if s then neg_zero else zero)
        else SF2Prim (binary_normalize prec emax (if s then - r else r) e false)
  end.

(** Python's [x % 1.0] ([float_rem] of CPython): [fmod], moved into the
    sign of the divisor; a zero result is [+0.0]. *)
Definition py_mod_one (x : float) : float :=
  let m := fmod_one x in
  if negb (m =? 0)%float
  then (if (m <? 0)%float then (m + 1)%float else m)
  else zero.

(** numpy dtypes *)
Inductive int_dtype := int8 | uint8 | int16 | uint16 | int32 | uint32 | int64 | uint64.
Inductive float_dtype := float16 | float32 | float64.

Definition int_dtype_eqb (a b : int_dtype) : bool :=
  match a, b with
  | int8, int8 | uint8, uint8 | int16, int16 | uint16, uint16
  | int32, int32 | uint32, uint32 | int64, int64 | uint64, uint64 => true
  | _, _ => false
  end.

Definition bits (d : int_dtype) : Z :=
  match d with
  | int8 | uint8 => 8 | int16 | uint16 => 16
  | int32 | uint32 => 32 | int64 | uint64 => 64
  end.

Definition signed (d : int_dtype) : bool :=
  match d with
  | int8 | int16 | int32 | int64 => true
  | _ => false
  end.

(** Conversion of an integer to a fixed-width dtype wraps around. *)
Definition wrap (d : int_dtype) (z : Z) : Z :=
  let m := 2 ^ bits d in
  if signed d then (z + m / 2) mod m - m / 2 else z mod m.

(** Rounding of a double to a narrower float format (values of the narrower
    format are doubles, so a float16 / float32 array stores doubles that are
    representable in its format). *)
Definition round_to (d : float_dtype) (x : float) : float :=
  match d with
  | float64 => x
  | float32 =>
      match Prim2SF x with
      | S754_finite s m e => SF2Prim (binary_round 24 128 s m e)
      | _ => x
      end
  | float16 =>
      match Prim2SF x with
      | S754_finite s m e => SF2Prim (binary_round 11 16 s m e)
      | _ => x
      end
  end.

(** Cast of a float to an integer dtype: truncation, then wrap-around. numpy
    leaves the result for NaN and the infinities to the platform; 0 here. *)
Definition float_to_dtype (d : int_dtype) (x : float) : Z :=
  match float_to_int x with
  | Ok z => wrap d z
  | Raise _ => 0
  end.

(** ** Two- and three-dimensional arrays *)

Abbreviation grid A := (list (list A)).

Definition gmap2 {A B} (f : A -> B) (g : grid A) : grid B :=
  (fun row : list A => f <$> row) <$> g.

(** The shape of a grid, row by row (numpy arrays are rectangular: all rows
    of an array have the length of the first). *)
Definition gshape {A} (g : grid A) : list nat := length <$> g.

Definition same_shape {A B} (g : grid A) (h : grid B) : bool :=
  bool_decide (gshape g = gshape h).

Definition cell {A} (g : grid A) (i j : nat) : option A :=
  match g !! i with
  | Some row => row !! j
  | None => None
  end.

Definition gzip {A B C} (f : A -> B -> C) (g : grid A) (h : grid B) : grid C :=
  zip_with (zip_with f) g h.

Inductive ndarray :=
| BoolArr (a : grid bool)
| IntArr (d : int_dtype) (a : grid Z)
| FloatArr (d : float_dtype) (a : grid float).

(** A stack of planes of one dtype: the (C, H, W) array of candidate masks. *)
Inductive ndarray3 :=
| BoolStack (l : list (grid bool))
| IntStack (d : int_dtype) (l : list (grid Z))
| FloatStack (d : float_dtype) (l : list (grid float)).

Definition stack_len (s : ndarray3) : nat :=
  match s with
  | BoolStack l => length l
  | IntStack _ l => length l
  | FloatStack _ l => length l
  end.

(** [s[i]]: the i-th plane, an array of the dtype of the stack. *)
Definition stack_get (s : ndarray3) (i : nat) : option ndarray :=
  match s with
  | BoolStack l => BoolArr <$> l !! i
  | IntStack d l => IntArr d <$> l !! i
  | FloatStack d l => FloatArr d <$> l !! i
  end.

(** [a.astype(np.uint8)], [a.astype(np.float32)] and [a.astype(bool)] *)
Definition astype_int (d : int_dtype) (a : ndarray) : grid Z :=
  match a with
  | BoolArr g => gmap2 b2z g
  | IntArr _ g => gmap2 (wrap d) g
  | FloatArr _ g => gmap2 (float_to_dtype d) g
  end.

Definition astype_float (d : float_dtype) (a : ndarray) : grid float :=
  match a with
  | BoolArr g => gmap2 (fun b : bool => if b then PrimFloat.one else PrimFloat.zero) g
  | IntArr _ g => gmap2 (fun z => round_to d (Z2F z)) g
  | FloatArr _ g => gmap2 (round_to d) g
  end.

Definition astype_bool (a : ndarray) : grid bool :=
  match a with
  | BoolArr g => g
  | IntArr _ g => gmap2 (fun z => negb (z =? 0)) g
  | FloatArr _ g => gmap2 (fun x => negb (x =? 0)%float) g
  end.

Definition arr_shape (a : ndarray) : list nat :=
  match a with
  | BoolArr g => gshape g
  | IntArr _ g => gshape g
  | FloatArr _ g => gshape g
  end.

(** [s[i] = a]: the plane takes the values of [a] converted to the dtype of
    the stack; the dtype of the stack never changes. Shapes must agree
    (broadcasting of a smaller array is not modelled: the code assigns a
    plane-sized array). *)
Definition stack_set (s : ndarray3) (i : nat) (a : ndarray) : result ndarray3 :=
  match stack_get s i with
  | None => Raise IndexError
  | Some old =>
      if bool_decide (arr_shape old = arr_shape a) then
        Ok match s with
           | BoolStack l => BoolStack (<[i := astype_bool a]> l)
           | IntStack d l => IntStack d (<[i := astype_int d a]> l)
           | FloatStack d l => FloatStack d (<[i := astype_float d a]> l)
           end
      else Raise ValueError
  end.

(** ** Python containers *)

(** [d[key]] *)
Definition getitem {A} (field : option A) : result A :=
  match field with
  | Some a => Ok a
  | None => Raise KeyError
  end.

(** [l[i]] for a non-negative index *)
Definition index {A} (l : list A) (i : nat) : result A :=
  match l !! i with
  | Some a => Ok a
  | None => Raise IndexError
  end.

(** [[f(x) for x in l]]: elements are visited in order and the first error
    ends the comprehension. *)
Fixpoint comprehension {A B} (f : A -> result B) (l : list A) : result (list B) :=
  match l with
  | [] => Ok []
  | x :: rest =>
      y ← f x;
      ys ← comprehension f rest;
      mret (y :: ys)
  end.

Definition is_nil {A} (l : list A) : bool :=
  match l with
  | [] => true
  | _ => false
  end.

(** Python's [min] and [max] over a non-empty sequence: the running value is
    replaced only by a strictly smaller (larger) item, so the first of equal
    extrema is kept; an empty sequence raises [ValueError]. *)
Definition py_min (l : list float) : result float :=
  match l with
  | [] => Raise ValueError
  | x :: rest => Ok (fold_left (fun m y => if (y <? m)%float then y else m) rest x)
  end.

Definition py_max (l : list float) : result float :=
  match l with
  | [] => Raise ValueError
  | x :: rest => Ok (fold_left (fun m y => if (m <? y)%float then y else m) rest x)
  end.

(** [np.array(rows)] for a list of coordinate sequences: the rows must have
    one length ([ValueError] otherwise; numpy before 1.24 builds an array of
    objects instead). *)
Definition uniform (rows : grid float) : bool :=
  match rows with
  | [] => true
  | r :: rest => forallb (fun u : list float => (length u =? length r)%nat) rest
  end.

Definition np_array (rows : grid float) : result (grid float) :=
  if uniform rows then Ok rows else Raise ValueError.

(** ** utils.py *)

Module utils.

(** A shape record is the dict [{'shape_type': ..., 'data': ...}]; a record
    that lacks a key is malformed and reading the key raises [KeyError].
    A vertex is a sequence of coordinates; napari orders them (row, column),
    that is (y, x). *)
Abbreviation vertex := (list float).

Record shape := Shape {
  shape_type : option string;
  data : option (list vertex)
}.

(** [[s for s in shapes if s['shape_type'] == ty]] *)
Fixpoint shapes_of_type (ty : string) (shapes : list shape) : result (list shape) :=
  match shapes with
  | [] => Ok []
  | s :: rest =>
      t ← getitem (shape_type s);
      keep ← shapes_of_type ty rest;
      mret (if String.eqb t ty then s :: keep else keep)
  end.

Definition shapes_to_points (shapes : list shape) (labels : list Z)
  : result (list vertex * list Z) :=
  if is_nil shapes then Ok ([], [])
  else
    point_shapes ← shapes_of_type "point" shapes;
    if is_nil point_shapes then Ok ([], [])
    else
      points ← comprehension (fun s => d ← getitem (data s); index d 0) point_shapes
                 ≫= np_array;
      let point_labels :=
        if negb (is_nil labels) && (length labels =? length point_shapes)%nat
        then labels
        else repeat 1 (length point_shapes) in
      Ok (points, point_labels).

(** The body of the [try] block of [shapes_to_box]. *)
Definition box_of_rectangles (rect_shapes : list shape) : result (list float) :=
  rect ← match last rect_shapes with Some r => Ok r | None => Raise IndexError end;
  rect_data ← getitem (data rect);
  if (length rect_data <? 4)%nat then Ok []
  else
    x_coords ← comprehension (fun p => index p 1) rect_data;
    y_coords ← comprehension (fun p => index p 0) rect_data;
    if is_nil x_coords || is_nil y_coords then Ok []
    else
      x_min ← py_min x_coords;
      y_min ← py_min y_coords;
      x_max ← py_max x_coords;
      y_max ← py_max y_coords;
      if (x_max <=? x_min)%float || (y_max <=? y_min)%float then Ok []
      else Ok [x_min; y_min; x_max; y_max].

Definition shapes_to_box (shapes : list shape) : result (list float) :=
  if is_nil shapes then Ok []
  else
    rect_shapes ← shapes_of_type "rectangle" shapes;
    if is_nil rect_shapes then Ok []
    else
      match box_of_rectangles rect_shapes with
      | Ok box => Ok box
      | Raise e => if caught_by_box_handler e then Ok [] else Raise e
      end.

(** [mask.dtype in (np.uint8, np.int32, np.int64)] *)
Definition in_integer_branch (d : int_dtype) : bool :=
  int_dtype_eqb d uint8 || int_dtype_eqb d int32 || int_dtype_eqb d int64.

(** [mask > threshold] with a Python float on the right: an integer or bool
    mask is promoted to double; a float mask is compared in its own format,
    to which the threshold is rounded. *)
Definition greater_than (threshold : float) (mask : ndarray) : grid bool :=
  match mask with
  | BoolArr g => gmap2 (fun b : bool => (threshold <? (if b then PrimFloat.one else PrimFloat.zero))%float) g
  | IntArr _ g => gmap2 (fun z => (threshold <? Z2F z)%float) g
  | FloatArr d g => gmap2 (fun x => (round_to d threshold <? x)%float) g
  end.

Definition mask_to_binary (mask : ndarray) (threshold : float) : ndarray :=
  match mask with
  | IntArr d g =>
      if in_integer_branch d
      then IntArr uint8 (gmap2 (fun z => b2z (0 <? z)) g)
      else IntArr uint8 (gmap2 b2z (greater_than threshold mask))
  | _ => IntArr uint8 (gmap2 b2z (greater_than threshold mask))
  end.

(** The default of the [threshold] parameter. *)
Definition default_threshold : float := 0.5%float.

End utils.
Import utils.

(** ** numpy and OpenCV functions the code calls *)

(** [np.argmax] over a one-dimensional float array: the running maximum is
    replaced by an item that is not [<=] it, so the first of equal maxima is
    kept and a NaN, once met, is the result; empty input raises. *)
Fixpoint argmax_from (best : float) (best_i i : nat) (l : list float) : nat :=
  match l with
  | [] => best_i
  | x :: rest =>
      if negb (x <=? best)%float
      then (if is_nan x then i else argmax_from x i (S i) rest)
      else argmax_from best best_i (S i) rest
  end.

Definition np_argmax (scores : list float) : result nat :=
  match scores with
  | [] => Raise ValueError
  | x :: rest => Ok (if is_nan x then 0%nat else argmax_from x 0 1 rest)
  end.

(** The in-bounds cells of the 3x3 window centred at (i, j). *)
Definition window3 (g : grid Z) (i j : nat) : list Z :=
  let rows := (if i is S i' then [i'] else []) ++ [i; S i] in
  let cols := (if j is S j' then [j'] else []) ++ [j; S j] in
  r ← rows; c ← cols; option_list (cell g r c).

(** [cv2.dilate] / [cv2.erode] with a 3x3 kernel of ones, one iteration and
    the default border: the maximum / minimum over the in-bounds window. *)
Definition morph (pick : Z -> Z -> Z) (g : grid Z) : grid Z :=
  imap (fun i row => imap (fun j v => fold_left pick (window3 g i j) v) row) g.

Definition cv2_dilate (g : grid Z) : grid Z := morph Z.max g.
Definition cv2_erode (g : grid Z) : grid Z := morph Z.min g.

(** [colorsys.hsv_to_rgb] of the Python standard library. *)
Definition hsv_to_rgb (h s v : float) : result (float * float * float) :=
  if (s =? 0)%float then Ok (v, v, v)
  else
    i ← float_to_int (h * 6)%float;
    fi ← int_to_float i;
    let f := (h * 6 - fi)%float in
    let p := (v * (1 - s))%float in
    let q := (v * (1 - s * f))%float in
    let t := (v * (1 - s * (1 - f)))%float in
    let i := i mod 6 in
    if i =? 0 then Ok (v, t, p)
    else if i =? 1 then Ok (q, v, p)
    else if i =? 2 then Ok (p, v, t)
    else if i =? 3 then Ok (p, q, v)
    else if i =? 4 then Ok (t, p, v)
    else Ok (v, p, q).

(** ** mobilesam_wrapper.py *)

(** What the wrapper uses of torch, cv2 and the [mobile_sam] package. [Sam]
    is the loaded model together with its predictor object; every operation
    on it may raise and leaves it in some state. [Image] is an image array as
    the viewer hands it over, of any number of dimensions; [img_relabel v
    cond i] is numpy's [i[i == v] = 0; i[cond] = v] on a copy of it. *)
Class SamBackend := {
  Image : Type;
  Sam : Type;
  Logits : Type;
  img_of_array : ndarray -> Image;
  img_ndim : Image -> nat;
  img_channels : Image -> nat;
  img_is_uint8 : Image -> bool;
  img_max_le_one : Image -> bool;
  cvtColor_GRAY2RGB : Image -> result Image;
  img_take_rgb : Image -> Image;
  img_scale_uint8 : Image -> Image;
  img_astype_uint8 : Image -> Image;
  img_relabel : Z -> grid bool -> Image -> result Image;
  predictor_reset_image : M Sam unit;
  model_to : string -> M Sam unit;
  new_predictor : M Sam unit;
  predictor_set_image : Image -> M Sam unit;
  predictor_predict :
    option (grid float) -> option (list Z) -> option (grid float) -> bool ->
    M Sam (ndarray3 * list float * Logits)
}.

Module mobilesam_wrapper.
Section WithBackend.
Context `{B : SamBackend}.

Record MobileSamWrapper := Wrapper {
  device : string;
  sam : Sam;
  image_embeddings : option bool;
  current_image : option Image
}.

Definition set_device (d : string) (w : MobileSamWrapper) : MobileSamWrapper :=
  Wrapper d (sam w) (image_embeddings w) (current_image w).
Definition set_sam (s : Sam) (w : MobileSamWrapper) : MobileSamWrapper :=
  Wrapper (device w) s (image_embeddings w) (current_image w).
Definition set_image_embeddings (e : option bool) (w : MobileSamWrapper) : MobileSamWrapper :=
  Wrapper (device w) (sam w) e (current_image w).
Definition set_current_image (i : option Image) (w : MobileSamWrapper) : MobileSamWrapper :=
  Wrapper (device w) (sam w) (image_embeddings w) i.

(** A call on [self.model] / [self.predictor]. *)
Definition call {A} (m : M Sam A) : M MobileSamWrapper A :=
  fun w => let '(r, s) := m (sam w) in (r, set_sam s w).

(** The state [__init__] leaves, once the device is chosen and the model is
    loaded on it. *)
Definition MobileSamWrapper_init (dev : string) (s : Sam) : MobileSamWrapper :=
  Wrapper dev s None None.

(** The format conversion at the head of [set_image]. *)
Definition to_rgb_uint8 (image : Image) : result Image :=
  if (img_ndim image =? 2)%nat then cvtColor_GRAY2RGB image
  else if (img_ndim image =? 3)%nat then
    let image := if (3 <? img_channels image)%nat then img_take_rgb image else image in
    if negb (img_is_uint8 image) then
      (if img_max_le_one image then Ok (img_scale_uint8 image)
       else Ok (img_astype_uint8 image))
    else Ok image
  else Ok image.

Definition set_image (image : option Image) : M MobileSamWrapper unit :=
  try_except
    (image ← lift (match image with
                   | None => Raise ValueError
                   | Some i => Ok i
                   end);
     image ← lift (to_rgb_uint8 image);
     dev ← gets device;
     if String.eqb dev "mps" then
       try_except
         (modify (set_current_image (Some image));;
          call predictor_reset_image;;
          call (model_to "cpu");;
          call (predictor_set_image image);;
          dev ← gets device;
          call (model_to dev);;
          modify (set_image_embeddings (Some true)))
         (fun _ =>
            modify (set_device "cpu");;
            call (model_to "cpu");;
            call new_predictor;;
            call (predictor_set_image image);;
            modify (set_image_embeddings (Some true)))
     else
       modify (set_current_image (Some image));;
       call (predictor_set_image image);;
       modify (set_image_embeddings (Some true)))
    (fun _ =>
       modify (set_image_embeddings (Some false));;
       raise ValueError).

(** [if self.image_embeddings is None: raise ValueError(...)] *)
Definition require_embedding : M MobileSamWrapper unit :=
  e ← gets image_embeddings;
  match e with
  | None => raise ValueError
  | Some _ => mret tt
  end.

Definition astype_float32 (g : grid float) : grid float := gmap2 (round_to float32) g.

Definition predict_from_points (points : grid float) (labels : list Z)
    (multimask_output : bool) : M MobileSamWrapper (ndarray3 * list float * nat) :=
  require_embedding;;
  let input_points := astype_float32 points in
  let input_labels := map (wrap int32) labels in
  '(masks, scores, logits) ←
    call (predictor_predict (Some input_points) (Some input_labels) None multimask_output);
  best_idx ← lift (np_argmax scores);
  mret (masks, scores, best_idx).

Definition predict_from_box (box : list float) (multimask_output : bool)
  : M MobileSamWrapper (ndarray3 * list float * nat) :=
  require_embedding;;
  let input_box := map (round_to float32) box in
  if negb (length input_box =? 4)%nat then raise ValueError
  else
    '(masks, scores, logits) ←
      call (predictor_predict None None (Some [input_box]) multimask_output);
    best_idx ← lift (np_argmax scores);
    mret (masks, scores, best_idx).

Definition predict_from_box_and_points (box : list float) (points : grid float)
    (labels : list Z) (multimask_output : bool)
  : M MobileSamWrapper (ndarray3 * list float * nat) :=
  require_embedding;;
  let input_box := map (round_to float32) box in
  let input_points := astype_float32 points in
  let input_labels := map (wrap int32) labels in
  if negb (length input_box =? 4)%nat then raise ValueError
  else
    '(masks, scores, logits) ←
      call (predictor_predict (Some input_points) (Some input_labels)
              (Some [input_box]) multimask_output);
    best_idx ← lift (np_argmax scores);
    mret (masks, scores, best_idx).

(** The device choice at the head of [__init__]. [platform] is the pair
    [(platform.system(), platform.machine())], [None] when reading it raises
    (the bare [except] then leaves [is_mac_m_chip] false); the three flags are
    the answers of [torch.backends.mps.is_available()],
    [torch.backends.mps.is_built()] and [torch.cuda.is_available()]. *)
Definition supported_devices : list string := ["cpu"; "cuda"; "mps"]%string.

Definition is_supported (d : string) : bool :=
  existsb (String.eqb d) supported_devices.

Definition select_device (platform : option (string * string))
    (force_device : option string) (mps_available mps_built cuda_available : bool)
  : string :=
  let is_mac_m_chip :=
    match platform with
    | Some (system, machine) => String.eqb system "Darwin" && String.eqb machine "arm64"
    | None => false
    end in
  let force_device :=
    if is_mac_m_chip then
      match force_device with
      | Some f =>
          if String.eqb f "mps" then force_device
          else if String.eqb f "自动" then Some "cpu"%string
          else force_device
      | None => Some "cpu"%string
      end
    else force_device in
  let auto :=
    if mps_available && mps_built && negb is_mac_m_chip then "mps"%string
    else if cuda_available then "cuda"%string
    else "cpu"%string in
  match force_device with
  | Some f => if is_supported f then f else auto
  | None => auto
  end.

(** The body of the outer [try] of [__init__] once the model object exists:
    the model is moved to the device and the predictor is built, each with
    its fallback to the CPU. *)
Definition place_model : M MobileSamWrapper unit :=
  try_except
    (dev ← gets device; call (model_to dev))
    (fun _ => modify (set_device "cpu");; call (model_to "cpu"));;
  try_except
    (call new_predictor)
    (fun _ => modify (set_device "cpu");; call (model_to "cpu");; call new_predictor).

(** [__init__]. [load] is the outcome of building the model from the
    registry inside the [try], [reload] the outcome of building it again in
    the handler. *)
Definition MobileSamWrapper__init__ (platform : option (string * string))
    (force_device : option string) (mps_available mps_built cuda_available : bool)
    (load reload : result Sam) : result MobileSamWrapper :=
  let dev := select_device platform force_device mps_available mps_built cuda_available in
  let retry :=
    s ← reload;
    match (call (model_to "cpu");; call new_predictor) (Wrapper "cpu" s None None) with
    | (Ok _, w) => Ok w
    | (Raise e, _) => Raise e
    end in
  match load with
  | Ok s =>
      match place_model (Wrapper dev s None None) with
      | (Ok _, w) => Ok w
      | (Raise _, _) => retry
      end
  | Raise _ => retry
  end.

End WithBackend.
End mobilesam_wrapper.

(** ** Containers of the widget *)

(** A Python dict with integer keys, in insertion order. *)
Abbreviation dict V := (list (Z * V)).

Fixpoint dict_get {V} (k : Z) (d : dict V) : option V :=
  match d with
  | [] => None
  | (k', v) :: rest => if k =? k' then Some v else dict_get k rest
  end.

(** [d[k] = v]: an existing key keeps its place, a new one goes last. *)
Fixpoint dict_set {V} (k : Z) (v : V) (d : dict V) : dict V :=
  match d with
  | [] => [(k, v)]
  | (k', v') :: rest => if k =? k' then (k, v) :: rest else (k', v') :: dict_set k v rest
  end.

Definition keys {V} (d : dict V) : list Z := map fst d.

(** [max(xs, default=0)] *)
Definition max_default0 (xs : list Z) : Z :=
  match xs with
  | [] => 0
  | x :: rest => fold_left Z.max rest x
  end.

(** [max(xs)] over integers: an empty sequence raises [ValueError]. *)
Definition py_max_int (xs : list Z) : result Z :=
  match xs with
  | [] => Raise ValueError
  | x :: rest => Ok (fold_left Z.max rest x)
  end.

(** [str.strip()]. A text is the sequence of the bytes of its UTF-8
    encoding; the white space of Python is the ASCII characters 9-13 and
    28-32 and the characters U+0085, U+00A0, U+1680, U+2000-U+200A, U+2028,
    U+2029, U+202F, U+205F and U+3000, which are encoded in two or three
    bytes. *)
Definition is_space (c : ascii) : bool :=
  let n := nat_of_ascii c in
  ((9 <=? n) && (n <=? 13) || (28 <=? n) && (n <=? 32))%nat.

(** U+0085 and U+00A0: the bytes 0xC2 0x85 and 0xC2 0xA0 *)
Definition is_space2 (a b : ascii) : bool :=
  let a := nat_of_ascii a in
  let b := nat_of_ascii b in
  ((a =? 194) && ((b =? 133) || (b =? 160)))%nat.

(** U+1680: the bytes 0xE1 0x9A 0x80; U+2000-U+200A, U+2028, U+2029 and
    U+202F: 0xE2 0x80 followed by 0x80-0x8A, 0xA8, 0xA9 or 0xAF; U+205F:
    0xE2 0x81 0x9F; U+3000: 0xE3 0x80 0x80 *)
Definition is_space3 (a b c : ascii) : bool :=
  let a := nat_of_ascii a in
  let b := nat_of_ascii b in
  let c := nat_of_ascii c in
  ((a =? 225) && (b =? 154) && (c =? 128)
   || (a =? 226) && (b =? 128)
      && ((128 <=? c) && (c <=? 138) || (c =? 168) || (c =? 169) || (c =? 175))
   || (a =? 226) && (b =? 129) && (c =? 159)
   || (a =? 227) && (b =? 128) && (c =? 128))%nat.

Fixpoint lstrip (s : string) : string :=
  match s with
  | EmptyString => EmptyString
  | String a rest =>
      if is_space a then lstrip rest
      else
        match rest with
        | EmptyString => s
        | String b rest2 =>
            if is_space2 a b then lstrip rest2
            else
              match rest2 with
              | EmptyString => s
              | String c rest3 => if is_space3 a b c then lstrip rest3 else s
              end
        end
  end.

(** A text of white space only *)
Definition all_space (s : string) : bool :=
  match lstrip s with
  | EmptyString => true
  | _ => false
  end.

(** The longest suffix of white space is dropped (the encoding of a white
    space character begins with a byte that begins a character). *)
Fixpoint rstrip (s : string) : string :=
  match s with
  | EmptyString => EmptyString
  | String a rest => if all_space s then EmptyString else String a (rstrip rest)
  end.

Definition py_strip (s : string) : string := rstrip (lstrip s).

(** [str(n)] for an integer *)
Definition str_of_int (z : Z) : string := NilZero.string_of_int (Z.to_int z).

(** The candidate masks the widget holds: the empty Python list it starts
    with, or the array a prediction returned. *)
Inductive mask_seq :=
| MaskList (l : list ndarray)
| MaskArray (s : ndarray3).

Definition masks_len (m : mask_seq) : nat :=
  match m with
  | MaskList l => length l
  | MaskArray s => stack_len s
  end.

Definition masks_get (m : mask_seq) (i : nat) : result ndarray :=
  match m with
  | MaskList l => index l i
  | MaskArray s => match stack_get s i with Some a => Ok a | None => Raise IndexError end
  end.

(** [masks[i] = a]: a list takes the array as it is; an array converts it to
    its own dtype. *)
Definition masks_set (m : mask_seq) (i : nat) (a : ndarray) : result mask_seq :=
  match m with
  | MaskList l => if (i <? length l)%nat then Ok (MaskList (<[i := a]> l)) else Raise IndexError
  | MaskArray s => MaskArray <$> stack_set s i a
  end.

(** [a > 0] and [np.zeros_like(a, dtype=...)] *)
Definition gt_zero (a : ndarray) : grid bool :=
  match a with
  | BoolArr g => g
  | IntArr _ g => gmap2 (fun z => 0 <? z) g
  | FloatArr _ g => gmap2 (fun x => (0 <? x)%float) g
  end.

Definition zeros_like (a : ndarray) : grid Z :=
  match a with
  | BoolArr g => gmap2 (fun _ => 0) g
  | IntArr _ g => gmap2 (fun _ => 0) g
  | FloatArr _ g => gmap2 (fun _ => 0) g
  end.

Definition fits (d : int_dtype) (v : Z) : bool := wrap d v =? v.

(** [g[cond] = v] on an integer array of dtype [d]: the boolean index must
    have the shape of the array ([IndexError] otherwise) and the value must be
    representable in [d] ([OverflowError]; numpy before 2.0 wraps it around
    instead). *)
Definition assign_where (d : int_dtype) (cond : grid bool) (v : Z) (g : grid Z)
  : result (grid Z) :=
  if negb (same_shape cond g) then Raise IndexError
  else if negb (fits d v) then Raise OverflowError
  else Ok (gzip (fun (c : bool) x => if c then v else x) cond g).

(** [a == v] for a Python integer [v]: an integer array is compared as
    integers (no element equals an integer outside the range of its dtype),
    a bool array as 0 / 1, a float array with [v] converted to its format
    ([OverflowError] for an integer too large for a double). *)
Definition eq_scalar (v : Z) (a : ndarray) : result (grid bool) :=
  match a with
  | BoolArr g => Ok (gmap2 (fun b : bool => v =? b2z b) g)
  | IntArr _ g => Ok (gmap2 (Z.eqb v) g)
  | FloatArr d g =>
      x ← int_to_float v;
      Ok (gmap2 (fun y => (y =? round_to d x)%float) g)
  end.

(** [a[cond] = v] for a Python integer [v] on an array of any dtype: an
    integer array as in [assign_where]; a bool array stores whether [v] is
    non-zero; a float array stores [v] converted to its format. *)
Definition assign_scalar (cond : grid bool) (v : Z) (a : ndarray) : result ndarray :=
  match a with
  | BoolArr g =>
      if negb (same_shape cond g) then Raise IndexError
      else Ok (BoolArr (gzip (fun (c : bool) (x : bool) => if c then negb (v =? 0) else x)
                          cond g))
  | IntArr d g => IntArr d <$> assign_where d cond v g
  | FloatArr d g =>
      if negb (same_shape cond g) then Raise IndexError
      else
        x ← int_to_float v;
        Ok (FloatArr d (gzip (fun (c : bool) (y : float) => if c then round_to d x else y)
                          cond g))
  end.

(** ** _widget.py: the label map, the candidate masks and the viewer layers *)

Module widget.
Import mobilesam_wrapper.
Section WithBackend.
Context `{B : SamBackend}.

Abbreviation color := (list float).

(** The two keys of a layer's [metadata] the widget uses; a key may be
    absent. *)
Record Metadata := Meta {
  md_label_names : option (dict string);
  md_label_colors : option (dict color)
}.

Inductive layer_kind := ImageLayer | LabelsLayer | ShapesLayer.

Inductive LayerData :=
| ImageData (i : Image)
| ArrayData (a : ndarray)
| ShapesData (l : list shape).

Record Layer := MkLayer {
  kind : layer_kind;
  layer_data : LayerData;
  metadata : Metadata;
  point_type : option (list Z)
}.

Definition set_layer_data (d : LayerData) (l : Layer) : Layer :=
  MkLayer (kind l) d (metadata l) (point_type l).
Definition set_metadata (m : Metadata) (l : Layer) : Layer :=
  MkLayer (kind l) (layer_data l) m (point_type l).
Definition set_point_type (p : option (list Z)) (l : Layer) : Layer :=
  MkLayer (kind l) (layer_data l) (metadata l) p.

(** [viewer.layers]: the layers by name, in display order. *)
Abbreviation LayerList := (list (string * Layer)).

Fixpoint find_layer (name : string) (ls : LayerList) : option Layer :=
  match ls with
  | [] => None
  | (n, l) :: rest => if String.eqb n name then Some l else find_layer name rest
  end.

Fixpoint update_layer (name : string) (f : Layer -> Layer) (ls : LayerList) : LayerList :=
  match ls with
  | [] => []
  | (n, l) :: rest =>
      if String.eqb n name then (n, f l) :: rest else (n, l) :: update_layer name f rest
  end.

Definition remove_layer (name : string) (ls : LayerList) : LayerList :=
  List.filter (fun p => negb (String.eqb (fst p) name)) ls.

Definition add_layer (name : string) (l : Layer) (ls : LayerList) : LayerList :=
  ls ++ [(name, l)].

Definition labels_layer_name : string := "分割标签".
Definition mask_layer_name : string := "MobileSAM掩码".
Definition preview_layer_name : string := "掩码预览".
Definition shapes_layer_name : string := "标注".

Record History := MkHistory {
  h_mask : ndarray;
  h_name : string;
  h_mask_idx : nat
}.

Record Widget := MkWidget {
  viewer : LayerList;
  model : option MobileSamWrapper;
  model_loaded : bool;
  current_image : option LayerData;
  current_layer : option string;
  result_masks : mask_seq;
  result_scores : list float;
  selected_mask_idx : nat;
  label_names : dict string;
  label_colors : dict color;
  next_label_id : Z;
  label_mask_history : option (dict History)
}.

Definition set_viewer (v : LayerList) (w : Widget) : Widget :=
  MkWidget v (model w) (model_loaded w) (current_image w) (current_layer w)
    (result_masks w) (result_scores w) (selected_mask_idx w)
    (label_names w) (label_colors w) (next_label_id w) (label_mask_history w).
Definition set_model (m : option MobileSamWrapper) (w : Widget) : Widget :=
  MkWidget (viewer w) m (model_loaded w) (current_image w) (current_layer w)
    (result_masks w) (result_scores w) (selected_mask_idx w)
    (label_names w) (label_colors w) (next_label_id w) (label_mask_history w).
Definition set_current (i : option LayerData) (l : option string) (w : Widget) : Widget :=
  MkWidget (viewer w) (model w) (model_loaded w) i l
    (result_masks w) (result_scores w) (selected_mask_idx w)
    (label_names w) (label_colors w) (next_label_id w) (label_mask_history w).
Definition set_results (m : mask_seq) (s : list float) (i : nat) (w : Widget) : Widget :=
  MkWidget (viewer w) (model w) (model_loaded w) (current_image w) (current_layer w)
    m s i (label_names w) (label_colors w) (next_label_id w) (label_mask_history w).
Definition set_label_names (n : dict string) (w : Widget) : Widget :=
  MkWidget (viewer w) (model w) (model_loaded w) (current_image w) (current_layer w)
    (result_masks w) (result_scores w) (selected_mask_idx w)
    n (label_colors w) (next_label_id w) (label_mask_history w).
Definition set_label_colors (c : dict color) (w : Widget) : Widget :=
  MkWidget (viewer w) (model w) (model_loaded w) (current_image w) (current_layer w)
    (result_masks w) (result_scores w) (selected_mask_idx w)
    (label_names w) c (next_label_id w) (label_mask_history w).
Definition set_next_label_id (n : Z) (w : Widget) : Widget :=
  MkWidget (viewer w) (model w) (model_loaded w) (current_image w) (current_layer w)
    (result_masks w) (result_scores w) (selected_mask_idx w)
    (label_names w) (label_colors w) n (label_mask_history w).
Definition set_label_mask_history (h : option (dict History)) (w : Widget) : Widget :=
  MkWidget (viewer w) (model w) (model_loaded w) (current_image w) (current_layer w)
    (result_masks w) (result_scores w) (selected_mask_idx w)
    (label_names w) (label_colors w) (next_label_id w) h.

(** The fields [__init__] sets before any model is loaded. *)
Definition Widget_init (v : LayerList) : Widget :=
  MkWidget v None false None None (MaskList []) [] 0 [] [] 1 None.

(** A call on a layer of the viewer, and a call on [self.model]. *)
Definition on_layer (name : string) (f : Layer -> Layer) : M Widget unit :=
  modify (fun w => set_viewer (update_layer name f (viewer w)) w).

Definition on_model {A} (m : M MobileSamWrapper A) : M Widget A :=
  fun w =>
    match model w with
    | None => (Raise AttributeError, w)
    | Some mw => let '(r, mw') := m mw in (r, set_model (Some mw') w)
    end.

(** [_on_layer_change], the handler of the [inserted] and [removed] events
    of [viewer.layers] (the refresh of the image drop-down is presentation):
    the widget takes over the label map and the colours stored in the labels
    layer and moves its counter past the largest id. *)
Definition _on_layer_change : M Widget unit :=
  layers ← gets viewer;
  match find_layer labels_layer_name layers with
  | Some labels_layer =>
      (match md_label_names (metadata labels_layer) with
       | Some names =>
           modify (set_label_names names);;
           (if is_nil names then mret tt
            else
              m ← lift (py_max_int (keys names));
              modify (set_next_label_id (m + 1)))
       | None => mret tt
       end);;
      (match md_label_colors (metadata labels_layer) with
       | Some colors => modify (set_label_colors colors)
       | None => mret tt
       end)
  | None => mret tt
  end.

(** [viewer.layers.remove(name)] and [viewer.add_image(...)] /
    [viewer.add_labels(...)] with a name not in use: the list changes and
    the event runs [_on_layer_change] before the call returns. *)
Definition layers_remove (name : string) : M Widget unit :=
  modify (fun w => set_viewer (remove_layer name (viewer w)) w);;
  _on_layer_change.

Definition layers_insert (name : string) (l : Layer) : M Widget unit :=
  modify (fun w => set_viewer (add_layer name l (viewer w)) w);;
  _on_layer_change.

Definition golden_ratio_conjugate : float := 0.618033988749895%float.

Definition _generate_label_color (label_id : Z) : M Widget color :=
  lift
    (x ← int_to_float label_id;
     let h := py_mod_one (x * golden_ratio_conjugate)%float in
     let s := 0.8%float in
     let v := 0.95%float in
     '(r, g, b) ← hsv_to_rgb h s v;
     mret [r; g; b; 1%float]).

Definition _display_mask (mask : ndarray) : M Widget unit :=
  layers ← gets viewer;
  match find_layer mask_layer_name layers with
  | Some _ => on_layer mask_layer_name (set_layer_data (ArrayData mask))
  | None =>
      layers_insert mask_layer_name
        (MkLayer ImageLayer (ArrayData mask) (Meta None None) None)
  end.

(** The image an Image layer hands to the model. *)
Definition as_image (d : LayerData) : option Image :=
  match d with
  | ImageData i => Some i
  | ArrayData a => Some (img_of_array a)
  | ShapesData _ => None
  end.

(** [image_combo] stands for the entries of the image drop-down and
    [selected_layer_name] for its current text. *)
Definition _set_current_image (image_combo : list string) (selected_layer_name : string)
  : M Widget unit :=
  loaded ← gets model_loaded;
  if negb loaded then mret tt
  else if is_nil image_combo then mret tt
  else
    layers ← gets viewer;
    selected_layer ← lift (getitem (find_layer selected_layer_name layers));
    match kind selected_layer with
    | ImageLayer =>
        let image_data := layer_data selected_layer in
        try_except
          (on_model (set_image (as_image image_data));;
           modify (set_current (Some image_data) (Some selected_layer_name)))
          (fun _ => mret tt)
    | _ => mret tt
    end.

(** Emptying the mask drop-down at the end reports the index -1 to
    [_update_selected_mask], which returns at once. *)
Definition _clear_annotations : M Widget unit :=
  layers ← gets viewer;
  (if find_layer shapes_layer_name layers is Some _
   then on_layer shapes_layer_name
          (fun l => set_point_type (Some []) (set_layer_data (ShapesData []) l))
   else mret tt);;
  layers ← gets viewer;
  (if find_layer mask_layer_name layers is Some _
   then layers_remove mask_layer_name else mret tt);;
  layers ← gets viewer;
  (if find_layer preview_layer_name layers is Some _
   then layers_remove preview_layer_name else mret tt);;
  modify (set_results (MaskList []) [] 0).

(** [f"对象{self.next_label_id}"] *)
Definition default_label_name (next : Z) : string := "对象" ++ str_of_int next.

(** The name the mask is accepted under: the stripped text of the label-name
    box, or the placeholder when that is empty. *)
Definition label_name_of (combo_text : string) (next : Z) : string :=
  match py_strip combo_text with
  | EmptyString => default_label_name next
  | t => t
  end.

(** The loop over [self.label_names.items()]: the first id whose name is
    [label_name]. *)
Fixpoint find_label_id (names : dict string) (label_name : string) : option Z :=
  match names with
  | [] => None
  | (key, value) :: rest =>
      if String.eqb value label_name then Some key else find_label_id rest label_name
  end.

(** [labels_data[labels_data == label_id] = 0] and then
    [labels_data[binary_mask > 0] = label_id] on the copy of the data of the
    layer. An array is written as numpy does, whatever its dtype. The data
    of a Shapes layer is a list: compared with the id it gives [False], which
    as a list index is 0, so an empty list raises [IndexError]; on any other
    list the boolean array is then refused as an index ([TypeError]). *)
Definition relabel (label_id : Z) (binary_mask : ndarray) (labels_data : LayerData)
  : result LayerData :=
  match labels_data with
  | ArrayData a =>
      old ← eq_scalar label_id a;
      a ← assign_scalar old 0 a;
      a ← assign_scalar (gt_zero binary_mask) label_id a;
      Ok (ArrayData a)
  | ImageData i => ImageData <$> img_relabel label_id (gt_zero binary_mask) i
  | ShapesData [] => Raise IndexError
  | ShapesData (_ :: _) => Raise TypeError
  end.

Definition record_history (label_id : Z) (h : History) : M Widget unit :=
  modify (fun w =>
    set_label_mask_history
      (Some (dict_set label_id h (default [] (label_mask_history w)))) w).

(** The id a mask is accepted under when the labels layer exists: the
    [if hasattr(labels_layer, 'metadata') and 'label_names' in ...] block.
    With a label map in the metadata the widget takes over the dicts stored
    there (so what it adds to them is seen in the metadata at once); the id
    is the one already carrying the name, or a new one. Without a label map
    the widget starts a new map with its [next_label_id] counter. *)
Definition label_id_in_layer (labels_layer : Layer) (label_name : string) : M Widget Z :=
  match md_label_names (metadata labels_layer) with
  | Some names =>
      modify (set_label_names names);;
      (if md_label_colors (metadata labels_layer) is Some colors
       then modify (set_label_colors colors) else mret tt);;
      match find_label_id names label_name with
      | Some label_id => mret label_id
      | None =>
          let label_id := max_default0 (keys names) + 1 in
          let names' := dict_set label_id label_name names in
          modify (set_label_names names');;
          on_layer labels_layer_name
            (fun l => set_metadata (Meta (Some names') (md_label_colors (metadata l))) l);;
          c ← _generate_label_color label_id;
          colors ← gets label_colors;
          modify (set_label_colors (dict_set label_id c colors));;
          (if md_label_colors (metadata labels_layer) is Some _
           then on_layer labels_layer_name
                  (fun l => set_metadata
                     (Meta (md_label_names (metadata l))
                        (Some (dict_set label_id c colors))) l)
           else mret tt);;
          mret label_id
      end
  | None =>
      next ← gets next_label_id;
      let label_id := next in
      modify (set_label_names [(label_id, label_name)]);;
      c ← _generate_label_color label_id;
      modify (set_label_colors [(label_id, c)]);;
      modify (set_next_label_id (label_id + 1));;
      mret label_id
  end.

(** The mask is written into a copy of the raster of the existing labels
    layer, which then replaces the raster: the pixels of the id are cleared,
    then the pixels of the mask are set. *)
Definition write_label (labels_layer : Layer) (label_id : Z) (label_name : string)
    (binary_mask : ndarray) (idx : nat) : M Widget unit :=
  let labels_data := layer_data labels_layer in
  record_history label_id (MkHistory binary_mask label_name idx);;
  labels_data ← lift (relabel label_id binary_mask labels_data);
  names ← gets label_names;
  colors ← gets label_colors;
  on_layer labels_layer_name
    (fun l => set_metadata (Meta (Some names) (Some colors))
                (set_layer_data labels_data l)).

(** No labels layer yet: a new raster and a new label map with the id 1. *)
Definition create_labels_layer (mask binary_mask : ndarray) (label_name : string)
    (idx : nat) : M Widget unit :=
  let labels_data := zeros_like mask in
  let label_id := 1 in
  modify (set_label_names [(label_id, label_name)]);;
  c ← _generate_label_color label_id;
  modify (set_label_colors [(label_id, c)]);;
  modify (set_next_label_id (label_id + 1));;
  labels_data ← lift (assign_where int32 (gt_zero binary_mask) label_id labels_data);
  names ← gets label_names;
  colors ← gets label_colors;
  layers_insert labels_layer_name
    (MkLayer LabelsLayer (ArrayData (IntArr int32 labels_data))
       (Meta (Some names) (Some colors)) None);;
  modify (set_label_mask_history
            (Some [(label_id, MkHistory binary_mask label_name idx)])).

(** [combo_text] stands for the current text of the label-name box. *)
Definition _add_mask_to_labels (combo_text : string) : M Widget unit :=
  masks ← gets result_masks;
  idx ← gets selected_mask_idx;
  if (masks_len masks =? 0)%nat || (masks_len masks <=? idx)%nat then mret tt
  else
    mask ← lift (masks_get masks idx);
    let binary_mask := mask_to_binary mask default_threshold in
    next ← gets next_label_id;
    let label_name := label_name_of combo_text next in
    layers ← gets viewer;
    match find_layer labels_layer_name layers with
    | Some labels_layer =>
        label_id ← label_id_in_layer labels_layer label_name;
        write_label labels_layer label_id label_name binary_mask idx
    | None => create_labels_layer mask binary_mask label_name idx
    end.

(** [operation_type]: positive grows the mask, anything else shrinks it. *)
Definition _adjust_mask_boundary (operation_type : Z) : M Widget unit :=
  masks ← gets result_masks;
  idx ← gets selected_mask_idx;
  if (masks_len masks =? 0)%nat || (masks_len masks <=? idx)%nat then mret tt
  else
    mask ← lift (masks_get masks idx);
    let binary_mask := mask_to_binary mask default_threshold in
    let adjusted_mask :=
      if 0 <? operation_type
      then cv2_dilate (astype_int uint8 binary_mask)
      else cv2_erode (astype_int uint8 binary_mask) in
    masks' ← lift (masks_set masks idx
                     (FloatArr float32 (astype_float float32 (IntArr uint8 adjusted_mask))));
    modify (fun w => set_results masks' (result_scores w) (selected_mask_idx w) w);;
    shown ← lift (masks_get masks' idx);
    _display_mask shown;;
    layers ← gets viewer;
    if find_layer preview_layer_name layers is Some _
    then on_layer preview_layer_name
           (set_layer_data (ArrayData (IntArr uint8 (gmap2 (fun v => wrap uint8 (v * 255)) adjusted_mask))))
    else mret tt.

(** [binary_mask.astype(np.uint8) * 255] *)
Definition times_255 (binary_mask : ndarray) : ndarray :=
  IntArr uint8 (gmap2 (fun v => wrap uint8 (v * 255)) (astype_int uint8 binary_mask)).

(** [index] is the index the mask drop-down reports (-1 when it is empty). *)
Definition _update_selected_mask (index : Z) : M Widget unit :=
  masks ← gets result_masks;
  if (index <? 0) || (masks_len masks =? 0)%nat || (Z.of_nat (masks_len masks) <=? index)
  then mret tt
  else
    let index := Z.to_nat index in
    modify (fun w => set_results (result_masks w) (result_scores w) index w);;
    mask ← lift (masks_get masks index);
    _display_mask mask;;
    layers ← gets viewer;
    if find_layer preview_layer_name layers is Some _
    then
      mask ← lift (masks_get masks index);
      let binary_mask := mask_to_binary mask default_threshold in
      on_layer preview_layer_name (set_layer_data (ArrayData (times_255 binary_mask)))
    else mret tt.

(** A new preview layer is added on top of the others, where
    [move_selected] then leaves it. *)
Definition _preview_selected_mask : M Widget unit :=
  masks ← gets result_masks;
  idx ← gets selected_mask_idx;
  if (masks_len masks =? 0)%nat || (masks_len masks <=? idx)%nat then mret tt
  else
    mask ← lift (masks_get masks idx);
    let binary_mask := mask_to_binary mask default_threshold in
    layers ← gets viewer;
    if find_layer preview_layer_name layers is Some _
    then on_layer preview_layer_name (set_layer_data (ArrayData (times_255 binary_mask)))
    else
      layers_insert preview_layer_name
        (MkLayer ImageLayer (ArrayData (times_255 binary_mask)) (Meta None None) None).

(** [reply_yes] stands for the answer to the confirmation dialog. *)
Definition _clear_all_labels (reply_yes : bool) : M Widget unit :=
  layers ← gets viewer;
  if find_layer labels_layer_name layers is Some _
  then
    if reply_yes then
      layers_remove labels_layer_name;;
      modify (set_label_names []);;
      modify (set_label_colors []);;
      modify (set_next_label_id 1)
    else mret tt
  else mret tt.

(** The dict [_export_label_info] hands to [json.dump]: the entries of
    ["labels"] in insertion order (a dict with string keys) and the optional
    ["current_image"]. *)
Record ExportData := MkExport {
  export_labels : list (string * (string * color));
  export_current_image : option string
}.

(** [d[k] = v] for a dict with string keys. *)
Fixpoint export_set (k : string) (v : string * color)
    (d : list (string * (string * color))) : list (string * (string * color)) :=
  match d with
  | [] => [(k, v)]
  | (k', v') :: rest =>
      if String.eqb k k' then (k, v) :: rest else (k', v') :: export_set k v rest
  end.

(** [self.label_colors.get(label_id, [0, 0, 0, 1])] *)
Definition color_or_black (colors : dict color) (label_id : Z) : color :=
  default [0; 0; 0; 1]%float (dict_get label_id colors).

(** The dict comprehension over [self.label_names.items()]. *)
Definition label_entries (names : dict string) (colors : dict color)
  : list (string * (string * color)) :=
  fold_left
    (fun acc '(label_id, name) =>
       export_set (str_of_int label_id) (name, color_or_black colors label_id) acc)
    names [].

(** [file_path] stands for the answer of the file dialog (empty when it is
    cancelled). The method returns nothing; the value here is the dict that
    is written out, [None] when the method returns before. Writing the file
    is outside the model; a failure there is caught and reported. *)
Definition _export_label_info (file_path : string) : M Widget (option ExportData) :=
  names ← gets label_names;
  if is_nil names then mret None
  else if String.eqb file_path EmptyString then mret None
  else
    colors ← gets label_colors;
    current ← gets current_layer;
    mret (Some (MkExport (label_entries names colors) current)).






End WithBackend.
End widget.

(** ** Vocabulary of the specification *)

(** Shapes of one type, as the specification counts them: a record without a
    type is of no type. *)
Definition is_type (ty : string) (s : shape) : bool :=
  match shape_type s with
  | Some t => String.eqb t ty
  | None => false
  end.

Definition has_type (s : shape) : bool :=
  match shape_type s with
  | Some _ => true
  | None => false
  end.

Definition point_shapes (shapes : list shape) : list shape :=
  List.filter (is_type "point") shapes.

Definition rectangles (shapes : list shape) : list shape :=
  List.filter (is_type "rectangle") shapes.

(** The coordinate of a point shape is the first vertex of its data. *)
Definition first_vertex (s : shape) : option vertex :=
  match data s with
  | Some (v :: _) => Some v
  | _ => None
  end.



(** The x and y coordinates of the vertices of a rectangle (a vertex is
    (y, x)). *)
Definition xs_of (vs : list vertex) : list float := omap (fun p : vertex => p !! 1%nat) vs.
Definition ys_of (vs : list vertex) : list float := omap (fun p : vertex => p !! 0%nat) vs.

Definition no_nan (l : list float) : Prop := Forall (fun x => is_nan x = false) l.

Definition is_min (m : float) (l : list float) : Prop :=
  In m l /\ forall x, In x l -> (m <=? x)%float = true.

Definition is_max (m : float) (l : list float) : Prop :=
  In m l /\ forall x, In x l -> (x <=? m)%float = true.

(** numpy's order on scores: a NaN counts as larger than every number. *)
Definition np_le (x y : float) : bool := is_nan y || (x <=? y)%float.
Definition np_lt (x y : float) : bool := negb (np_le y x).

(** [i] is the first position of a maximal score: no score is larger than
    the one at [i], and every earlier score is strictly smaller. *)
Definition first_max (scores : list float) (i : nat) : Prop :=
  exists best,
    scores !! i = Some best /\
    (forall j x, scores !! j = Some x -> np_le x best = true) /\
    (forall j x, (j < i)%nat -> scores !! j = Some x -> np_lt x best = true).

(** [colorFor], first with the constant the specification prints, then with
    the constant of the code. *)
Definition colorFor_as_specified (id : Z) : result (list float) :=
  x ← int_to_float id;
  let hue := py_mod_one (x * 0.6180339887)%float in
  '(r, g, b) ← hsv_to_rgb hue 0.8 0.95;
  mret [r; g; b; 1%float].

Definition colorFor (id : Z) : result (list float) :=
  x ← int_to_float id;
  let hue := py_mod_one (x * 0.618033988749895)%float in
  '(r, g, b) ← hsv_to_rgb hue 0.8 0.95;
  mret [r; g; b; 1%float].

Definition is_ok {A} (r : result A) : bool :=
  match r with
  | Ok _ => true
  | Raise _ => false
  end.

(** The mask [_adjust_mask_boundary] computes from a candidate, and the array
    that an assignment [masks[i] = a] leaves in position [i]: [a] itself in a
    Python list, [a] converted to the dtype of the array in a numpy array. *)
Definition adjusted (operation_type : Z) (mask : ndarray) : grid Z :=
  if 0 <? operation_type
  then cv2_dilate (astype_int uint8 (mask_to_binary mask default_threshold))
  else cv2_erode (astype_int uint8 (mask_to_binary mask default_threshold)).

Definition as_float32 (g : grid Z) : ndarray :=
  FloatArr float32 (astype_float float32 (IntArr uint8 g)).

Definition stored (masks : mask_seq) (a : ndarray) : ndarray :=
  match masks with
  | MaskList _ => a
  | MaskArray (BoolStack _) => BoolArr (astype_bool a)
  | MaskArray (IntStack d _) => IntArr d (astype_int d a)
  | MaskArray (FloatStack d _) => FloatArr d (astype_float d a)
  end.

(** Whether the binarised mask covers the pixel (i, j). *)
Definition mask_on (mask : ndarray) (i j : nat) : bool :=
  default false (cell (gt_zero (mask_to_binary mask default_threshold)) i j).

(** A grid of zeros and ones. *)
Definition binary (g : grid Z) : Prop :=
  forall i j v, cell g i j = Some v -> v = 0 \/ v = 1.

(** Whether a grid of zeros and ones is on at the pixel (i, j). *)
Definition on_in (g : grid Z) (i j : nat) : bool :=
  match cell g i j with
  | Some v => v =? 1
  | None => false
  end.

(** Every pixel of a label raster is 0 or an id of the label map. *)
Definition labelled_by (names : dict string) (raster : grid Z) : Prop :=
  forall i j v, cell raster i j = Some v -> v = 0 \/ In v (keys names).

(** [w'] differs from [w] at most in the label map, the colours, the id
    counter, the history of accepted masks and the labels layer. *)
Definition same_outside_labels `{B : SamBackend} (w w' : widget.Widget) : Prop :=
  widget.result_masks w' = widget.result_masks w
  /\ widget.result_scores w' = widget.result_scores w
  /\ widget.selected_mask_idx w' = widget.selected_mask_idx w
  /\ widget.model w' = widget.model w
  /\ widget.model_loaded w' = widget.model_loaded w
  /\ widget.current_image w' = widget.current_image w
  /\ widget.current_layer w' = widget.current_layer w
  /\ forall name, String.eqb widget.labels_layer_name name = false ->
       widget.find_layer name (widget.viewer w') = widget.find_layer name (widget.viewer w).

(** [name in viewer.layers] *)
Definition has_layer `{B : SamBackend} (name : string) (ls : list (string * widget.Layer))
  : bool :=
  match widget.find_layer name ls with
  | Some _ => true
  | None => false
  end.

(** The label map, the colours and the id counter of the widget, and the
    widget after a layer event. *)
Definition label_state `{B : SamBackend} (w : widget.Widget)
  : dict string * dict (list float) * Z :=
  (widget.label_names w, widget.label_colors w, widget.next_label_id w).

Definition after_layer_event `{B : SamBackend} (w : widget.Widget) : widget.Widget :=
  snd (widget._on_layer_change w).

(** [w'] differs from [w] at most in the candidate masks, in the mask and
    preview layers and in the label map, colours and counter (which a layer
    event reads again from the labels layer). *)
Definition same_outside_candidates `{B : SamBackend} (w w' : widget.Widget) : Prop :=
  widget.result_scores w' = widget.result_scores w
  /\ widget.selected_mask_idx w' = widget.selected_mask_idx w
  /\ widget.label_mask_history w' = widget.label_mask_history w
  /\ widget.model w' = widget.model w
  /\ widget.model_loaded w' = widget.model_loaded w
  /\ widget.current_image w' = widget.current_image w
  /\ widget.current_layer w' = widget.current_layer w
  /\ forall name,
       String.eqb widget.mask_layer_name name = false ->
       String.eqb widget.preview_layer_name name = false ->
       widget.find_layer name (widget.viewer w') = widget.find_layer name (widget.viewer w).

(** ** A stand-in for the model

    Used to run the code on concrete inputs. Its predictor keeps the last
    image it was given, raises without one (as [SamPredictor.predict] does)
    and answers every prompt with the same three candidates, two of which
    tie for the best score. Images are plain arrays that need no
    conversion; the stand-in holds integer and bool images and refuses to
    relabel a float image. *)
Definition demo_masks : ndarray3 :=
  BoolStack [[[true; false]; [false; false]];
             [[true; true]; [false; false]];
             [[true; true]; [true; false]]].

Definition demo_scores : list float := [0.5; 0.875; 0.875]%float.

(** The relabelling of the stand-in: an integer or bool image is written as
    numpy writes it, a float image is refused. *)
Definition demo_relabel (v : Z) (cond : grid bool) (i : ndarray) : result ndarray :=
  match i with
  | BoolArr g =>
      if negb (same_shape cond g) then Raise IndexError
      else
        Ok (BoolArr
              (gzip (fun (c x : bool) => if c then negb (v =? 0) else x) cond
                 (gmap2 (fun x : bool => if v =? b2z x then false else x) g)))
  | IntArr d g =>
      g ← assign_where d (gmap2 (Z.eqb v) g) 0 g;
      IntArr d <$> assign_where d cond v g
  | FloatArr _ _ => Raise TypeError
  end.

Definition demo_backend : SamBackend := {|
  Image := ndarray;
  Sam := option ndarray;
  Logits := unit;
  img_of_array := fun a => a;
  img_ndim := fun _ => 3%nat;
  img_channels := fun _ => 3%nat;
  img_is_uint8 := fun _ => true;
  img_max_le_one := fun _ => false;
  cvtColor_GRAY2RGB := fun i => Ok i;
  img_take_rgb := fun i => i;
  img_scale_uint8 := fun i => i;
  img_astype_uint8 := fun i => i;
  img_relabel := demo_relabel;
  predictor_reset_image := fun _ => (Ok tt, None);
  model_to := fun _ s => (Ok tt, s);
  new_predictor := fun _ => (Ok tt, None);
  predictor_set_image := fun i _ => (Ok tt, Some i);
  predictor_predict := fun _ _ _ _ s =>
    match s with
    | None => (Raise RuntimeError, s)
    | Some _ => (Ok (demo_masks, demo_scores, tt), s)
    end
|}.

Definition demo_image : ndarray := IntArr uint8 [[10; 20]; [30; 40]].

(** The wrapper after a successful [set_image] on the stand-in. *)
Definition demo_wrapper : @mobilesam_wrapper.MobileSamWrapper demo_backend :=
  @mobilesam_wrapper.Wrapper demo_backend "cpu" (Some demo_image) (Some true) (Some demo_image).

(** A widget on the stand-in after one prediction: the model is loaded, the
    layer "image" is the current image, a second image layer "next" is in
    the viewer, and the three candidates of the prediction are held with the
    best one (index 1) selected. *)
Definition demo_next_image : ndarray := IntArr uint8 [[1; 2]; [3; 4]].

Definition demo_widget : @widget.Widget demo_backend :=
  @widget.MkWidget demo_backend
    [("image"%string,
      @widget.MkLayer demo_backend widget.ImageLayer (widget.ArrayData demo_image)
        (widget.Meta None None) None);
     ("next"%string,
      @widget.MkLayer demo_backend widget.ImageLayer (widget.ArrayData demo_next_image)
        (widget.Meta None None) None)]
    (Some demo_wrapper) true
    (Some (widget.ArrayData demo_image)) (Some "image"%string)
    (MaskArray demo_masks) demo_scores 1 [] [] 1 None.

(** The same widget with a labels layer that carries the label map
    {1: "cell", 2: "nucleus"}; candidate 0 (the top-left pixel) is selected.
    In the raster the top-left pixel belongs to "nucleus". *)
Definition demo_names : dict string := [(1, "cell"%string); (2, "nucleus"%string)].
Definition demo_colors : dict (list float) :=
  [(1, [1; 0; 0; 1]%float); (2, [0; 1; 0; 1]%float)].
Definition demo_raster : grid Z := [[2; 1]; [0; 1]].

Definition demo_labels_layer (md : widget.Metadata) : @widget.Layer demo_backend :=
  @widget.MkLayer demo_backend widget.LabelsLayer
    (widget.ArrayData (IntArr int32 demo_raster)) md None.

Definition demo_labeled_widget : @widget.Widget demo_backend :=
  widget.set_results (MaskArray demo_masks) demo_scores 0
    (widget.set_label_names demo_names
       (widget.set_label_colors demo_colors
          (widget.set_next_label_id 2
             (widget.set_viewer
                (widget.add_layer widget.labels_layer_name
                   (demo_labels_layer (widget.Meta (Some demo_names) (Some demo_colors)))
                   (widget.viewer demo_widget))
                demo_widget)))).

(** ** Proof automation *)

Definition sf_is_nan (f : spec_float) : bool :=
  match f with
  | S754_nan => true
  | _ => false
  end.

Ltac sf_order :=
  repeat match goal with
         | s : bool |- _ => destruct s
         end;
  cbn;
  repeat match goal with
         | |- context [Pos.compare_cont Eq ?a ?b] =>
             change (Pos.compare_cont Eq a b) with (Pos.compare a b)
         end;
  repeat match goal with
         | |- context [Z.compare ?a ?b] => destruct (Z.compare_spec a b)
         | |- context [Pos.compare ?a ?b] => destruct (Pos.compare_spec a b)
         end;
  cbn; try congruence; try lia.

(** Unfolding of the operations of [M] and [result]. *)
Ltac run :=
  repeat (unfold mbind, M_bind, result_bind, mret, M_ret, result_ret, fmap, result_fmap,
            gets, modify, raise, lift, try_except; cbn).

(** Case analysis on the outcome of every call on the model. *)
Ltac model_calls :=
  repeat (run;
          match goal with
          | |- context [predictor_reset_image ?s] =>
              destruct (predictor_reset_image s) as [[[]|?] ?]
          | |- context [model_to ?d ?s] => destruct (model_to d s) as [[[]|?] ?]
          | |- context [new_predictor ?s] => destruct (new_predictor s) as [[[]|?] ?]
          | |- context [predictor_set_image ?i ?s] =>
              destruct (predictor_set_image i s) as [[[]|?] ?]
          | |- context [predictor_predict ?p ?l ?b ?m ?s] =>
              destruct (predictor_predict p l b m s) as [[[[? ?] ?]|?] ?]
          | |- context [np_argmax ?l] => destruct (np_argmax l)
          end);
  run.

(** * Properties *)

(** ** Order of the doubles that are not NaN *)

Lemma is_nan_Prim2SF x : is_nan x = sf_is_nan (Prim2SF x).
Proof.
  unfold is_nan. rewrite FloatAxioms.eqb_spec. unfold SFeqb, SFcompare.
  destruct (Prim2SF x) as [s|s| |s m e]; sf_order.
Qed.

Lemma SFltb_negb_SFleb f1 f2 :
  sf_is_nan f1 = false -> sf_is_nan f2 = false -> SFltb f1 f2 = negb (SFleb f2 f1).
Proof.
  unfold SFltb, SFleb, SFcompare.
  destruct f1 as [s1|s1| |s1 m1 e1], f2 as [s2|s2| |s2 m2 e2]; cbn; try discriminate;
    intros _ _; sf_order.
Qed.

Lemma SFleb_trans f1 f2 f3 : SFleb f1 f2 = true -> SFleb f2 f3 = true -> SFleb f1 f3 = true.
Proof.
  unfold SFleb, SFcompare.
  destruct f1 as [s1|s1| |s1 m1 e1], f2 as [s2|s2| |s2 m2 e2], f3 as [s3|s3| |s3 m3 e3];
    cbn; try discriminate; sf_order.
Qed.

Lemma SFleb_refl f : sf_is_nan f = false -> SFleb f f = true.
Proof.
  unfold SFleb, SFcompare. destruct f as [s|s| |s m e]; cbn; try discriminate; intros _; sf_order.
Qed.

Lemma ltb_negb_leb (x y : float) :
  is_nan x = false -> is_nan y = false -> (x <? y)%float = negb (y <=? x)%float.
Proof.
  rewrite !is_nan_Prim2SF, ltb_spec, leb_spec. apply SFltb_negb_SFleb.
Qed.

Lemma leb_trans (x y z : float) :
  (x <=? y)%float = true -> (y <=? z)%float = true -> (x <=? z)%float = true.
Proof. rewrite !leb_spec. apply SFleb_trans. Qed.

Lemma leb_refl (x : float) : is_nan x = false -> (x <=? x)%float = true.
Proof. rewrite is_nan_Prim2SF, leb_spec. apply SFleb_refl. Qed.

Lemma leb_not_nan (x y : float) :
  (x <=? y)%float = true -> is_nan x = false /\ is_nan y = false.
Proof.
  rewrite !is_nan_Prim2SF, leb_spec. unfold SFleb, SFcompare.
  destruct (Prim2SF x), (Prim2SF y); cbn; try discriminate; auto.
Qed.

Lemma ltb_leb (x y : float) : (x <? y)%float = true -> (x <=? y)%float = true.
Proof.
  rewrite ltb_spec, leb_spec. unfold SFltb, SFleb.
  destruct (SFcompare (Prim2SF x) (Prim2SF y)) as [[]|]; congruence.
Qed.

Lemma ltb_leb_trans (x y z : float) :
  (x <? y)%float = true -> (y <=? z)%float = true -> (x <? z)%float = true.
Proof.
  intros Hxy Hyz.
  destruct (leb_not_nan _ _ Hyz) as [Hy Hz].
  assert (Hx : is_nan x = false) by (apply ltb_leb, leb_not_nan in Hxy; tauto).
  rewrite ltb_negb_leb in * by assumption.
  destruct (z <=? x)%float eqn:Hzx; [|reflexivity].
  rewrite (leb_trans _ _ _ Hyz Hzx) in Hxy. discriminate.
Qed.

Lemma leb_ltb_trans (x y z : float) :
  (x <=? y)%float = true -> (y <? z)%float = true -> (x <? z)%float = true.
Proof.
  intros Hxy Hyz.
  destruct (leb_not_nan _ _ Hxy) as [Hx Hy].
  assert (Hz : is_nan z = false) by (apply ltb_leb, leb_not_nan in Hyz; tauto).
  rewrite ltb_negb_leb in * by assumption.
  destruct (z <=? x)%float eqn:Hzx; [|reflexivity].
  rewrite (leb_trans _ _ _ Hzx Hxy) in Hyz. discriminate.
Qed.

Lemma bind_Ok {A B} (a : A) (f : A -> result B) : (Ok a ≫= f) = f a.
Proof. reflexivity. Qed.

(** ** utils.py: prompt conversion *)

Lemma shapes_of_type_typed ty shapes :
  forallb has_type shapes = true ->
  shapes_of_type ty shapes = Ok (List.filter (is_type ty) shapes).
Proof.
  induction shapes as [|s shapes IH]; cbn; [reflexivity|].
  unfold has_type at 1, is_type. destruct (shape_type s) as [t|]; cbn; [|discriminate].
  intros H. rewrite (IH H). cbn. destruct (String.eqb t ty); reflexivity.
Qed.

Lemma shapes_of_type_untyped ty shapes :
  forallb has_type shapes = false -> shapes_of_type ty shapes = Raise KeyError.
Proof.
  induction shapes as [|s shapes IH]; cbn; [discriminate|].
  unfold has_type at 1. destruct (shape_type s) as [t|]; cbn; [|reflexivity].
  intros H. rewrite (IH H). reflexivity.
Qed.








Lemma py_min_fold (rest : list float) : forall acc,
  is_nan acc = false -> no_nan rest ->
  let m := fold_left (fun m y => if (y <? m)%float then y else m) rest acc in
  (m = acc \/ In m rest) /\ (m <=? acc)%float = true
  /\ forall y, In y rest -> (m <=? y)%float = true.
Proof.
  induction rest as [|y rest IH]; intros acc Hacc Hnan; cbn.
  - split; [auto|]. split; [now apply leb_refl | intros y []].
  - inversion Hnan as [|? ? Hy Hrest]; subst.
    set (acc' := if (y <? acc)%float then y else acc).
    assert (Hacc' : is_nan acc' = false) by (subst acc'; destruct (y <? acc)%float; assumption).
    assert (Hle : (acc' <=? acc)%float = true /\ (acc' <=? y)%float = true).
    { subst acc'. destruct (y <? acc)%float eqn:E.
      - split; [now apply ltb_leb | now apply leb_refl].
      - split; [now apply leb_refl|].
        rewrite ltb_negb_leb in E by assumption. now destruct (acc <=? y)%float. }
    destruct (IH acc' Hacc' Hrest) as (Hin & Hm & Hall). destruct Hle as [Hle1 Hle2].
    split; [|split].
    + destruct Hin as [->|Hin]; [|auto].
      subst acc'. destruct (y <? acc)%float; auto.
    + eapply leb_trans; eassumption.
    + intros z [<-|Hz]; [eapply leb_trans; eassumption | auto].
Qed.

Lemma py_max_fold (rest : list float) : forall acc,
  is_nan acc = false -> no_nan rest ->
  let m := fold_left (fun m y => if (m <? y)%float then y else m) rest acc in
  (m = acc \/ In m rest) /\ (acc <=? m)%float = true
  /\ forall y, In y rest -> (y <=? m)%float = true.
Proof.
  induction rest as [|y rest IH]; intros acc Hacc Hnan; cbn.
  - split; [auto|]. split; [now apply leb_refl | intros y []].
  - inversion Hnan as [|? ? Hy Hrest]; subst.
    set (acc' := if (acc <? y)%float then y else acc).
    assert (Hacc' : is_nan acc' = false) by (subst acc'; destruct (acc <? y)%float; assumption).
    assert (Hle : (acc <=? acc')%float = true /\ (y <=? acc')%float = true).
    { subst acc'. destruct (acc <? y)%float eqn:E.
      - split; [now apply ltb_leb | now apply leb_refl].
      - split; [now apply leb_refl|].
        rewrite ltb_negb_leb in E by assumption. now destruct (y <=? acc)%float. }
    destruct (IH acc' Hacc' Hrest) as (Hin & Hm & Hall). destruct Hle as [Hle1 Hle2].
    split; [|split].
    + destruct Hin as [->|Hin]; [|auto].
      subst acc'. destruct (acc <? y)%float; auto.
    + eapply leb_trans; eassumption.
    + intros z [<-|Hz]; [eapply leb_trans; eassumption | auto].
Qed.

Lemma py_min_spec (l : list float) :
  l <> [] -> no_nan l -> exists m, py_min l = Ok m /\ is_min m l.
Proof.
  destruct l as [|x rest]; [congruence|]. intros _ Hnan.
  inversion Hnan as [|? ? Hx Hrest]; subst.
  destruct (py_min_fold rest x Hx Hrest) as (Hin & Hm & Hall).
  eexists. split; [reflexivity|]. split.
  - destruct Hin as [->|Hin]; [now left | now right].
  - intros y [<-|Hy]; auto.
Qed.

Lemma py_max_spec (l : list float) :
  l <> [] -> no_nan l -> exists m, py_max l = Ok m /\ is_max m l.
Proof.
  destruct l as [|x rest]; [congruence|]. intros _ Hnan.
  inversion Hnan as [|? ? Hx Hrest]; subst.
  destruct (py_max_fold rest x Hx Hrest) as (Hin & Hm & Hall).
  eexists. split; [reflexivity|]. split.
  - destruct Hin as [->|Hin]; [now left | now right].
  - intros y [<-|Hy]; auto.
Qed.

Lemma py_min_total (l : list float) : l <> [] -> exists m, py_min l = Ok m.
Proof. destruct l; [congruence | eexists; reflexivity]. Qed.

Lemma py_max_total (l : list float) : l <> [] -> exists m, py_max l = Ok m.
Proof. destruct l; [congruence | eexists; reflexivity]. Qed.

Lemma coordinates_read (vs : list vertex) :
  Forall (fun p : vertex => (2 <= length p)%nat) vs ->
  comprehension (fun p : vertex => index p 1) vs = Ok (xs_of vs)
  /\ comprehension (fun p : vertex => index p 0) vs = Ok (ys_of vs)
  /\ length (xs_of vs) = length vs /\ length (ys_of vs) = length vs.
Proof.
  induction 1 as [|p vs Hp _ (IHx & IHy & Lx & Ly)]; cbn; [auto|].
  destruct p as [|y [|x p]]; cbn in Hp; try lia.
  unfold xs_of, ys_of in *. cbn. rewrite IHx, IHy. cbn. auto.
Qed.

Lemma coordinates_short (vs : list vertex) :
  Exists (fun p : vertex => (length p < 2)%nat) vs ->
  comprehension (fun p : vertex => index p 1) vs = Raise IndexError.
Proof.
  induction 1 as [p vs Hp | p vs _ IH]; cbn.
  - destruct p as [|y [|x p]]; cbn in Hp; try lia; reflexivity.
  - rewrite IH. destruct p as [|y [|x p]]; reflexivity.
Qed.

Lemma vertices_dec (vs : list vertex) :
  Forall (fun p : vertex => (2 <= length p)%nat) vs
  \/ Exists (fun p : vertex => (length p < 2)%nat) vs.
Proof.
  induction vs as [|p vs [IH|IH]]; [left; constructor | | right; now constructor].
  destruct (le_lt_dec 2 (length p)); [left | right]; now constructor.
Qed.

Lemma last_cons_Some {A} (x : A) (l : list A) : exists y, last (x :: l) = Some y.
Proof.
  revert x. induction l as [|z l IH]; intros x; [now exists x|].
  destruct (IH z) as [y Hy]. exists y. exact Hy.
Qed.

Lemma box_of_rectangles_good (R : list shape) (rect : shape) (vs : list vertex) :
  last R = Some rect -> data rect = Some vs -> (4 <= length vs)%nat ->
  Forall (fun p : vertex => (2 <= length p)%nat) vs ->
  exists x_min y_min x_max y_max,
    py_min (xs_of vs) = Ok x_min /\ py_min (ys_of vs) = Ok y_min /\
    py_max (xs_of vs) = Ok x_max /\ py_max (ys_of vs) = Ok y_max /\
    box_of_rectangles R
      = Ok (if (x_max <=? x_min)%float || (y_max <=? y_min)%float then []
            else [x_min; y_min; x_max; y_max]).
Proof.
  intros HL HD H4 Hgood.
  destruct (coordinates_read vs Hgood) as (Hx & Hy & Lx & Ly).
  assert (Nx : xs_of vs <> []) by (intros E; rewrite E in Lx; cbn in Lx; lia).
  assert (Ny : ys_of vs <> []) by (intros E; rewrite E in Ly; cbn in Ly; lia).
  destruct (py_min_total _ Nx) as [x_min Exmin], (py_min_total _ Ny) as [y_min Eymin].
  destruct (py_max_total _ Nx) as [x_max Exmax], (py_max_total _ Ny) as [y_max Eymax].
  exists x_min, y_min, x_max, y_max. repeat (split; [assumption|]).
  unfold box_of_rectangles. rewrite HL, bind_Ok, HD. cbn [getitem]. rewrite bind_Ok.
  replace (length vs <? 4)%nat with false by (symmetry; apply Nat.ltb_ge; exact H4).
  rewrite Hx, bind_Ok, Hy, bind_Ok.
  replace (is_nil (xs_of vs)) with false by (destruct (xs_of vs) eqn:E; [congruence|reflexivity]).
  replace (is_nil (ys_of vs)) with false by (destruct (ys_of vs) eqn:E; [congruence|reflexivity]).
  cbn [orb]. rewrite Exmin, bind_Ok, Eymin, bind_Ok, Exmax, bind_Ok, Eymax, bind_Ok.
  destruct ((x_max <=? x_min)%float || (y_max <=? y_min)%float); reflexivity.
Qed.

Lemma is_min_unique (l : list float) (m : float) :
  py_min l = Ok m -> l <> [] -> no_nan l -> is_min m l.
Proof.
  intros E Hne Hnan. destruct (py_min_spec l Hne Hnan) as (m' & E' & Hm).
  congruence.
Qed.

Lemma is_max_unique (l : list float) (m : float) :
  py_max l = Ok m -> l <> [] -> no_nan l -> is_max m l.
Proof.
  intros E Hne Hnan. destruct (py_max_spec l Hne Hnan) as (m' & E' & Hm).
  congruence.
Qed.

Lemma good_not_short (vs : list vertex) :
  Forall (fun p : vertex => (2 <= length p)%nat) vs ->
  Exists (fun p : vertex => (length p < 2)%nat) vs -> False.
Proof.
  induction 1 as [|p vs Hp _ IH]; inversion 1; subst; [lia | auto].
Qed.

(** The rectangle of the specification's example and a record without a
    ['shape_type'] key. *)
Example rectangle_10_20 :
  shapes_to_box
    [Shape (Some "rectangle"%string) (Some [[10; 10]; [10; 20]; [20; 20]; [20; 10]]%float);
     Shape (Some "point"%string) (Some [[30; 30]]%float)]
  = Ok [10; 10; 20; 20]%float.
Proof. vm_compute. reflexivity. Qed.

(** C4, as stated, fails: an error raised while reading a malformed record
    is not always caught. A record without ['shape_type'] makes the filter,
    which runs before the [try] block, raise [KeyError] to the caller. *)
Lemma shapes_to_box_untyped_record_raises :
  shapes_to_box [Shape None (Some [[10; 10]; [10; 20]; [20; 20]; [20; 10]]%float)]
    = Raise KeyError
  /\ shapes_to_box [Shape None (Some [[10; 10]; [10; 20]; [20; 20]; [20; 10]]%float)]
    <> Ok [].
Proof. split; [vm_compute; reflexivity | vm_compute; discriminate]. Qed.

(** C4 (amended). When every record carries a ['shape_type'],
    [shapes_to_box] never raises. It uses the last rectangle in input order
    and returns the empty box when there is no rectangle, when the rectangle
    has no ['data'] or a vertex of fewer than two coordinates (the error is
    caught), when it has fewer than 4 vertices, or when the box of the vertex
    extrema has non-positive width or height; otherwise it returns
    [x_min, y_min, x_max, y_max] of the vertex extrema. The vertices
    (10,10), (10,20), (20,20), (20,10) give [10, 10, 20, 20]. *)
Theorem shapes_to_box_spec (shapes : list shape) :
  forallb has_type shapes = true ->
  (exists box, shapes_to_box shapes = Ok box /\
     match last (rectangles shapes) with
     | None => box = []
     | Some rect =>
         match data rect with
         | None => box = []
         | Some vs =>
             ((length vs < 4)%nat -> box = []) /\
             (Exists (fun p : vertex => (length p < 2)%nat) vs -> box = []) /\
             ((4 <= length vs)%nat ->
              Forall (fun p : vertex => (2 <= length p)%nat) vs ->
              no_nan (xs_of vs) -> no_nan (ys_of vs) ->
              exists x_min y_min x_max y_max,
                is_min x_min (xs_of vs) /\ is_min y_min (ys_of vs) /\
                is_max x_max (xs_of vs) /\ is_max y_max (ys_of vs) /\
                box = if (x_max <=? x_min)%float || (y_max <=? y_min)%float then []
                      else [x_min; y_min; x_max; y_max])
         end
     end)
  /\ shapes_to_box
       [Shape (Some "rectangle"%string) (Some [[10; 10]; [10; 20]; [20; 20]; [20; 10]]%float)]
     = Ok [10; 10; 20; 20]%float.
Proof.
  intros Htyped. split; [|vm_compute; reflexivity].
  unfold shapes_to_box.
  destruct shapes as [|s0 shapes0] eqn:Es; [exists []; split; reflexivity|].
  rewrite <- Es in *. replace (is_nil shapes) with false by (rewrite Es; reflexivity).
  rewrite (shapes_of_type_typed "rectangle" shapes Htyped), bind_Ok.
  fold (rectangles shapes).
  destruct (rectangles shapes) as [|r R] eqn:ER; [exists []; split; reflexivity|].
  cbn [is_nil]. destruct (last_cons_Some r R) as [rect HL]. rewrite HL.
  destruct (data rect) as [vs|] eqn:HD.
  2:{ exists []. unfold box_of_rectangles. rewrite HL, bind_Ok, HD. split; reflexivity. }
  destruct (le_lt_dec 4 (length vs)) as [H4|H4].
  2:{ exists []. unfold box_of_rectangles. rewrite HL, bind_Ok, HD. cbn [getitem].
      rewrite bind_Ok. replace (length vs <? 4)%nat with true by (symmetry; now apply Nat.ltb_lt).
      split; [reflexivity|]. split; [auto|]. split; [auto|]. intros; lia. }
  destruct (vertices_dec vs) as [Hgood|Hshort].
  - destruct (box_of_rectangles_good (r :: R) rect vs HL HD H4 Hgood)
      as (x_min & y_min & x_max & y_max & Exmin & Eymin & Exmax & Eymax & Hbox).
    rewrite Hbox. eexists. split; [reflexivity|].
    destruct (coordinates_read vs Hgood) as (_ & _ & Lx & Ly).
    assert (Nx : xs_of vs <> []) by (intros E; rewrite E in Lx; cbn in Lx; lia).
    assert (Ny : ys_of vs <> []) by (intros E; rewrite E in Ly; cbn in Ly; lia).
    split; [intros; lia|]. split; [intros Hs; destruct (good_not_short vs Hgood Hs)|].
    intros _ _ Hnx Hny. exists x_min, y_min, x_max, y_max.
    split; [now apply is_min_unique|]. split; [now apply is_min_unique|].
    split; [now apply is_max_unique|]. split; [now apply is_max_unique|]. reflexivity.
  - exists []. unfold box_of_rectangles. rewrite HL, bind_Ok, HD. cbn [getitem].
    rewrite bind_Ok. replace (length vs <? 4)%nat with false by (symmetry; now apply Nat.ltb_ge).
    rewrite (coordinates_short vs Hshort).
    split; [reflexivity|]. split; [auto|]. split; [auto|].
    intros _ Hgood. destruct (good_not_short vs Hgood Hshort).
Qed.

(** ** utils.py: binarisation of a mask *)

Lemma gshape_gmap2 {A C} (f : A -> C) (g : grid A) : gshape (gmap2 f g) = gshape g.
Proof.
  unfold gshape, gmap2. rewrite <- list_fmap_compose. apply list_fmap_ext.
  intros _ row _. cbn. apply length_fmap.
Qed.

Lemma cell_gmap2 {A C} (f : A -> C) (g : grid A) i j :
  cell (gmap2 f g) i j = f <$> cell g i j.
Proof.
  unfold cell, gmap2. rewrite list_lookup_fmap.
  destruct (g !! i) as [row|]; cbn; [apply list_lookup_fmap | reflexivity].
Qed.

(** The integer branch: masks of dtype uint8, int32 or int64. *)
Lemma mask_to_binary_integer_branch (d : int_dtype) (g : grid Z) (threshold : float) :
  d = uint8 \/ d = int32 \/ d = int64 ->
  mask_to_binary (IntArr d g) threshold
    = IntArr uint8 (gmap2 (fun z => if 0 <? z then 1 else 0) g).
Proof. intros [->|[->| ->]]; reflexivity. Qed.

(** A float64 mask is compared with the threshold itself. *)
Lemma mask_to_binary_float64 (g : grid float) (threshold : float) :
  mask_to_binary (FloatArr float64 g) threshold
    = IntArr uint8 (gmap2 (fun x => if (threshold <? x)%float then 1 else 0) g).
Proof.
  unfold mask_to_binary, greater_than, gmap2. cbn. rewrite <- list_fmap_compose.
  f_equal. apply list_fmap_ext. intros _ row _. cbn. rewrite <- list_fmap_compose.
  reflexivity.
Qed.

(** Every output is a uint8 array of the shape of the input with values 0
    and 1 only. *)
Lemma mask_to_binary_output (mask : ndarray) (threshold : float) :
  exists g, mask_to_binary mask threshold = IntArr uint8 g
    /\ gshape g = arr_shape mask
    /\ forall i j v, cell g i j = Some v -> v = 0 \/ v = 1.
Proof.
  assert (Hb : forall (h : grid bool) i j v, cell (gmap2 b2z h) i j = Some v -> v = 0 \/ v = 1).
  { intros h i j v. rewrite cell_gmap2. destruct (cell h i j) as [[]|]; cbn; intros [= <-]; auto. }
  destruct mask as [g|d g|d g]; unfold mask_to_binary, greater_than; cbn [arr_shape].
  - eexists. split; [reflexivity|]. split; [now rewrite !gshape_gmap2 | apply Hb].
  - destruct (in_integer_branch d).
    + eexists. split; [reflexivity|]. split; [now rewrite gshape_gmap2|].
      intros i j v. rewrite cell_gmap2. destruct (cell g i j) as [z|]; cbn; [|discriminate].
      intros [= <-]. destruct (0 <? z); auto.
    + eexists. split; [reflexivity|]. split; [now rewrite !gshape_gmap2 | apply Hb].
  - eexists. split; [reflexivity|]. split; [now rewrite !gshape_gmap2 | apply Hb].
Qed.

(** The example of the specification. *)
Example mask_to_binary_example :
  mask_to_binary (FloatArr float64 [[0.1; 0.6]; [0.8; 0.3]]%float) 0.5
    = IntArr uint8 [[0; 1]; [1; 0]].
Proof. vm_compute. reflexivity. Qed.

(** With the default threshold every integer or bool mask is binarised by
    [> 0], whatever its dtype: the two branches differ only for other
    thresholds. *)
Example mask_to_binary_int16_default :
  mask_to_binary (IntArr int16 [[0; 1; 2; -1]]) default_threshold
    = IntArr uint8 [[0; 1; 1; 0]].
Proof. vm_compute. reflexivity. Qed.

(** C3. The claim asks that a mask of integer dtype maps every element [> 0]
    to 1. The integer branch is entered for uint8, int32 and int64 only; an
    int16 mask falls through to the comparison with the threshold, so with
    threshold 1.0 the element 1 is mapped to 0 where the claim requires 1. *)
Theorem mask_to_binary_int16_uses_threshold :
  mask_to_binary (IntArr int16 [[0; 1]]) 1%float = IntArr uint8 [[0; 0]]
  /\ mask_to_binary (IntArr int16 [[0; 1]]) 1%float
     <> IntArr uint8 (gmap2 (fun z => if 0 <? z then 1 else 0) [[0; 1]])
  /\ mask_to_binary (IntArr int32 [[0; 1]]) 1%float = IntArr uint8 [[0; 1]].
Proof.
  split; [vm_compute; reflexivity|]. split; [vm_compute; discriminate | vm_compute; reflexivity].
Qed.

(** ** The best candidate: [np.argmax] of the scores *)

Lemma lookup_snoc_Some {A} (pre : list A) (x y : A) (j : nat) :
  (pre ++ [x]) !! j = Some y ->
  pre !! j = Some y \/ (j = length pre /\ y = x).
Proof.
  intros H. apply lookup_app_Some in H as [H|[Hj H]]; [now left|right].
  destruct (j - length pre)%nat as [|k] eqn:E; cbn in H; [|discriminate].
  split; [lia | congruence].
Qed.

Lemma leb_nan_l (x y : float) : is_nan x = true -> (x <=? y)%float = false.
Proof.
  intros H. destruct (x <=? y)%float eqn:E; [|reflexivity].
  apply leb_not_nan in E. destruct E. congruence.
Qed.

Lemma np_le_of_leb (x y : float) : (x <=? y)%float = true -> np_le x y = true.
Proof. intros H. unfold np_le. rewrite H. apply orb_true_r. Qed.

Lemma np_lt_of_ltb (x y : float) : (x <? y)%float = true -> np_lt x y = true.
Proof.
  intros H. pose proof (leb_not_nan _ _ (ltb_leb _ _ H)) as [Hx Hy].
  unfold np_lt, np_le. rewrite Hx. cbn.
  rewrite ltb_negb_leb in H by assumption. exact H.
Qed.

Lemma argmax_from_spec (rest : list float) : forall (pre : list float) best best_i,
  is_nan best = false ->
  pre !! best_i = Some best ->
  (forall j x, pre !! j = Some x -> (x <=? best)%float = true) ->
  (forall j x, (j < best_i)%nat -> pre !! j = Some x -> (x <? best)%float = true) ->
  first_max (pre ++ rest) (argmax_from best best_i (length pre) rest).
Proof.
  induction rest as [|x rest IH]; intros pre best best_i Hbest Hat Hle Hlt.
  - cbn. rewrite app_nil_r. exists best. split; [exact Hat|]. split.
    + intros j x Hj. apply np_le_of_leb. eauto.
    + intros j x Hj Hx. apply np_lt_of_ltb. eauto.
  - cbn [argmax_from].
    destruct (x <=? best)%float eqn:E; cbn [negb].
    + replace (pre ++ x :: rest) with ((pre ++ [x]) ++ rest)
        by (rewrite <- app_assoc; reflexivity).
      replace (S (length pre)) with (length (pre ++ [x])) by (rewrite length_app; cbn; lia).
      apply IH; try assumption.
      * apply lookup_app_l_Some. exact Hat.
      * intros j y [Hj|[-> ->]]%lookup_snoc_Some; eauto.
      * intros j y Hj [Hy|[-> ->]]%lookup_snoc_Some; [eauto|].
        apply lookup_lt_Some in Hat. lia.
    + destruct (is_nan x) eqn:Hx.
      * exists x. split; [apply list_lookup_middle; reflexivity|]. split.
        -- intros j y _. unfold np_le. now rewrite Hx.
        -- intros j y Hj Hy. rewrite lookup_app_l in Hy by exact Hj.
           destruct (leb_not_nan _ _ (Hle j y Hy)) as [Hny _].
           unfold np_lt, np_le. now rewrite Hny, (leb_nan_l x y Hx).
      * assert (Hbx : (best <? x)%float = true).
        { rewrite ltb_negb_leb by assumption. now rewrite E. }
        replace (pre ++ x :: rest) with ((pre ++ [x]) ++ rest)
          by (rewrite <- app_assoc; reflexivity).
        replace (S (length pre)) with (length (pre ++ [x]))
          by (rewrite length_app; cbn; lia).
        replace (length pre) with (length pre + 0)%nat at 1 by lia.
        apply IH; try assumption.
        -- rewrite Nat.add_0_r. now rewrite list_lookup_middle.
        -- intros j y [Hj|[-> ->]]%lookup_snoc_Some; [|now apply leb_refl].
           apply ltb_leb. eapply leb_ltb_trans; [eapply Hle; eassumption | exact Hbx].
        -- intros j y Hj [Hy|[-> ->]]%lookup_snoc_Some; [|lia].
           eapply leb_ltb_trans; [eapply Hle; eassumption | exact Hbx].
Qed.

(** [np.argmax] of a non-empty array is the first position of a maximal
    score. *)
Lemma np_argmax_first_max (scores : list float) :
  scores <> [] ->
  exists best_idx, np_argmax scores = Ok best_idx /\ first_max scores best_idx.
Proof.
  destruct scores as [|x rest]; [congruence|]. intros _.
  eexists. split; [reflexivity|].
  destruct (is_nan x) eqn:Hx.
  - exists x. split; [reflexivity|]. split.
    + intros j y _. unfold np_le. now rewrite Hx.
    + intros j y Hj. lia.
  - apply (argmax_from_spec rest [x] x 0%nat Hx eq_refl).
    + intros [|j] y; cbn; [intros [= <-]; now apply leb_refl | discriminate].
    + intros j y Hj. lia.
Qed.

(** Without NaN the order is the order of the numbers. *)
Lemma first_max_no_nan (scores : list float) (i : nat) :
  no_nan scores -> first_max scores i ->
  exists best,
    scores !! i = Some best /\
    (forall j x, scores !! j = Some x -> (x <=? best)%float = true) /\
    (forall j x, (j < i)%nat -> scores !! j = Some x -> (x <? best)%float = true).
Proof.
  intros Hnan (best & Hat & Hle & Hlt). exists best. split; [exact Hat|].
  assert (Hn : forall j x, scores !! j = Some x -> is_nan x = false).
  { intros j x Hj. unfold no_nan in Hnan. rewrite Forall_forall in Hnan.
    apply Hnan. eapply list_elem_of_lookup_2. exact Hj. }
  split.
  - intros j x Hj. specialize (Hle j x Hj). unfold np_le in Hle.
    now rewrite (Hn i best Hat) in Hle.
  - intros j x Hji Hj. specialize (Hlt j x Hji Hj). unfold np_lt, np_le in Hlt.
    rewrite (Hn j x Hj) in Hlt. cbn in Hlt.
    rewrite ltb_negb_leb; [exact Hlt | eauto | eauto].
Qed.

(** A NaN among the scores is treated as the maximum: the first NaN is the
    result. *)
Example np_argmax_nan : np_argmax [0.5; nan; 0.875]%float = Ok 1%nat.
Proof. vm_compute. reflexivity. Qed.

Example np_argmax_tie : np_argmax demo_scores = Ok 1%nat.
Proof. vm_compute. reflexivity. Qed.

(** ** mobilesam_wrapper.py *)

Section WrapperProperties.
Context `{B : SamBackend}.
Import mobilesam_wrapper.

Lemma require_embedding_present (w : MobileSamWrapper) (b : bool) :
  image_embeddings w = Some b -> require_embedding w = (Ok tt, w).
Proof. unfold require_embedding. run. intros ->. reflexivity. Qed.

Lemma require_embedding_absent (w : MobileSamWrapper) :
  image_embeddings w = None -> require_embedding w = (Raise ValueError, w).
Proof. unfold require_embedding. run. intros ->. reflexivity. Qed.

(** Before any image has been set no embedding exists and the three predict
    variants raise at once, leaving the wrapper as it was. *)
Lemma predict_without_embedding_raises (w : MobileSamWrapper) :
  image_embeddings w = None ->
  (forall points labels multimask,
      predict_from_points points labels multimask w = (Raise ValueError, w))
  /\ (forall box multimask, predict_from_box box multimask w = (Raise ValueError, w))
  /\ (forall box points labels multimask,
        predict_from_box_and_points box points labels multimask w = (Raise ValueError, w)).
Proof.
  intros H. repeat split; intros;
    unfold predict_from_points, predict_from_box, predict_from_box_and_points;
    unfold mbind, M_bind; rewrite (require_embedding_absent w H); reflexivity.
Qed.

Lemma predict_without_embedding_initial (dev : string) (s : Sam) :
  forall points labels multimask,
    fst (predict_from_points points labels multimask (MobileSamWrapper_init dev s))
      = Raise ValueError.
Proof.
  intros.
  now rewrite (proj1 (predict_without_embedding_raises (MobileSamWrapper_init dev s) eq_refl)).
Qed.

(** A [set_image] that raises leaves [image_embeddings = False], and raises
    [ValueError]. *)
Lemma set_image_failure_marks_false (image : option Image) (w : MobileSamWrapper) (e : exn) :
  fst (set_image image w) = Raise e ->
  e = ValueError /\ image_embeddings (snd (set_image image w)) = Some false.
Proof.
  unfold set_image, try_except.
  match goal with |- context [match ?b w with _ => _ end] => destruct (b w) as [[[]|e'] w'] end;
    cbn; [discriminate|]. intros [= <-]. auto.
Qed.

(** The guard of the predict variants tests [is None]: the value [False]
    passes it. *)
Lemma require_embedding_passes_false (w : MobileSamWrapper) :
  image_embeddings w = Some false -> require_embedding w = (Ok tt, w).
Proof. apply require_embedding_present. Qed.

(** C8. Whenever the model returns a non-empty score array, each predict
    variant returns the masks and scores of the model together with one best
    index, [np.argmax] of the scores, which is the position of the first
    maximal score: no score exceeds it and every earlier score is strictly
    smaller, so on exact ties the smallest index wins (a NaN score counts as
    the largest, as in numpy). *)
Theorem predict_best_index_is_first_argmax
    (w : MobileSamWrapper) (multimask : bool)
    (masks : ndarray3) (scores : list float) (logits : Logits) (s' : Sam) :
  image_embeddings w <> None -> scores <> [] ->
  (forall points labels,
      predictor_predict (Some (astype_float32 points)) (Some (map (wrap int32) labels))
        None multimask (sam w) = (Ok (masks, scores, logits), s') ->
      exists best_idx,
        predict_from_points points labels multimask w
          = (Ok (masks, scores, best_idx), set_sam s' w)
        /\ first_max scores best_idx)
  /\ (forall box,
        length box = 4%nat ->
        predictor_predict None None (Some [map (round_to float32) box])
          multimask (sam w) = (Ok (masks, scores, logits), s') ->
        exists best_idx,
          predict_from_box box multimask w
            = (Ok (masks, scores, best_idx), set_sam s' w)
          /\ first_max scores best_idx)
  /\ (forall box points labels,
        length box = 4%nat ->
        predictor_predict (Some (astype_float32 points)) (Some (map (wrap int32) labels))
          (Some [map (round_to float32) box]) multimask (sam w)
          = (Ok (masks, scores, logits), s') ->
        exists best_idx,
          predict_from_box_and_points box points labels multimask w
            = (Ok (masks, scores, best_idx), set_sam s' w)
          /\ first_max scores best_idx).
Proof.
  intros Hemb Hne.
  destruct (image_embeddings w) as [b|] eqn:Eb; [clear Hemb | congruence].
  destruct (np_argmax_first_max scores Hne) as (best & Hbest & Hfirst).
  repeat split.
  - intros points labels Hp. exists best. split; [|exact Hfirst].
    unfold predict_from_points, mbind, M_bind.
    rewrite (require_embedding_present w b Eb). unfold call. rewrite Hp.
    unfold lift. rewrite Hbest. reflexivity.
  - intros box Hlen Hp. exists best. split; [|exact Hfirst].
    unfold predict_from_box, mbind, M_bind.
    rewrite (require_embedding_present w b Eb). rewrite length_map, Hlen. cbn [Nat.eqb negb].
    unfold call. rewrite Hp. unfold lift. rewrite Hbest. reflexivity.
  - intros box points labels Hlen Hp. exists best. split; [|exact Hfirst].
    unfold predict_from_box_and_points, mbind, M_bind.
    rewrite (require_embedding_present w b Eb). rewrite length_map, Hlen. cbn [Nat.eqb negb].
    unfold call. rewrite Hp. unfold lift. rewrite Hbest. reflexivity.
Qed.

End WrapperProperties.

Section FailedSetImage.
Context `{B : SamBackend}.
Import mobilesam_wrapper.

(** Setting no image raises before the predictor is touched: the predictor
    keeps whatever embedding it held. *)
Lemma set_image_None (w : MobileSamWrapper) :
  set_image None w = (Raise ValueError, set_image_embeddings (Some false) w).
Proof. reflexivity. Qed.

(** After any failed [set_image] the guard of the predict variants passes. *)
Lemma failed_set_image_passes_guard (image : option Image) (w : MobileSamWrapper) (e : exn) :
  fst (set_image image w) = Raise e ->
  require_embedding (snd (set_image image w)) = (Ok tt, snd (set_image image w)).
Proof.
  intros H. apply require_embedding_passes_false.
  now destruct (set_image_failure_marks_false image w e H).
Qed.

(** The outcome of a prediction depends on the wrapper only through the
    presence of [image_embeddings] and the state of the model. *)
Lemma predict_outcome_ext (w1 w2 : MobileSamWrapper) (b1 b2 : bool) :
  image_embeddings w1 = Some b1 -> image_embeddings w2 = Some b2 -> sam w1 = sam w2 ->
  (forall points labels multimask,
      fst (predict_from_points points labels multimask w1)
      = fst (predict_from_points points labels multimask w2))
  /\ (forall box multimask,
        fst (predict_from_box box multimask w1) = fst (predict_from_box box multimask w2))
  /\ (forall box points labels multimask,
        fst (predict_from_box_and_points box points labels multimask w1)
        = fst (predict_from_box_and_points box points labels multimask w2)).
Proof.
  intros H1 H2 Hs.
  repeat split; intros;
    unfold predict_from_points, predict_from_box, predict_from_box_and_points,
      mbind, M_bind;
    rewrite (require_embedding_present w1 b1 H1), (require_embedding_present w2 b2 H2);
    cbv beta iota;
    try match goal with
        | |- context [if ?b then _ else _] => destruct b; [reflexivity|]
        end;
    unfold call; cbv beta; rewrite Hs;
    match goal with
    | |- context [predictor_predict ?a ?b ?c ?d ?s] =>
        destruct (predictor_predict a b c d s) as [[[[masks scores] logits]|e] s']
    end; try reflexivity;
    unfold lift; destruct (np_argmax scores); reflexivity.
Qed.

(** So after [set_image(None)] has failed, each predict variant answers as
    it would with a valid embedding, from the state the predictor was in. *)
Lemma predict_after_failed_set_image_as_if_set (w : MobileSamWrapper) :
  forall points labels multimask,
    fst (predict_from_points points labels multimask (snd (set_image None w)))
    = fst (predict_from_points points labels multimask
             (set_image_embeddings (Some true) w)).
Proof.
  rewrite set_image_None. cbn [snd].
  apply (predict_outcome_ext (set_image_embeddings (Some false) w)
           (set_image_embeddings (Some true) w) false true eq_refl eq_refl eq_refl).
Qed.

End FailedSetImage.

(** C1. Before any image is set the predict variants raise (lemma
    [predict_without_embedding_raises]). After a failed [set_image] they do
    not: the failure stores [False] in [image_embeddings] while the guard
    tests [is None], so whatever the model, a prediction after
    [set_image(None)] is answered as if the embedding were valid. On the
    stand-in: an image is set, a second [set_image] fails, and each variant
    then returns the candidates computed from the first image where the claim
    requires an error. *)
Theorem predict_after_failed_set_image_runs :
  (forall (B : SamBackend) (w : mobilesam_wrapper.MobileSamWrapper) points labels multimask,
      fst (mobilesam_wrapper.set_image None w) = Raise ValueError
      /\ mobilesam_wrapper.image_embeddings (snd (mobilesam_wrapper.set_image None w))
         = Some false
      /\ fst (mobilesam_wrapper.predict_from_points points labels multimask
                (snd (mobilesam_wrapper.set_image None w)))
         = fst (mobilesam_wrapper.predict_from_points points labels multimask
                  (mobilesam_wrapper.set_image_embeddings (Some true) w)))
  /\ (let w0 := @mobilesam_wrapper.MobileSamWrapper_init demo_backend "cpu" None in
      let w1 := snd (mobilesam_wrapper.set_image (B := demo_backend) (Some demo_image) w0) in
      let w2 := snd (mobilesam_wrapper.set_image (B := demo_backend) None w1) in
      fst (mobilesam_wrapper.set_image (B := demo_backend) (Some demo_image) w0) = Ok tt
      /\ fst (mobilesam_wrapper.set_image (B := demo_backend) None w1) = Raise ValueError
      /\ mobilesam_wrapper.image_embeddings (B := demo_backend) w2 = Some false
      /\ mobilesam_wrapper.sam (B := demo_backend) w2 = Some demo_image
      /\ fst (mobilesam_wrapper.predict_from_points (B := demo_backend)
                [[1; 1]]%float [1] true w2)
         = Ok (demo_masks, demo_scores, 1%nat)
      /\ fst (mobilesam_wrapper.predict_from_box (B := demo_backend)
                [1; 1; 2; 2]%float true w2)
         = Ok (demo_masks, demo_scores, 1%nat)
      /\ fst (mobilesam_wrapper.predict_from_box_and_points (B := demo_backend)
                [1; 1; 2; 2]%float [[1; 1]]%float [1] true w2)
         = Ok (demo_masks, demo_scores, 1%nat)).
Proof.
  split.
  - intros B w points labels multimask. split; [reflexivity|]. split; [reflexivity|].
    apply (predict_after_failed_set_image_as_if_set w).
  - vm_compute. repeat split; reflexivity.
Qed.

Lemma predict_best_index_witness :
  (mobilesam_wrapper.image_embeddings (B := demo_backend) demo_wrapper <> None
   /\ demo_scores <> [])
  /\ exists best_idx,
       mobilesam_wrapper.predict_from_points (B := demo_backend) [[1; 1]]%float [1] true demo_wrapper
         = (Ok (demo_masks, demo_scores, best_idx),
            mobilesam_wrapper.set_sam (B := demo_backend) (Some demo_image) demo_wrapper)
       /\ first_max demo_scores best_idx.
Proof.
  assert (H1 : mobilesam_wrapper.image_embeddings (B := demo_backend) demo_wrapper <> None) by discriminate.
  assert (H2 : demo_scores <> []) by discriminate.
  split; [auto|].
  apply (proj1 (predict_best_index_is_first_argmax demo_wrapper true demo_masks demo_scores
                  tt (Some demo_image) H1 H2)).
  reflexivity.
Defined.


Lemma shapes_to_box_spec_witness :
  let shapes :=
    [Shape (Some "rectangle"%string) (Some [[0; 0]; [0; 5]; [5; 5]; [5; 0]]%float);
     Shape (Some "point"%string) (Some [[30; 30]]%float);
     Shape (Some "rectangle"%string) (Some [[10; 10]; [10; 20]; [20; 20]; [20; 10]]%float)] in
  forallb has_type shapes = true
  /\ exists box, shapes_to_box shapes = Ok box.
Proof.
  intros shapes. split; [reflexivity|].
  destruct (proj1 (shapes_to_box_spec shapes eq_refl)) as (box & Hbox & _).
  exists box. exact Hbox.
Defined.

(** ** _widget.py: label colours *)

Section LabelColor.
Context `{B : SamBackend}.
Import widget.

(** C9 (amended). [_generate_label_color] is a pure function of the label
    id: in any widget state it leaves the state unchanged and returns the
    RGBA colour of hue [(id * 0.618033988749895) mod 1], saturation 0.8 and
    value 0.95 converted to RGB, with alpha 1.0; so identical ids yield
    identical colours. *)
Theorem generate_label_color_pure (label_id : Z) :
  (forall w : Widget, _generate_label_color label_id w = (colorFor label_id, w))
  /\ (forall w1 w2 : Widget,
        fst (_generate_label_color label_id w1) = fst (_generate_label_color label_id w2))
  /\ (forall c, colorFor label_id = Ok c -> exists r g b, c = [r; g; b; 1%float]).
Proof.
  split; [reflexivity|]. split; [reflexivity|].
  intros c. unfold colorFor.
  destruct (int_to_float label_id) as [x|e]; [|discriminate]. rewrite bind_Ok.
  destruct (hsv_to_rgb _ _ _) as [[[r g] b]|e]; [|discriminate].
  rewrite bind_Ok. intros [= <-]. eauto.
Qed.

End LabelColor.

Lemma generate_label_color_pure_witness :
  colorFor 1 = Ok [0.18999999999999995; 0.41176501130047849; 0.94999999999999996; 1]%float
  /\ exists r g b,
       [0.18999999999999995; 0.41176501130047849; 0.94999999999999996; 1]%float
       = [r; g; b; 1%float].
Proof.
  assert (H : colorFor 1
              = Ok [0.18999999999999995; 0.41176501130047849; 0.94999999999999996; 1]%float)
    by (vm_compute; reflexivity).
  split; [exact H|].
  exact (proj2 (proj2 (generate_label_color_pure (B := demo_backend) 1)) _ H).
Defined.

(** The first two thousand label ids all get a colour. *)
Example colorFor_defined :
  forallb (fun id => is_ok (colorFor id)) (map Z.of_nat (seq 0 2000)) = true.
Proof. vm_compute. reflexivity. Qed.

(** C9, as stated, fails: the code multiplies by 0.618033988749895, not by
    0.6180339887, and already for id 1 the colour differs from the colour of
    the stated formula (in its green component). *)
Lemma generate_label_color_differs_from_stated_constant :
  fst (widget._generate_label_color (B := demo_backend) 1 demo_widget)
    <> colorFor_as_specified 1.
Proof.
  intros H.
  apply (f_equal (fun r : result (list float) =>
                    match r with
                    | Ok [_; g; _; _] => (g =? 0.41176501130047849)%float
                    | _ => false
                    end)) in H.
  vm_compute in H. discriminate.
Qed.

(** For large ids the two constants give unrelated hues. *)
Example colorFor_large_id :
  colorFor 10000000000
    = Ok [0.18999999999999995; 0.94999999999999996; 0.94521202087402334; 1]%float
  /\ colorFor_as_specified 10000000000
    = Ok [0.94999999999999996; 0.18999999999999995; 0.18999999999999995; 1]%float.
Proof. split; vm_compute; reflexivity. Qed.

(** ** _widget.py: the layers of the viewer and their events *)

Section LayerEvents.
Context `{B : SamBackend}.
Import widget.

Lemma find_layer_update_layer (name : string)
    (f : widget.Layer -> widget.Layer) (ls : list (string * widget.Layer)) :
  widget.find_layer name (widget.update_layer name f ls) = f <$> widget.find_layer name ls.
Proof.
  induction ls as [|[n l] ls IH]; cbn; [reflexivity|].
  destruct (String.eqb n name) eqn:E; cbn; rewrite E; [reflexivity | exact IH].
Qed.

Lemma find_layer_remove_layer (name : string) (ls : list (string * Layer)) :
  find_layer name (remove_layer name ls) = None.
Proof.
  unfold remove_layer. induction ls as [|[n l] ls IH]; cbn; [reflexivity|].
  destruct (String.eqb n name) eqn:E; cbn; [exact IH | now rewrite E].
Qed.

Lemma find_layer_remove_other (name other : string) (ls : list (string * Layer)) :
  String.eqb other name = false ->
  find_layer name (remove_layer other ls) = find_layer name ls.
Proof.
  intros Hne. unfold remove_layer. induction ls as [|[n l] ls IH]; cbn; [reflexivity|].
  destruct (String.eqb n other) eqn:E; cbn.
  - apply String.eqb_eq in E. subst n. now rewrite Hne.
  - now rewrite IH.
Qed.

Lemma find_layer_update_other (name other : string) (f : Layer -> Layer) (ls : list (string * Layer)) :
  String.eqb other name = false ->
  find_layer name (update_layer other f ls) = find_layer name ls.
Proof.
  intros Hne. induction ls as [|[n l] ls IH]; cbn; [reflexivity|].
  destruct (String.eqb n other) eqn:E; cbn.
  - apply String.eqb_eq in E. subst n. now rewrite Hne.
  - now rewrite IH.
Qed.

Lemma find_layer_add_layer (name : string) (l : Layer) (ls : list (string * Layer)) :
  find_layer name ls = None -> find_layer name (add_layer name l ls) = Some l.
Proof.
  unfold add_layer. induction ls as [|[n l'] ls IH]; cbn.
  - now rewrite String.eqb_refl.
  - destruct (String.eqb n name); [discriminate | exact IH].
Qed.

Lemma find_layer_add_other (name other : string) (l : Layer) (ls : list (string * Layer)) :
  String.eqb other name = false ->
  find_layer name (add_layer other l ls) = find_layer name ls.
Proof.
  intros Hne. unfold add_layer. induction ls as [|[n l'] ls IH]; cbn.
  - now rewrite Hne.
  - destruct (String.eqb n name); [reflexivity | exact IH].
Qed.

Lemma remove_layer_cons (name n : string) (l : Layer) (ls : list (string * Layer)) :
  remove_layer name ((n, l) :: ls)
  = if String.eqb n name then remove_layer name ls else (n, l) :: remove_layer name ls.
Proof. unfold remove_layer. cbn. destruct (String.eqb n name); reflexivity. Qed.

Lemma removed_layers_idempotent (ls : list (string * Layer)) :
  let R := fun ls => remove_layer preview_layer_name (remove_layer mask_layer_name ls) in
  R (R ls) = R ls.
Proof.
  cbv zeta. induction ls as [|[n l] ls IH]; [reflexivity|].
  rewrite !remove_layer_cons.
  destruct (String.eqb n mask_layer_name) eqn:E1; [exact IH|].
  rewrite !remove_layer_cons.
  destruct (String.eqb n preview_layer_name) eqn:E2; [exact IH|].
  rewrite !remove_layer_cons, E1, remove_layer_cons, E2. f_equal. exact IH.
Qed.

Lemma cleared_layers_idempotent (f : Layer -> Layer) (ls : list (string * Layer)) :
  (forall l, f (f l) = f l) ->
  let F := fun ls =>
    remove_layer preview_layer_name
      (remove_layer mask_layer_name (update_layer shapes_layer_name f ls)) in
  F (F ls) = F ls.
Proof.
  intros Hf. cbv zeta. induction ls as [|[n l] ls IH]; [reflexivity|].
  cbn [update_layer]. destruct (String.eqb n shapes_layer_name) eqn:E.
  - apply String.eqb_eq in E. subst n.
    rewrite !remove_layer_cons.
    replace (String.eqb shapes_layer_name mask_layer_name) with false by reflexivity.
    rewrite !remove_layer_cons.
    replace (String.eqb shapes_layer_name preview_layer_name) with false by reflexivity.
    cbn [update_layer]. rewrite String.eqb_refl.
    rewrite !remove_layer_cons.
    replace (String.eqb shapes_layer_name mask_layer_name) with false by reflexivity.
    rewrite !remove_layer_cons.
    replace (String.eqb shapes_layer_name preview_layer_name) with false by reflexivity.
    rewrite Hf. f_equal. apply removed_layers_idempotent.
  - rewrite !remove_layer_cons.
    destruct (String.eqb n mask_layer_name) eqn:E1; [exact IH|].
    rewrite !remove_layer_cons.
    destruct (String.eqb n preview_layer_name) eqn:E2; [exact IH|].
    cbn [update_layer]. rewrite E.
    rewrite !remove_layer_cons, E1, remove_layer_cons, E2. f_equal. exact IH.
Qed.

Lemma update_layer_absent (name : string) (f : Layer -> Layer) (ls : list (string * Layer)) :
  find_layer name ls = None -> update_layer name f ls = ls.
Proof.
  induction ls as [|[n l] ls IH]; cbn; [reflexivity|].
  destruct (String.eqb n name); [discriminate|]. intros H. now rewrite IH.
Qed.

(** What [_on_layer_change] leaves behind, field by field. *)
Lemma after_layer_event_eq (w : Widget) :
  after_layer_event w
  = match find_layer labels_layer_name (viewer w) with
    | Some layer =>
        let w1 :=
          match md_label_names (metadata layer) with
          | Some names =>
              if is_nil names then set_label_names names w
              else set_next_label_id (max_default0 (keys names) + 1) (set_label_names names w)
          | None => w
          end in
        match md_label_colors (metadata layer) with
        | Some colors => set_label_colors colors w1
        | None => w1
        end
    | None => w
    end.
Proof.
  unfold after_layer_event, _on_layer_change. run.
  destruct (find_layer labels_layer_name (viewer w)) as [layer|]; [|reflexivity].
  destruct (md_label_names (metadata layer)) as [[|[k v] names]|];
    destruct (md_label_colors (metadata layer)); reflexivity.
Qed.

Lemma on_layer_change_run (w : Widget) : _on_layer_change w = (Ok tt, after_layer_event w).
Proof.
  unfold after_layer_event, _on_layer_change. run.
  destruct (find_layer labels_layer_name (viewer w)) as [layer|]; [|reflexivity].
  destruct (md_label_names (metadata layer)) as [[|[k v] names]|];
    destruct (md_label_colors (metadata layer)); reflexivity.
Qed.

(** A layer event touches the label map, the colours and the counter only. *)
Lemma after_layer_event_frame (w : Widget) :
  viewer (after_layer_event w) = viewer w
  /\ model (after_layer_event w) = model w
  /\ model_loaded (after_layer_event w) = model_loaded w
  /\ current_image (after_layer_event w) = current_image w
  /\ current_layer (after_layer_event w) = current_layer w
  /\ result_masks (after_layer_event w) = result_masks w
  /\ result_scores (after_layer_event w) = result_scores w
  /\ selected_mask_idx (after_layer_event w) = selected_mask_idx w
  /\ label_mask_history (after_layer_event w) = label_mask_history w.
Proof.
  rewrite after_layer_event_eq.
  destruct (find_layer labels_layer_name (viewer w)) as [layer|]; [|repeat split].
  destruct (md_label_names (metadata layer)) as [[|[k v] names]|];
    destruct (md_label_colors (metadata layer)); repeat split.
Qed.

Lemma after_layer_event_no_labels (w : Widget) :
  find_layer labels_layer_name (viewer w) = None -> after_layer_event w = w.
Proof. intros H. rewrite after_layer_event_eq, H. reflexivity. Qed.

(** The label state after a layer event is read from the labels layer and,
    for what the layer does not carry, from the label state before. *)
Lemma label_state_after_event_ext (w1 w2 : Widget) :
  find_layer labels_layer_name (viewer w1) = find_layer labels_layer_name (viewer w2) ->
  label_state w1 = label_state w2 ->
  label_state (after_layer_event w1) = label_state (after_layer_event w2).
Proof.
  intros Hl Hs. rewrite !after_layer_event_eq, Hl.
  unfold label_state in *. injection Hs as Hn Hc Hi.
  destruct (find_layer labels_layer_name (viewer w2)) as [layer|]; [|cbn; congruence].
  destruct (md_label_names (metadata layer)) as [[|[k v] names]|];
    destruct (md_label_colors (metadata layer)); cbn; congruence.
Qed.

Lemma after_layer_event_twice (w : Widget) :
  after_layer_event (after_layer_event w) = after_layer_event w.
Proof.
  rewrite (after_layer_event_eq (after_layer_event w)).
  destruct (after_layer_event_frame w) as (-> & _).
  rewrite (after_layer_event_eq w).
  destruct (find_layer labels_layer_name (viewer w)) as [layer|]; [|reflexivity].
  destruct w.
  destruct (md_label_names (metadata layer)) as [[|[k v] names]|];
    destruct (md_label_colors (metadata layer)); reflexivity.
Qed.

Lemma layers_remove_run (name : string) (w : Widget) :
  layers_remove name w
  = (Ok tt, after_layer_event (set_viewer (remove_layer name (viewer w)) w)).
Proof.
  unfold layers_remove. unfold mbind, M_bind, modify.
  now rewrite on_layer_change_run.
Qed.

Lemma layers_insert_run (name : string) (l : Layer) (w : Widget) :
  layers_insert name l w
  = (Ok tt, after_layer_event (set_viewer (add_layer name l (viewer w)) w)).
Proof.
  unfold layers_insert. unfold mbind, M_bind, modify.
  now rewrite on_layer_change_run.
Qed.

Lemma remove_layer_absent (name : string) (ls : list (string * Layer)) :
  find_layer name ls = None -> remove_layer name ls = ls.
Proof.
  induction ls as [|[n l] ls IH]; [reflexivity|]. cbn [find_layer].
  rewrite remove_layer_cons. destruct (String.eqb n name); [discriminate|].
  intros H. now rewrite IH.
Qed.

Lemma has_layer_false (name : string) (ls : list (string * Layer)) :
  has_layer name ls = false -> find_layer name ls = None.
Proof. unfold has_layer. now destruct (find_layer name ls). Qed.

(** A layer event and a change of the viewer that leaves the labels layer
    alone can be swapped. *)
Lemma after_layer_event_set_viewer (v : list (string * Layer)) (w : Widget) :
  find_layer labels_layer_name v = find_layer labels_layer_name (viewer w) ->
  after_layer_event (set_viewer v w) = set_viewer v (after_layer_event w).
Proof.
  intros H. rewrite !after_layer_event_eq. cbn [viewer set_viewer]. rewrite H.
  destruct (find_layer labels_layer_name (viewer w)) as [layer|]; [|reflexivity].
  destruct (md_label_names (metadata layer)) as [[|[k x] names]|];
    destruct (md_label_colors (metadata layer)); reflexivity.
Qed.

Lemma after_layer_event_set_results (m : mask_seq) (s : list float) (i : nat) (w : Widget) :
  after_layer_event (set_results m s i w) = set_results m s i (after_layer_event w).
Proof.
  rewrite !after_layer_event_eq. cbn [viewer set_results].
  destruct (find_layer labels_layer_name (viewer w)) as [layer|]; [|reflexivity].
  destruct (md_label_names (metadata layer)) as [[|[k x] names]|];
    destruct (md_label_colors (metadata layer)); reflexivity.
Qed.

(** What [_display_mask] does: the mask layer shows the mask and every other
    layer is as before; a mask layer that is new is a layer event. *)
Lemma display_mask_run (mask : ndarray) (w : Widget) :
  exists v,
    _display_mask mask w
    = (Ok tt,
       set_viewer v (if has_layer mask_layer_name (viewer w) then w else after_layer_event w))
    /\ layer_data <$> find_layer mask_layer_name v = Some (ArrayData mask)
    /\ forall name, String.eqb mask_layer_name name = false ->
         find_layer name v = find_layer name (viewer w).
Proof.
  unfold _display_mask, on_layer, has_layer. run.
  destruct (find_layer mask_layer_name (viewer w)) as [l|] eqn:E; cbn.
  - eexists. split; [reflexivity|]. split.
    + now rewrite find_layer_update_layer, E.
    + intros name Hne. now apply find_layer_update_other.
  - rewrite layers_insert_run, after_layer_event_set_viewer
      by (now apply find_layer_add_other).
    eexists. split; [reflexivity|]. split.
    + now rewrite find_layer_add_layer.
    + intros name Hne. now apply find_layer_add_other.
Qed.

(** What [_clear_annotations] does: the annotation layer is emptied, the
    mask and preview layers are removed and the prediction is discarded; a
    layer that is removed is a layer event. *)
Lemma clear_annotations_run (w : Widget) :
  _clear_annotations w
  = (Ok tt,
     set_results (MaskList []) [] 0
       (set_viewer
          (remove_layer preview_layer_name
             (remove_layer mask_layer_name
                (update_layer shapes_layer_name
                   (fun l => set_point_type (Some []) (set_layer_data (ShapesData []) l))
                   (viewer w))))
          (if has_layer mask_layer_name (viewer w) || has_layer preview_layer_name (viewer w)
           then after_layer_event w else w))).
Proof.
  set (f := fun l => set_point_type (Some []) (set_layer_data (ShapesData []) l)).
  assert (Hs : fst (((if find_layer shapes_layer_name (viewer w) is Some _
                      then on_layer shapes_layer_name f else mret tt) : M Widget unit) w)
               = Ok tt
               /\ snd (((if find_layer shapes_layer_name (viewer w) is Some _
                         then on_layer shapes_layer_name f else mret tt) : M Widget unit) w)
                  = set_viewer (update_layer shapes_layer_name f (viewer w)) w).
  { destruct (find_layer shapes_layer_name (viewer w)) eqn:E; cbn; [auto|].
    rewrite update_layer_absent by exact E. now destruct w. }
  unfold _clear_annotations. fold f.
  unfold mbind at 1, M_bind at 1, gets at 1.
  unfold mbind at 1, M_bind at 1.
  destruct Hs as [Hs1 Hs2].
  destruct ((if find_layer shapes_layer_name (viewer w) is Some _
             then on_layer shapes_layer_name f else mret tt) w) as [r w1].
  cbn in Hs1, Hs2. subst r w1.
  set (v1 := update_layer shapes_layer_name f (viewer w)).
  assert (Hm1 : find_layer mask_layer_name v1 = find_layer mask_layer_name (viewer w))
    by (now apply find_layer_update_other).
  assert (Hp1 : find_layer preview_layer_name v1 = find_layer preview_layer_name (viewer w))
    by (now apply find_layer_update_other).
  assert (Hl1 : find_layer labels_layer_name v1 = find_layer labels_layer_name (viewer w))
    by (now apply find_layer_update_other).
  pose proof (proj1 (after_layer_event_frame w)) as Hv.
  unfold mbind at 1, M_bind at 1, gets at 1.
  unfold mbind at 1, M_bind at 1.
  cbn [viewer set_viewer]. rewrite Hm1. unfold has_layer.
  destruct (find_layer mask_layer_name (viewer w)) as [lm|] eqn:Em.
  - rewrite layers_remove_run. cbn [viewer set_viewer orb].
    rewrite !after_layer_event_set_viewer
      by (cbn [viewer set_viewer]; rewrite ?find_layer_remove_other by reflexivity;
          first [reflexivity | exact Hl1]).
    unfold mbind at 1, M_bind at 1, gets at 1.
    unfold mbind at 1, M_bind at 1.
    cbn [viewer set_viewer].
    rewrite find_layer_remove_other by reflexivity. rewrite Hp1.
    destruct (find_layer preview_layer_name (viewer w)) as [lp|] eqn:Ep.
    + rewrite layers_remove_run. cbn [viewer set_viewer].
      rewrite !after_layer_event_set_viewer
        by (cbn [viewer set_viewer]; rewrite ?find_layer_remove_other by reflexivity;
            rewrite ?Hv; first [reflexivity | exact Hl1]).
      rewrite after_layer_event_twice.
      unfold modify. now destruct (after_layer_event w).
    + unfold mret, M_ret, modify. cbn [viewer set_viewer].
      rewrite (remove_layer_absent preview_layer_name).
      2:{ rewrite find_layer_remove_other by reflexivity. now rewrite Hp1. }
      now destruct (after_layer_event w).
  - unfold mret at 1, M_ret at 1.
    rewrite (remove_layer_absent mask_layer_name v1) by (now rewrite Hm1).
    unfold mbind at 1, M_bind at 1, gets at 1.
    unfold mbind at 1, M_bind at 1.
    cbn [viewer set_viewer orb]. rewrite Hp1.
    destruct (find_layer preview_layer_name (viewer w)) as [lp|] eqn:Ep.
    + rewrite layers_remove_run. cbn [viewer set_viewer].
      rewrite !after_layer_event_set_viewer
        by (cbn [viewer set_viewer]; rewrite ?find_layer_remove_other by reflexivity;
            first [reflexivity | exact Hl1]).
      unfold modify. now destruct (after_layer_event w).
    + unfold mret, M_ret, modify.
      rewrite (remove_layer_absent preview_layer_name v1) by (now rewrite Hp1).
      now destruct w.
Qed.

End LayerEvents.

#[global] Arguments after_layer_event : simpl never.
#[global] Arguments widget._on_layer_change : simpl never.
#[global] Arguments widget.layers_insert : simpl never.
#[global] Arguments widget.layers_remove : simpl never.

(** ** _widget.py: the prediction held by the widget *)

Section HeldPrediction.
Context `{B : SamBackend}.
Import widget.

Lemma on_model_results {A} (m : M mobilesam_wrapper.MobileSamWrapper A) (w : Widget) :
  let w' := snd (on_model m w) in
  result_masks w' = result_masks w /\ result_scores w' = result_scores w
  /\ selected_mask_idx w' = selected_mask_idx w.
Proof.
  unfold on_model. destruct (model w) as [mw|]; [|cbn; auto].
  destruct (m mw) as [r mw']. cbn. auto.
Qed.

(** [_set_current_image] never touches the prediction held by the widget
    (candidate masks, scores and selected index), whatever the state and
    whether or not the image is accepted by the model; [_clear_annotations]
    always succeeds and leaves no candidate, no score and index 0. *)
Theorem set_current_image_keeps_prediction
    (image_combo : list string) (selected_layer_name : string) (w : Widget) :
  (let w' := snd (_set_current_image image_combo selected_layer_name w) in
   result_masks w' = result_masks w /\ result_scores w' = result_scores w
   /\ selected_mask_idx w' = selected_mask_idx w)
  /\ (let w' := snd (_clear_annotations w) in
      fst (_clear_annotations w) = Ok tt
      /\ result_masks w' = MaskList [] /\ result_scores w' = []
      /\ selected_mask_idx w' = 0%nat).
Proof.
  split.
  - unfold _set_current_image. run.
    destruct (model_loaded w); cbn; [|auto].
    destruct (is_nil image_combo); cbn; [auto|].
    destruct (find_layer selected_layer_name (viewer w)) as [l|]; cbn; [|auto].
    destruct (kind l); cbn; auto.
    pose proof (on_model_results
                  (mobilesam_wrapper.set_image (as_image (layer_data l))) w) as H.
    destruct (on_model _ w) as [[[]|e] w1]; cbn in *; exact H.
  - rewrite clear_annotations_run. cbn. auto.
Qed.

End HeldPrediction.

(** C5. The code does not do what the claim asks on the path of the
    set-image button, which runs [_set_current_image] alone: a new current
    image is set (the model accepts it and the widget records the layer
    "next") and the three candidates and scores of the earlier prediction are
    still held. Loading an image of the folder, [_load_image_by_index], runs
    [_clear_annotations] right after [_set_current_image] and does discard
    them. *)
Theorem set_current_image_does_not_clear :
  let w' := snd (widget._set_current_image (B := demo_backend)
                   ["image"; "next"]%string "next"%string demo_widget) in
  fst (widget._set_current_image (B := demo_backend)
         ["image"; "next"]%string "next"%string demo_widget) = Ok tt
  /\ widget.current_layer w' = Some "next"%string
  /\ widget.result_masks w' = MaskArray demo_masks
  /\ widget.result_scores w' = demo_scores
  /\ widget.result_masks w' <> MaskList []
  /\ widget.result_scores w' <> [].
Proof. vm_compute. repeat split; try reflexivity; discriminate. Qed.

(** ** _widget.py: adjusting the boundary of the selected candidate *)

Lemma gshape_imap {A C} (g : grid A) : forall (F : nat -> list A -> list C),
  (forall i row, length (F i row) = length row) ->
  gshape (imap F g) = gshape g.
Proof.
  unfold gshape. induction g as [|row g IH]; intros F HF; cbn; [reflexivity|].
  rewrite HF. f_equal. apply IH. intros i r. apply HF.
Qed.

Lemma gshape_morph (pick : Z -> Z -> Z) (g : grid Z) : gshape (morph pick g) = gshape g.
Proof. unfold morph. apply gshape_imap. intros i row. apply length_imap. Qed.

Lemma arr_shape_mask_to_binary (mask : ndarray) (threshold : float) :
  arr_shape (mask_to_binary mask threshold) = arr_shape mask.
Proof.
  destruct (mask_to_binary_output mask threshold) as (g & -> & Hs & _). exact Hs.
Qed.

Lemma gshape_astype_int (d : int_dtype) (a : ndarray) : gshape (astype_int d a) = arr_shape a.
Proof. destruct a; cbn; apply gshape_gmap2. Qed.

Lemma gshape_astype_float (d : float_dtype) (a : ndarray) :
  gshape (astype_float d a) = arr_shape a.
Proof. destruct a; cbn; apply gshape_gmap2. Qed.

Lemma arr_shape_adjusted (operation_type : Z) (mask : ndarray) :
  arr_shape (as_float32 (adjusted operation_type mask)) = arr_shape mask.
Proof.
  unfold as_float32, adjusted. cbn [arr_shape]. rewrite gshape_astype_float. cbn [arr_shape].
  destruct (0 <? operation_type); unfold cv2_dilate, cv2_erode;
    now rewrite gshape_morph, gshape_astype_int, arr_shape_mask_to_binary.
Qed.

Lemma stack_get_Some_lt (s : ndarray3) (i : nat) (a : ndarray) :
  stack_get s i = Some a -> (i < stack_len s)%nat.
Proof.
  destruct s as [l|d l|d l]; cbn; destruct (l !! i) eqn:E; try discriminate;
    intros _; now apply lookup_lt_Some in E.
Qed.

Lemma masks_get_Ok_lt (masks : mask_seq) (i : nat) (a : ndarray) :
  masks_get masks i = Ok a -> (i < masks_len masks)%nat.
Proof.
  destruct masks as [l|s]; cbn.
  - unfold index. destruct (l !! i) eqn:E; [|discriminate]. intros _.
    now apply lookup_lt_Some in E.
  - destruct (stack_get s i) eqn:E; [|discriminate]. intros _.
    now apply stack_get_Some_lt in E.
Qed.

Lemma masks_get_total (masks : mask_seq) (i : nat) :
  (i < masks_len masks)%nat -> exists a, masks_get masks i = Ok a.
Proof.
  destruct masks as [l|[l|d l|d l]]; cbn; unfold index; intros H;
    destruct (lookup_lt_is_Some_2 l i H) as [x ->]; cbn; eauto.
Qed.

(** An assignment to one position of the candidates: the length and every
    other position are unchanged, and the position holds the assigned array
    as the container stores it. *)
Lemma masks_set_spec (masks : mask_seq) (i : nat) (old a : ndarray) :
  masks_get masks i = Ok old -> arr_shape old = arr_shape a ->
  exists masks',
    masks_set masks i a = Ok masks'
    /\ masks_len masks' = masks_len masks
    /\ (forall j, j <> i -> masks_get masks' j = masks_get masks j)
    /\ masks_get masks' i = Ok (stored masks a).
Proof.
  intros Hget Hshape. pose proof (masks_get_Ok_lt _ _ _ Hget) as Hlt.
  destruct masks as [l|s]; cbn [masks_get masks_len masks_set stored] in *.
  - exists (MaskList (<[i := a]> l)).
    replace (i <? length l)%nat with true by (symmetry; now apply Nat.ltb_lt).
    split; [reflexivity|]. split; [cbn; apply length_insert|]. split.
    + intros j Hj. cbn. unfold index. now rewrite list_lookup_insert_ne.
    + cbn. unfold index. now rewrite list_lookup_insert_eq.
  - unfold stack_set. destruct (stack_get s i) as [old'|] eqn:E; [|discriminate].
    injection Hget as ->. rewrite Hshape, bool_decide_eq_true_2 by reflexivity.
    destruct s as [l|d l|d l]; cbn in *; eexists; (split; [reflexivity|]); cbn;
      (split; [apply length_insert|]); split;
      try (intros j Hj; now rewrite list_lookup_insert_ne);
      now rewrite list_lookup_insert_eq.
Qed.

Section AdjustBoundary.
Context `{B : SamBackend}.
Import widget.

Lemma display_mask_results (mask : ndarray) (w : Widget) :
  fst (_display_mask mask w) = Ok tt
  /\ result_masks (snd (_display_mask mask w)) = result_masks w
  /\ result_scores (snd (_display_mask mask w)) = result_scores w
  /\ selected_mask_idx (snd (_display_mask mask w)) = selected_mask_idx w.
Proof.
  destruct (display_mask_run mask w) as (v & -> & _). cbn [fst snd].
  destruct (after_layer_event_frame w) as (_ & _ & _ & _ & _ & Hm & Hs & Hi & _).
  destruct (has_layer mask_layer_name (viewer w)); cbn; auto.
Qed.

(** C10 (amended). Adjusting the boundary of the selected candidate
    succeeds and changes only that candidate: the number of candidates, every
    other candidate mask, the whole score list and the selected index are
    unchanged. The selected candidate is assigned the binarised, dilated or
    eroded mask as a float32 array; a Python list holds that float32 array,
    while the numpy array returned by a prediction converts it to its own
    dtype (bool for the masks of the model). *)
Theorem adjust_mask_boundary_frame (operation_type : Z) (w : Widget) (mask : ndarray) :
  masks_get (result_masks w) (selected_mask_idx w) = Ok mask ->
  exists w',
    _adjust_mask_boundary operation_type w = (Ok tt, w')
    /\ result_scores w' = result_scores w
    /\ selected_mask_idx w' = selected_mask_idx w
    /\ masks_len (result_masks w') = masks_len (result_masks w)
    /\ (forall j, j <> selected_mask_idx w ->
          masks_get (result_masks w') j = masks_get (result_masks w) j)
    /\ masks_get (result_masks w') (selected_mask_idx w)
       = Ok (stored (result_masks w) (as_float32 (adjusted operation_type mask))).
Proof.
  intros Hget. pose proof (masks_get_Ok_lt _ _ _ Hget) as Hlt.
  destruct (masks_set_spec _ _ mask (as_float32 (adjusted operation_type mask)) Hget
              (eq_sym (arr_shape_adjusted operation_type mask)))
    as (masks' & Hset & Hlen & Hother & Hsel).
  unfold _adjust_mask_boundary.
  unfold mbind at 1, M_bind at 1, gets at 1.
  unfold mbind at 1, M_bind at 1, gets at 1.
  replace ((masks_len (result_masks w) =? 0)%nat
           || (masks_len (result_masks w) <=? selected_mask_idx w)%nat) with false.
  2:{ symmetry. apply orb_false_iff. split; [apply Nat.eqb_neq | apply Nat.leb_gt]; lia. }
  unfold mbind at 1, M_bind at 1, lift at 1. rewrite Hget.
  fold (adjusted operation_type mask). fold (as_float32 (adjusted operation_type mask)).
  unfold mbind at 1, M_bind at 1, lift at 1. rewrite Hset.
  unfold mbind at 1, M_bind at 1, modify at 1.
  unfold mbind at 1, M_bind at 1, lift at 1. rewrite Hsel.
  set (w1 := set_results masks' (result_scores w) (selected_mask_idx w) w).
  unfold mbind at 1, M_bind at 1.
  destruct (display_mask_results
              (stored (result_masks w) (as_float32 (adjusted operation_type mask))) w1)
    as (Hd & Hm & Hs & Hi).
  destruct (_display_mask _ w1) as [r w2]. cbn in Hd, Hm, Hs, Hi. subst r.
  unfold mbind at 1, M_bind at 1, gets at 1.
  destruct (find_layer preview_layer_name (viewer w2)).
  - eexists. split; [reflexivity|]. cbn. rewrite Hm, Hs, Hi. subst w1. cbn. auto.
  - eexists. split; [reflexivity|]. rewrite Hm, Hs, Hi. subst w1. cbn. auto.
Qed.

End AdjustBoundary.

(** *** The stored candidate as truth values *)

Lemma gmap2_ext_cells {A C} (f f' : A -> C) (g : grid A) :
  (forall i j v, cell g i j = Some v -> f v = f' v) -> gmap2 f g = gmap2 f' g.
Proof.
  intros H. unfold gmap2. apply list_fmap_ext. intros i row Hrow.
  apply list_fmap_ext. intros j v Hv. apply (H i j). unfold cell. now rewrite Hrow.
Qed.

Lemma gmap2_compose {A C D} (f : A -> C) (h : C -> D) (g : grid A) :
  gmap2 h (gmap2 f g) = gmap2 (fun x => h (f x)) g.
Proof.
  unfold gmap2. rewrite <- list_fmap_compose. apply list_fmap_ext.
  intros _ row _. cbn. now rewrite <- list_fmap_compose.
Qed.

Lemma binary_mask_to_binary (mask : ndarray) (threshold : float) :
  binary (astype_int uint8 (mask_to_binary mask threshold)).
Proof.
  destruct (mask_to_binary_output mask threshold) as (g & -> & _ & Hg).
  intros i j v. cbn [astype_int]. rewrite cell_gmap2.
  destruct (cell g i j) as [z|] eqn:E; cbn; [|discriminate].
  intros [= <-]. destruct (Hg i j z E) as [-> | ->]; auto.
Qed.

Lemma window3_cells (g : grid Z) (i j : nat) (x : Z) :
  x ∈ window3 g i j -> exists r c, cell g r c = Some x.
Proof.
  unfold window3. intros H.
  apply list_elem_of_bind in H as (r & H & _).
  apply list_elem_of_bind in H as (c & H & _).
  exists r, c. destruct (cell g r c) as [y|]; cbn in H.
  - apply list_elem_of_singleton in H. now subst.
  - inversion H.
Qed.

Lemma fold_pick_binary (pick : Z -> Z -> Z) (l : list Z) :
  (forall a b, (a = 0 \/ a = 1) -> (b = 0 \/ b = 1) -> pick a b = 0 \/ pick a b = 1) ->
  (forall x, x ∈ l -> x = 0 \/ x = 1) ->
  forall v, (v = 0 \/ v = 1) -> fold_left pick l v = 0 \/ fold_left pick l v = 1.
Proof.
  intros Hpick. induction l as [|x l IH]; intros Hl v Hv; cbn; [exact Hv|].
  apply IH.
  - intros y Hy. apply Hl. now right.
  - apply Hpick; [exact Hv | apply Hl; now left].
Qed.

Lemma binary_morph (pick : Z -> Z -> Z) (g : grid Z) :
  (forall a b, (a = 0 \/ a = 1) -> (b = 0 \/ b = 1) -> pick a b = 0 \/ pick a b = 1) ->
  binary g -> binary (morph pick g).
Proof.
  intros Hpick Hg i j v. unfold morph, cell. rewrite list_lookup_imap.
  destruct (g !! i) as [row|] eqn:Er; cbn; [|discriminate].
  rewrite list_lookup_imap. destruct (row !! j) as [x|] eqn:Ex; cbn; [|discriminate].
  intros [= <-]. apply fold_pick_binary; [exact Hpick | |].
  - intros y Hy. apply window3_cells in Hy as (r & c & Hy). eapply Hg, Hy.
  - apply (Hg i j). unfold cell. now rewrite Er.
Qed.

Lemma binary_adjusted (operation_type : Z) (mask : ndarray) :
  binary (adjusted operation_type mask).
Proof.
  unfold adjusted, cv2_dilate, cv2_erode. destruct (0 <? operation_type);
    apply binary_morph; try apply binary_mask_to_binary;
    intros a b [-> | ->] [-> | ->]; cbn; auto.
Qed.

(** In the bool array of a prediction the selected candidate becomes the
    adjusted mask read as truth values; in a Python list it becomes the
    float32 array with the values 0.0 and 1.0. *)
Lemma stored_in_bool_stack (l : list (grid bool)) (operation_type : Z) (mask : ndarray) :
  stored (MaskArray (BoolStack l)) (as_float32 (adjusted operation_type mask))
    = BoolArr (gmap2 (fun v => negb (v =? 0)) (adjusted operation_type mask)).
Proof.
  unfold stored, as_float32. cbn [astype_bool astype_float]. rewrite gmap2_compose.
  f_equal. apply gmap2_ext_cells. intros i j v Hv.
  destruct (binary_adjusted operation_type mask i j v Hv) as [-> | ->];
    vm_compute; reflexivity.
Qed.

Lemma stored_in_list (l : list ndarray) (operation_type : Z) (mask : ndarray) :
  stored (MaskList l) (as_float32 (adjusted operation_type mask))
    = FloatArr float32
        (gmap2 (fun v => if v =? 0 then 0%float else 1%float)
           (adjusted operation_type mask)).
Proof.
  unfold stored, as_float32. cbn [astype_float]. f_equal.
  apply gmap2_ext_cells. intros i j v Hv.
  destruct (binary_adjusted operation_type mask i j v Hv) as [-> | ->];
    vm_compute; reflexivity.
Qed.

Lemma adjust_mask_boundary_frame_witness :
  masks_get (widget.result_masks demo_widget) (widget.selected_mask_idx demo_widget)
    = Ok (BoolArr [[true; true]; [false; false]])
  /\ exists w',
       widget._adjust_mask_boundary (B := demo_backend) 1 demo_widget = (Ok tt, w')
       /\ widget.result_scores w' = demo_scores
       /\ masks_get (widget.result_masks w') 0 = Ok (BoolArr [[true; false]; [false; false]])
       /\ masks_get (widget.result_masks w') 1 = Ok (BoolArr [[true; true]; [true; true]]).
Proof.
  split; [reflexivity|].
  destruct (adjust_mask_boundary_frame (B := demo_backend) 1 demo_widget
              (BoolArr [[true; true]; [false; false]]) eq_refl)
    as (w' & Hrun & Hscores & _ & _ & Hother & Hsel).
  exists w'. split; [exact Hrun|]. split; [exact Hscores|]. split.
  - rewrite (Hother 0%nat); [reflexivity | discriminate].
  - exact Hsel.
Defined.

(** C10, as stated, fails on the masks a prediction returns: they are one
    bool array, and the adjusted candidate is stored in it as bool, not as
    the float32 array that is assigned. *)
Lemma adjust_mask_boundary_keeps_dtype :
  let w' := snd (widget._adjust_mask_boundary (B := demo_backend) 1 demo_widget) in
  as_float32 (adjusted 1 (BoolArr [[true; true]; [false; false]]))
    = FloatArr float32 [[1; 1]; [1; 1]]%float
  /\ masks_get (widget.result_masks w') 1 = Ok (BoolArr [[true; true]; [true; true]])
  /\ masks_get (widget.result_masks w') 1
     <> Ok (as_float32 (adjusted 1 (BoolArr [[true; true]; [false; false]]))).
Proof.
  vm_compute. split; [reflexivity|]. split; [reflexivity | discriminate].
Qed.

(** Held in a Python list, the candidate is replaced by the float32 array
    itself. *)
Example adjust_mask_boundary_in_list :
  let w := widget.set_results (B := demo_backend)
             (MaskList [BoolArr [[true; true]; [false; false]]]) [0.5%float] 0 demo_widget in
  masks_get (widget.result_masks (snd (widget._adjust_mask_boundary (-1) w))) 0
    = Ok (FloatArr float32 [[0; 0]; [0; 0]]%float).
Proof. vm_compute. reflexivity. Qed.

(** ** _widget.py: accepting a mask into the label raster *)

Lemma cell_gzip {A C D} (f : A -> C -> D) (g : grid A) (h : grid C) (i j : nat) :
  cell (gzip f g h) i j
    = match cell g i j, cell h i j with
      | Some a, Some c => Some (f a c)
      | _, _ => None
      end.
Proof.
  unfold cell, gzip. rewrite lookup_zip_with.
  destruct (g !! i) as [r|]; cbn; [|reflexivity].
  destruct (h !! i) as [s|]; cbn; [|destruct (r !! j); reflexivity].
  rewrite lookup_zip_with.
  destruct (r !! j); cbn; [|reflexivity]. destruct (s !! j); reflexivity.
Qed.

Lemma gshape_gzip {A C D} (f : A -> C -> D) (g : grid A) : forall (h : grid C),
  gshape g = gshape h -> gshape (gzip f g h) = gshape h.
Proof.
  unfold gshape, gzip.
  induction g as [|r g IH]; intros [|s h] H; try discriminate H; [reflexivity|].
  rewrite !fmap_cons in H. injection H as Hr Hg.
  cbn [zip_with]. rewrite !fmap_cons, (IH h Hg). f_equal.
  rewrite length_zip_with. lia.
Qed.

Lemma same_shape_cell {A C} (g : grid A) : forall (h : grid C) (i j : nat) (v : C),
  gshape g = gshape h -> cell h i j = Some v -> exists a, cell g i j = Some a.
Proof.
  unfold gshape, cell.
  induction g as [|r g IH]; intros [|s h] i j v H; try discriminate H.
  - destruct i; discriminate.
  - rewrite !fmap_cons in H. injection H as Hr Hg. destruct i as [|i]; cbn.
    + intros Hv. apply lookup_lt_Some in Hv. rewrite <- Hr in Hv.
      destruct (lookup_lt_is_Some_2 r j Hv) as [a ->]. eauto.
    + apply IH. exact Hg.
Qed.

Lemma fits_zero (d : int_dtype) : fits d 0 = true.
Proof. destruct d; reflexivity. Qed.

Lemma assign_where_ok (d : int_dtype) (cond : grid bool) (v : Z) (g : grid Z) :
  gshape cond = gshape g -> fits d v = true ->
  assign_where d cond v g = Ok (gzip (fun (c : bool) x => if c then v else x) cond g).
Proof.
  intros Hs Hf. unfold assign_where, same_shape.
  rewrite bool_decide_eq_true_2 by exact Hs. rewrite Hf. reflexivity.
Qed.

Lemma gshape_gt_zero (a : ndarray) : gshape (gt_zero a) = arr_shape a.
Proof. destruct a; cbn; [reflexivity | apply gshape_gmap2 | apply gshape_gmap2]. Qed.

Lemma max_default0_ge (xs : list Z) (k : Z) : In k xs -> k <= max_default0 xs.
Proof.
  unfold max_default0. destruct xs as [|x rest]; [intros []|].
  assert (H : forall l acc, acc <= fold_left Z.max l acc
                            /\ forall y, In y l -> y <= fold_left Z.max l acc).
  { induction l as [|y l IH]; intros acc; cbn; [split; [lia | intros ? []]|].
    destruct (IH (Z.max acc y)) as [H1 H2]. split; [lia|].
    intros z [<-|Hz]; [lia | auto]. }
  destruct (H rest x) as [H1 H2]. intros [<-|Hk]; auto.
Qed.

Lemma dict_set_fresh {V} (k : Z) (v : V) (d : dict V) :
  ~ In k (keys d) -> dict_set k v d = d ++ [(k, v)].
Proof.
  unfold keys. induction d as [|[k' v'] d IH]; cbn; [reflexivity|].
  intros H. destruct (Z.eqb_spec k k') as [->|Hne]; [tauto|].
  rewrite IH; [reflexivity | tauto].
Qed.

Lemma new_id_fresh (names : dict string) :
  let id := max_default0 (keys names) + 1 in
  ~ In id (keys names) /\ (forall k, In k (keys names) -> k < id) /\ (names = [] -> id = 1).
Proof.
  intros id. split; [|split].
  - intros H. apply max_default0_ge in H. lia.
  - intros k H. apply max_default0_ge in H. lia.
  - intros ->. reflexivity.
Qed.

Section AcceptMask.
Context `{B : SamBackend}.
Import widget.

#[local] Arguments mask_to_binary : simpl never.
#[local] Arguments label_name_of : simpl never.
#[local] Arguments find_label_id : simpl never.
#[local] Arguments find_layer : simpl never.
#[local] Arguments update_layer : simpl never.
#[local] Arguments assign_where : simpl never.
#[local] Arguments assign_scalar : simpl never.
#[local] Arguments eq_scalar : simpl never.
#[local] Arguments relabel : simpl never.
#[local] Arguments masks_get : simpl never.
#[local] Arguments masks_len : simpl never.
#[local] Arguments gt_zero : simpl never.
#[local] Arguments max_default0 : simpl never.
#[local] Arguments dict_set : simpl never.
#[local] Arguments _generate_label_color : simpl never.
#[local] Arguments colorFor : simpl never.
#[local] Arguments label_id_in_layer : simpl never.
#[local] Arguments write_label : simpl never.
#[local] Arguments create_labels_layer : simpl never.
#[local] Arguments Nat.eqb : simpl never.
#[local] Arguments Nat.leb : simpl never.

Lemma generate_label_color_run (label_id : Z) (w : Widget) :
  _generate_label_color label_id w = (colorFor label_id, w).
Proof. reflexivity. Qed.

(** The id of a name the label map of the layer already holds. *)
Lemma label_id_in_layer_existing (l : Layer) (name : string) (w : Widget)
    (names : dict string) (L : Z) :
  md_label_names (metadata l) = Some names ->
  find_label_id names name = Some L ->
  label_id_in_layer l name w
    = (Ok L, set_label_colors (default (label_colors w) (md_label_colors (metadata l)))
               (set_label_names names w)).
Proof.
  intros Hn Hf. unfold label_id_in_layer. rewrite Hn. run. rewrite Hf.
  destruct (md_label_colors (metadata l)); reflexivity.
Qed.

Lemma write_label_ok (l : Layer) (L : Z) (name : string) (bm : ndarray) (idx : nat)
    (w : Widget) (d : int_dtype) (raster : grid Z) :
  layer_data l = ArrayData (IntArr d raster) ->
  gshape raster = arr_shape bm ->
  fits d L = true ->
  let raster' :=
    gzip (fun (c : bool) x => if c then L else x) (gt_zero bm)
      (gzip (fun (c : bool) x => if c then 0 else x) (gmap2 (Z.eqb L) raster) raster) in
  write_label l L name bm idx w
    = (Ok tt,
       set_viewer
         (update_layer labels_layer_name
            (fun l0 => set_metadata (Meta (Some (label_names w)) (Some (label_colors w)))
                         (set_layer_data (ArrayData (IntArr d raster')) l0))
            (viewer w))
         (set_label_mask_history
            (Some (dict_set L (MkHistory bm name idx) (default [] (label_mask_history w))))
            w)).
Proof.
  intros Hd Hs Hf raster'. unfold write_label, relabel, record_history, on_layer.
  rewrite Hd. unfold eq_scalar. run. unfold assign_scalar at 1.
  rewrite (assign_where_ok d _ 0 raster (gshape_gmap2 _ _) (fits_zero d)). run.
  unfold assign_scalar.
  rewrite (assign_where_ok d (gt_zero bm) L); [reflexivity | | exact Hf].
  rewrite gshape_gt_zero, gshape_gzip; [now symmetry | apply gshape_gmap2].
Qed.

Lemma guard_passes (masks : mask_seq) (idx : nat) (mask : ndarray) :
  masks_get masks idx = Ok mask ->
  (masks_len masks =? 0)%nat || (masks_len masks <=? idx)%nat = false.
Proof.
  intros H. apply masks_get_Ok_lt in H.
  apply orb_false_iff. split; [apply Nat.eqb_neq | apply Nat.leb_gt]; lia.
Qed.

Lemma accepted_pixel (bm : ndarray) (raster : grid Z) (L : Z) (i j : nat) (v : Z) :
  gshape raster = arr_shape bm -> cell raster i j = Some v ->
  cell (gzip (fun (c : bool) x => if c then L else x) (gt_zero bm)
          (gzip (fun (c : bool) x => if c then 0 else x) (gmap2 (Z.eqb L) raster) raster))
       i j
    = Some (if default false (cell (gt_zero bm) i j) then L
            else if L =? v then 0 else v).
Proof.
  intros Hs Hv. rewrite !cell_gzip, cell_gmap2, Hv. cbn.
  destruct (same_shape_cell (gt_zero bm) raster i j v) as [c Hc];
    [now rewrite gshape_gt_zero | exact Hv |].
  rewrite Hc. reflexivity.
Qed.

(** C2 (amended). Accepting a mask under a name that the label map of the
    labels layer already maps to an id L succeeds; afterwards the map, and so
    the id recorded for the name, and the colours are unchanged; every pixel
    inside the new mask equals L; every pixel that was L and lies outside the
    new mask is 0; and every pixel of another label (or unlabelled) outside
    the new mask is unchanged. Pixels of other labels inside the new mask are
    overwritten with L. *)
Theorem accept_existing_label (combo_text : string) (w : Widget) (mask : ndarray)
    (layer : Layer) (names : dict string) (L : Z) (d : int_dtype) (raster : grid Z) :
  masks_get (result_masks w) (selected_mask_idx w) = Ok mask ->
  find_layer labels_layer_name (viewer w) = Some layer ->
  md_label_names (metadata layer) = Some names ->
  find_label_id names (label_name_of combo_text (next_label_id w)) = Some L ->
  layer_data layer = ArrayData (IntArr d raster) ->
  gshape raster = arr_shape mask ->
  fits d L = true ->
  let colors := default (label_colors w) (md_label_colors (metadata layer)) in
  exists w' layer' raster',
    _add_mask_to_labels combo_text w = (Ok tt, w')
    /\ find_layer labels_layer_name (viewer w') = Some layer'
    /\ layer_data layer' = ArrayData (IntArr d raster')
    /\ label_names w' = names
    /\ md_label_names (metadata layer') = Some names
    /\ find_label_id (label_names w') (label_name_of combo_text (next_label_id w)) = Some L
    /\ label_colors w' = colors
    /\ md_label_colors (metadata layer') = Some colors
    /\ gshape raster' = gshape raster
    /\ (forall i j v, cell raster i j = Some v -> mask_on mask i j = true ->
          cell raster' i j = Some L)
    /\ (forall i j, cell raster i j = Some L -> mask_on mask i j = false ->
          cell raster' i j = Some 0)
    /\ (forall i j v, cell raster i j = Some v -> v <> L -> mask_on mask i j = false ->
          cell raster' i j = Some v).
Proof.
  intros Hmask Hlayer Hnames Hfound Hdata Hshape Hfits colors.
  set (bm := mask_to_binary mask default_threshold).
  assert (Hbm : gshape raster = arr_shape bm)
    by (subst bm; now rewrite arr_shape_mask_to_binary).
  set (name := label_name_of combo_text (next_label_id w)) in *.
  unfold _add_mask_to_labels. run.
  rewrite (guard_passes _ _ _ Hmask), Hmask, Hlayer.
  fold bm. fold name.
  rewrite (label_id_in_layer_existing layer name w names L Hnames Hfound).
  rewrite (write_label_ok layer L name bm _ _ d raster Hdata Hbm Hfits).
  eexists _, _, _. split; [reflexivity|].
  split; [cbn; rewrite find_layer_update_layer, Hlayer; reflexivity|].
  split; [reflexivity|]. split; [reflexivity|]. split; [reflexivity|].
  split; [exact Hfound|]. split; [reflexivity|]. split; [reflexivity|].
  split.
  { rewrite gshape_gzip; [apply gshape_gzip, gshape_gmap2|].
    rewrite gshape_gt_zero, gshape_gzip; [now symmetry | apply gshape_gmap2]. }
  unfold mask_on. fold bm.
  split; [|split].
  - intros i j v Hv Hon. rewrite (accepted_pixel bm raster L i j v Hbm Hv), Hon. reflexivity.
  - intros i j Hv Hoff. rewrite (accepted_pixel bm raster L i j L Hbm Hv), Hoff.
    now rewrite Z.eqb_refl.
  - intros i j v Hv Hne Hoff. rewrite (accepted_pixel bm raster L i j v Hbm Hv), Hoff.
    destruct (Z.eqb_spec L v); [congruence | reflexivity].
Qed.

(** Writing the mask never changes the label map of the widget, whether it
    succeeds or raises. *)
Lemma write_label_label_names (l : Layer) (id : Z) (name : string) (bm : ndarray)
    (idx : nat) (w : Widget) :
  label_names (snd (write_label l id name bm idx w)) = label_names w.
Proof.
  unfold write_label, record_history, on_layer. run.
  destruct (relabel id bm (layer_data l)) as [a|e]; reflexivity.
Qed.

(** A name that the label map of the layer does not hold gets the id
    [max + 1], recorded in the map before anything else can fail. *)
Lemma label_id_in_layer_new (l : Layer) (name : string) (w : Widget) (names : dict string) :
  md_label_names (metadata l) = Some names ->
  find_label_id names name = None ->
  let id := max_default0 (keys names) + 1 in
  label_names (snd (label_id_in_layer l name w)) = names ++ [(id, name)]
  /\ (fst (label_id_in_layer l name w) = Ok id
      \/ exists e, fst (label_id_in_layer l name w) = Raise e).
Proof.
  intros Hn Hf id. destruct (new_id_fresh names) as (Hfresh & _).
  unfold label_id_in_layer, on_layer. rewrite Hn. run. rewrite Hf.
  fold id. rewrite <- (dict_set_fresh id name names Hfresh).
  destruct (md_label_colors (metadata l)); cbn; rewrite generate_label_color_run;
    destruct (colorFor id) as [c|e]; cbn; eauto.
Qed.

(** Without a label map in the layer the id is the [next_label_id] counter
    of the widget and the map is started afresh. *)
Lemma label_id_in_layer_no_map (l : Layer) (name : string) (w : Widget) :
  md_label_names (metadata l) = None ->
  label_names (snd (label_id_in_layer l name w)) = [(next_label_id w, name)]
  /\ (fst (label_id_in_layer l name w) = Ok (next_label_id w)
      \/ exists e, fst (label_id_in_layer l name w) = Raise e).
Proof.
  intros Hn. unfold label_id_in_layer. rewrite Hn. run.
  rewrite generate_label_color_run.
  destruct (colorFor (next_label_id w)) as [c|e]; cbn; eauto.
Qed.

Lemma colorFor_one : exists c, colorFor 1 = Ok c.
Proof. eexists. vm_compute. reflexivity. Qed.

Lemma gshape_zeros_like (a : ndarray) : gshape (zeros_like a) = arr_shape a.
Proof. destruct a; cbn; apply gshape_gmap2. Qed.

(** The state [create_labels_layer] leaves when there is no labels layer:
    the layer event of [add_labels] reads back what the widget has just
    stored in the metadata of the new layer. *)
Lemma create_labels_layer_run (mask : ndarray) (name : string) (idx : nat) (w : Widget) :
  find_layer labels_layer_name (viewer w) = None ->
  let bm := mask_to_binary mask default_threshold in
  exists c,
    create_labels_layer mask bm name idx w
    = (Ok tt,
       set_label_mask_history (Some [(1, MkHistory bm name idx)])
         (set_viewer
            (add_layer labels_layer_name
               (MkLayer LabelsLayer
                  (ArrayData
                     (IntArr int32
                        (gzip (fun (c : bool) x => if c then 1 else x) (gt_zero bm)
                           (zeros_like mask))))
                  (Meta (Some [(1, name)]) (Some [(1, c)])) None)
               (viewer w))
            (set_next_label_id 2 (set_label_colors [(1, c)] (set_label_names [(1, name)] w))))).
Proof.
  intros El bm. destruct colorFor_one as [c Hc]. exists c.
  unfold create_labels_layer. run. rewrite generate_label_color_run, Hc. run.
  rewrite (assign_where_ok int32 (gt_zero bm) 1 (zeros_like mask)); [| |reflexivity].
  2:{ subst bm. now rewrite gshape_gt_zero, gshape_zeros_like, arr_shape_mask_to_binary. }
  run. rewrite layers_insert_run. cbn [fst snd viewer set_viewer].
  rewrite after_layer_event_eq. cbn [viewer set_viewer].
  rewrite find_layer_add_layer by exact El. reflexivity.
Qed.

(** Without a labels layer the accept always succeeds and starts the map
    with the id 1. *)
Lemma create_labels_layer_ok (mask : ndarray) (name : string) (idx : nat) (w : Widget) :
  find_layer labels_layer_name (viewer w) = None ->
  let bm := mask_to_binary mask default_threshold in
  exists w', create_labels_layer mask bm name idx w = (Ok tt, w')
    /\ label_names w' = [(1, name)] /\ next_label_id w' = 2.
Proof.
  intros El bm. destruct (create_labels_layer_run mask name idx w El) as [c Hc].
  cbv zeta in Hc. fold bm in Hc. rewrite Hc. eexists. split; [reflexivity|]. cbn. auto.
Qed.

(** The id of a new name, branch by branch. When the labels layer carries
    a label map, accepting a mask under a name not present in the map
    allocates [id = max(existing ids, default 0) + 1] and records the entry:
    the new id is different from and greater than every existing id, and it
    is 1 for an empty map. When no labels layer exists the map is started
    with the id 1. When a labels layer exists without a label map, the id is
    the widget's [next_label_id] counter. *)
Lemma accept_new_label (combo_text : string) (w : Widget) (mask : ndarray) :
  masks_get (result_masks w) (selected_mask_idx w) = Ok mask ->
  let name := label_name_of combo_text (next_label_id w) in
  let w' := snd (_add_mask_to_labels combo_text w) in
  (forall layer names,
      find_layer labels_layer_name (viewer w) = Some layer ->
      md_label_names (metadata layer) = Some names ->
      find_label_id names name = None ->
      let id := max_default0 (keys names) + 1 in
      label_names w' = names ++ [(id, name)]
      /\ ~ In id (keys names)
      /\ (forall k, In k (keys names) -> k < id)
      /\ (names = [] -> id = 1)
      /\ (NoDup (keys names) -> NoDup (keys (label_names w'))))
  /\ (find_layer labels_layer_name (viewer w) = None ->
      fst (_add_mask_to_labels combo_text w) = Ok tt
      /\ label_names w' = [(1, name)] /\ next_label_id w' = 2)
  /\ (forall layer,
        find_layer labels_layer_name (viewer w) = Some layer ->
        md_label_names (metadata layer) = None ->
        label_names w' = [(next_label_id w, name)]).
Proof.
  intros Hmask name w'.
  assert (Hrun : forall layer,
             find_layer labels_layer_name (viewer w) = Some layer ->
             _add_mask_to_labels combo_text w
             = (let (r, s) := label_id_in_layer layer name w in
                match r with
                | Ok id => write_label layer id name
                             (mask_to_binary mask default_threshold) (selected_mask_idx w) s
                | Raise e => (Raise e, s)
                end)).
  { intros layer Hl. unfold _add_mask_to_labels. run.
    rewrite (guard_passes _ _ _ Hmask), Hmask, Hl. reflexivity. }
  split; [|split].
  - intros layer names Hl Hn Hf id.
    destruct (new_id_fresh names) as (Hfresh & Hlt & Hone).
    assert (Hw : label_names w' = names ++ [(id, name)]).
    { subst w'. rewrite (Hrun layer Hl).
      destruct (label_id_in_layer_new layer name w names Hn Hf) as [Hnames _].
      destruct (label_id_in_layer layer name w) as [[i|e] s]; cbn in *; [|exact Hnames].
      now rewrite write_label_label_names. }
    split; [exact Hw|]. split; [exact Hfresh|]. split; [exact Hlt|]. split; [exact Hone|].
    intros Hnd. rewrite Hw. unfold keys. rewrite map_app. cbn.
    apply NoDup_app. split; [exact Hnd|]. split.
    + intros k Hk Hin. apply list_elem_of_In in Hin, Hk. destruct Hin as [<-|[]].
      apply Hfresh. exact Hk.
    + apply NoDup_singleton.
  - intros Hl. subst w'. unfold _add_mask_to_labels. run.
    rewrite (guard_passes _ _ _ Hmask), Hmask, Hl.
    fold name.
    destruct (create_labels_layer_ok mask name (selected_mask_idx w) w Hl)
      as (w1 & Hc & H1 & H2).
    cbv zeta in Hc. rewrite Hc. auto.
  - intros layer Hl Hn. subst w'. rewrite (Hrun layer Hl).
    destruct (label_id_in_layer_no_map layer name w Hn) as [Hnames _].
    destruct (label_id_in_layer layer name w) as [[i|e] s]; cbn in *; [|exact Hnames].
    now rewrite write_label_label_names.
Qed.

End AcceptMask.

(** C2, as stated, fails where the new mask overlaps another label: the
    top-left pixel belongs to "nucleus" (id 2); accepting a mask that covers
    it under "cell" (id 1) overwrites it with 1. *)
Lemma accept_overwrites_other_label :
  let w' := snd (widget._add_mask_to_labels (B := demo_backend) "cell" demo_labeled_widget) in
  fst (widget._add_mask_to_labels (B := demo_backend) "cell" demo_labeled_widget) = Ok tt
  /\ widget.find_label_id demo_names "cell" = Some 1
  /\ cell demo_raster 0 0 = Some 2
  /\ mask_on (BoolArr [[true; false]; [false; false]]) 0 0 = true
  /\ (widget.layer_data <$> widget.find_layer widget.labels_layer_name (widget.viewer w'))
     = Some (widget.ArrayData (IntArr int32 [[1; 0]; [0; 0]]))
  /\ cell [[1; 0]; [0; 0]] 0 0 <> cell demo_raster 0 0.
Proof. vm_compute. repeat split; try reflexivity. discriminate. Qed.

Lemma accept_existing_label_witness :
  (masks_get (widget.result_masks demo_labeled_widget)
     (widget.selected_mask_idx demo_labeled_widget)
   = Ok (BoolArr [[true; false]; [false; false]])
   /\ widget.find_label_id demo_names
        (widget.label_name_of " cell " (widget.next_label_id demo_labeled_widget))
      = Some 1
   /\ gshape demo_raster = arr_shape (BoolArr [[true; false]; [false; false]])
   /\ fits int32 1 = true)
  /\ exists w',
       widget._add_mask_to_labels (B := demo_backend) " cell " demo_labeled_widget
         = (Ok tt, w')
       /\ widget.label_names w' = demo_names
       /\ widget.label_colors w' = demo_colors.
Proof.
  split; [repeat split|].
  destruct (accept_existing_label (B := demo_backend) " cell " demo_labeled_widget
              (BoolArr [[true; false]; [false; false]])
              (demo_labels_layer (widget.Meta (Some demo_names) (Some demo_colors)))
              demo_names 1 int32 demo_raster
              eq_refl eq_refl eq_refl eq_refl eq_refl eq_refl eq_refl)
    as (w' & layer' & raster' & Hrun & _ & _ & Hnames & _ & _ & Hcolors & _).
  exists w'. split; [exact Hrun|]. split; [exact Hnames | exact Hcolors].
Defined.

(** C6. The code does not keep the claim. With a label map in the labels
    layer a new name gets [max + 1], but that branch does not advance the
    counter [next_label_id], the next available id, which the two other
    branches leave one past the id they issue. Here "cell" is accepted
    without a labels layer (id 1, counter 2) and "nucleus" with the map of
    the layer (id 2, counter still 2, an id in use). The labels layer is then
    replaced by one of the same name without a label map; the two layer
    events find nothing to read and change nothing. The next new name,
    "membrane", gets the id 2 of the counter: not [max + 1 = 3] of the ids
    the widget holds, but the id of "nucleus". *)
Theorem accept_reissues_id_in_use :
  let select i (w : @widget.Widget demo_backend) :=
    widget.set_results (widget.result_masks w) (widget.result_scores w) i w in
  let w1 := snd (widget._add_mask_to_labels (B := demo_backend) "cell" demo_widget) in
  let w2 := snd (widget._add_mask_to_labels "nucleus" (select 2%nat w1)) in
  let w3 :=
    snd (widget.layers_insert widget.labels_layer_name
           (demo_labels_layer (widget.Meta None None))
           (snd (widget.layers_remove widget.labels_layer_name w2))) in
  let w4 := snd (widget._add_mask_to_labels "membrane" w3) in
  (widget.label_names w1 = [(1, "cell"%string)] /\ widget.next_label_id w1 = 2)
  /\ (widget.label_names w2 = [(1, "cell"%string); (2, "nucleus"%string)]
      /\ widget.next_label_id w2 = 2)
  /\ (widget.label_names w3 = widget.label_names w2 /\ widget.next_label_id w3 = 2)
  /\ widget.find_label_id (widget.label_names w3) "membrane" = None
  /\ fst (widget._add_mask_to_labels "membrane" w3) = Ok tt
  /\ widget.label_names w4 = [(2, "membrane"%string)]
  /\ max_default0 (keys (widget.label_names w3)) + 1 = 3
  /\ dict_get 2 (widget.label_names w3) = Some "nucleus"%string.
Proof. vm_compute. repeat split; reflexivity. Qed.

Lemma accept_new_label_witness :
  masks_get (widget.result_masks demo_labeled_widget)
    (widget.selected_mask_idx demo_labeled_widget)
  = Ok (BoolArr [[true; false]; [false; false]])
  /\ widget.label_names
       (snd (widget._add_mask_to_labels (B := demo_backend) "membrane" demo_labeled_widget))
     = demo_names ++ [(3, "membrane"%string)].
Proof.
  split; [reflexivity|].
  exact (proj1 (proj1 (accept_new_label (B := demo_backend) "membrane" demo_labeled_widget
                         (BoolArr [[true; false]; [false; false]]) eq_refl)
                  (demo_labels_layer (widget.Meta (Some demo_names) (Some demo_colors)))
                  demo_names eq_refl eq_refl eq_refl)).
Defined.

(** Three accepts in a row on the stand-in, starting without a labels
    layer: "cell" gets the id 1, "nucleus" the id 2 (its mask covers the
    pixels of "cell"), and "cell" again keeps the id 1 and takes the top-left
    pixel back. *)
Example accept_sequence :
  let select i (w : @widget.Widget demo_backend) :=
    widget.set_results (widget.result_masks w) (widget.result_scores w) i w in
  let w1 := snd (widget._add_mask_to_labels (B := demo_backend) "cell" demo_widget) in
  let w2 := snd (widget._add_mask_to_labels "nucleus" (select 2%nat w1)) in
  let w3 := snd (widget._add_mask_to_labels "cell" (select 0%nat w2)) in
  let raster (w : @widget.Widget demo_backend) :=
    widget.layer_data <$> widget.find_layer widget.labels_layer_name (widget.viewer w) in
  widget.label_names w1 = [(1, "cell"%string)]
  /\ raster w1 = Some (widget.ArrayData (IntArr int32 [[1; 1]; [0; 0]]))
  /\ widget.label_names w2 = [(1, "cell"%string); (2, "nucleus"%string)]
  /\ raster w2 = Some (widget.ArrayData (IntArr int32 [[2; 2]; [2; 0]]))
  /\ widget.label_names w3 = [(1, "cell"%string); (2, "nucleus"%string)]
  /\ raster w3 = Some (widget.ArrayData (IntArr int32 [[1; 2]; [2; 0]])).
Proof. vm_compute. repeat split; reflexivity. Qed.

(** * Further properties of the code *)

(** ** utils.py: outcomes of the prompt conversion *)

Lemma comprehension_length {A C} (f : A -> result C) (l : list A) (ys : list C) :
  comprehension f l = Ok ys -> length ys = length l.
Proof.
  revert ys. induction l as [|x l IH]; intros ys; cbn.
  - intros [= <-]. reflexivity.
  - destruct (f x) as [y|e]; cbn; [|discriminate].
    destruct (comprehension f l) as [zs|e]; cbn; [|discriminate].
    intros [= <-]. cbn. f_equal. now apply IH.
Qed.

Lemma comprehension_raises {A C} (f : A -> result C) (P : exn -> Prop) (l : list A) (e : exn) :
  (forall x e, f x = Raise e -> P e) -> comprehension f l = Raise e -> P e.
Proof.
  intros Hf. induction l as [|x l IH]; cbn; [discriminate|].
  destruct (f x) as [y|e'] eqn:E; cbn.
  - destruct (comprehension f l) as [zs|e'']; cbn; [discriminate|].
    intros [= <-]. now apply IH.
  - intros [= <-]. eapply Hf, E.
Qed.

(** X1. Whenever [shapes_to_points] returns, it returns as many labels as
    points, and the labels are either the caller's list as it is or all 1:
    a label list is never truncated or padded. *)
Theorem shapes_to_points_lengths_agree (shapes : list shape) (labels : list Z)
    (points : list vertex) (point_labels : list Z) :
  shapes_to_points shapes labels = Ok (points, point_labels) ->
  length points = length point_labels
  /\ (point_labels = labels \/ point_labels = repeat 1 (length points)).
Proof.
  unfold shapes_to_points.
  destruct (is_nil shapes); [intros [= <- <-]; cbn; auto|].
  destruct (shapes_of_type "point" shapes) as [P|e]; [|discriminate].
  rewrite bind_Ok.
  destruct (is_nil P) eqn:EP; [intros [= <- <-]; cbn; auto|].
  destruct (comprehension _ P) as [rows|e] eqn:Ec; [|discriminate].
  rewrite bind_Ok. unfold np_array. destruct (uniform rows); [|discriminate].
  rewrite bind_Ok. intros [= <- <-].
  apply comprehension_length in Ec. rewrite Ec.
  destruct (negb (is_nil labels) && (length labels =? length P)%nat) eqn:El.
  - apply andb_true_iff in El as [_ El]. apply Nat.eqb_eq in El. auto.
  - rewrite repeat_length. auto.
Qed.

Lemma shapes_to_points_lengths_agree_witness :
  length [[3; 4]%float] = length [0]
  /\ ([0] = [0] \/ [0] = repeat 1 (length [[3; 4]%float])).
Proof.
  apply (shapes_to_points_lengths_agree
           [Shape (Some "point"%string) (Some [[3; 4]%float]);
            Shape (Some "rectangle"%string) (Some [])] [0]).
  vm_compute. reflexivity.
Defined.

(** X2. A record without the ['shape_type'] key makes both converters raise
    [KeyError], wherever it stands in the list and whatever the other records
    are: the type of every record is read before anything is caught. *)
Theorem converters_raise_on_untyped_record (shapes : list shape) (labels : list Z) :
  forallb has_type shapes = false ->
  shapes_to_points shapes labels = Raise KeyError
  /\ shapes_to_box shapes = Raise KeyError.
Proof.
  intros H. unfold shapes_to_points, shapes_to_box.
  destruct shapes as [|s shapes]; [discriminate H|]. cbn [is_nil].
  rewrite !(shapes_of_type_untyped _ _ H). split; reflexivity.
Qed.

Lemma converters_raise_on_untyped_record_witness :
  shapes_to_points
    [Shape (Some "point"%string) (Some [[3; 4]%float]); Shape None (Some [[5; 6]%float])] [1]
    = Raise KeyError
  /\ shapes_to_box
       [Shape (Some "point"%string) (Some [[3; 4]%float]); Shape None (Some [[5; 6]%float])]
     = Raise KeyError.
Proof.
  apply converters_raise_on_untyped_record. reflexivity.
Defined.

Lemma filter_Exists {A} (p : A -> bool) (Q : A -> Prop) (l : list A) :
  Exists (fun x => p x = true /\ Q x) l -> Exists Q (List.filter p l).
Proof.
  induction 1 as [x l [Hp HQ]|x l _ IH]; cbn.
  - rewrite Hp. now left.
  - destruct (p x); [now right | exact IH].
Qed.

(** X3. A point shape without a vertex is never skipped: when every record
    has a type and some point shape lacks its ['data'] or has empty data,
    [shapes_to_points] raises ([KeyError] or [IndexError]) instead of
    returning the remaining points. *)
Theorem shapes_to_points_raises_on_missing_vertex (shapes : list shape) (labels : list Z) :
  forallb has_type shapes = true ->
  Exists (fun s => is_type "point" s = true /\ first_vertex s = None) shapes ->
  exists e, shapes_to_points shapes labels = Raise e /\ (e = KeyError \/ e = IndexError).
Proof.
  intros Ht Hbad. unfold shapes_to_points.
  destruct shapes as [|s0 shapes0] eqn:Es; [inversion Hbad|].
  rewrite <- Es in *. replace (is_nil shapes) with false by (rewrite Es; reflexivity).
  rewrite (shapes_of_type_typed "point" shapes Ht), bind_Ok.
  apply filter_Exists in Hbad.
  set (P := List.filter (is_type "point") shapes) in *. clearbody P.
  assert (Hc : exists e, comprehension (fun s => d ← getitem (data s); index d 0) P = Raise e
                         /\ (e = KeyError \/ e = IndexError)).
  { induction Hbad as [s P Hs|s P _ IH]; cbn.
    - unfold first_vertex in Hs. destruct (data s) as [[|v vs]|]; try discriminate; cbn; eauto.
    - destruct (data s) as [[|v vs]|]; cbn; eauto.
      destruct IH as (e & -> & He). cbn. eauto. }
  destruct Hc as (e & Hc & He).
  destruct P as [|p P]; [inversion Hbad|]. cbn [is_nil].
  rewrite Hc. exists e. split; [reflexivity | exact He].
Qed.

Lemma shapes_to_points_raises_on_missing_vertex_witness :
  exists e,
    shapes_to_points
      [Shape (Some "point"%string) (Some [[3; 4]%float]); Shape (Some "point"%string) (Some [])]
      [1; 1]
    = Raise e /\ (e = KeyError \/ e = IndexError).
Proof.
  apply shapes_to_points_raises_on_missing_vertex.
  - reflexivity.
  - right. left. split; reflexivity.
Defined.

Lemma box_of_rectangles_outcome (R : list shape) :
  match box_of_rectangles R with
  | Ok [] => True
  | Ok [x_min; y_min; x_max; y_max] =>
      (x_max <=? x_min)%float = false /\ (y_max <=? y_min)%float = false
  | Ok _ => False
  | Raise e => caught_by_box_handler e = true
  end.
Proof.
  unfold box_of_rectangles.
  destruct (last R) as [rect|]; [|reflexivity]. rewrite bind_Ok.
  destruct (data rect) as [vs|]; [|reflexivity]. cbn [getitem]. rewrite bind_Ok.
  destruct (length vs <? 4)%nat; [exact I|].
  destruct (comprehension (fun p : vertex => index p 1) vs) as [xs|e] eqn:Ex.
  2:{ cbn. apply (comprehension_raises _ (fun e => caught_by_box_handler e = true) _ _) in Ex;
        [exact Ex|]. intros p e'. unfold index. destruct (p !! _); [discriminate|].
      intros [= <-]. reflexivity. }
  rewrite bind_Ok.
  destruct (comprehension (fun p : vertex => index p 0) vs) as [ys|e] eqn:Ey.
  2:{ cbn. apply (comprehension_raises _ (fun e => caught_by_box_handler e = true) _ _) in Ey;
        [exact Ey|]. intros p e'. unfold index. destruct (p !! _); [discriminate|].
      intros [= <-]. reflexivity. }
  rewrite bind_Ok.
  destruct (is_nil xs || is_nil ys) eqn:En; [exact I|].
  apply orb_false_iff in En as [Enx Eny].
  destruct xs as [|x xs]; [discriminate|]. destruct ys as [|y ys]; [discriminate|].
  unfold py_min, py_max. rewrite !bind_Ok.
  match goal with
  | |- context [(?a <=? ?b)%float || (?c <=? ?d)%float] =>
      destruct (a <=? b)%float eqn:E1; [exact I|];
      destruct (c <=? d)%float eqn:E2; [exact I|]
  end.
  cbn. auto.
Qed.

(** X4. [shapes_to_box] never raises anything but [KeyError], and that only
    for a record without a type. What it returns is either the empty box or
    four numbers [x_min, y_min, x_max, y_max] for which neither
    [x_max <= x_min] nor [y_max <= y_min] holds: a box without extent is
    never handed on. *)
Theorem shapes_to_box_outcome (shapes : list shape) :
  match shapes_to_box shapes with
  | Ok [] => True
  | Ok [x_min; y_min; x_max; y_max] =>
      (x_max <=? x_min)%float = false /\ (y_max <=? y_min)%float = false
  | Ok _ => False
  | Raise e => e = KeyError /\ forallb has_type shapes = false
  end.
Proof.
  unfold shapes_to_box.
  destruct (is_nil shapes); [exact I|].
  destruct (forallb has_type shapes) eqn:Ht.
  - rewrite (shapes_of_type_typed _ _ Ht), bind_Ok.
    destruct (is_nil _); [exact I|].
    pose proof (box_of_rectangles_outcome (List.filter (is_type "rectangle") shapes)) as H.
    destruct (box_of_rectangles _) as [box|e]; [exact H|]. rewrite H. exact I.
  - rewrite (shapes_of_type_untyped _ _ Ht). cbn. auto.
Qed.

(** ** utils.py: binarisation *)

(** X5. Binarising is idempotent: a mask that went through [mask_to_binary]
    once is left as it is by a second pass, with any thresholds. *)
Theorem mask_to_binary_idempotent (mask : ndarray) (threshold threshold' : float) :
  mask_to_binary (mask_to_binary mask threshold) threshold' = mask_to_binary mask threshold.
Proof.
  assert (H : forall (h : grid bool),
             mask_to_binary (IntArr uint8 (gmap2 b2z h)) threshold' = IntArr uint8 (gmap2 b2z h)).
  { intros h. cbn. f_equal. rewrite gmap2_compose. apply gmap2_ext_cells.
    intros _ _ [] _; reflexivity. }
  destruct mask as [g|d g|d g].
  - apply H.
  - assert (E : mask_to_binary (IntArr d g) threshold
                = if in_integer_branch d
                  then IntArr uint8 (gmap2 (fun z => b2z (0 <? z)) g)
                  else IntArr uint8 (gmap2 b2z (greater_than threshold (IntArr d g))))
      by reflexivity.
    rewrite E. destruct (in_integer_branch d); [|apply H].
    rewrite <- (gmap2_compose (fun z => 0 <? z) b2z). apply H.
  - apply H.
Qed.

(** X6. The boolean masks of the model binarise to themselves: for a
    threshold in [0, 1) a bool mask maps True to 1 and False to 0. *)
Theorem mask_to_binary_of_bool_mask (g : grid bool) (threshold : float) :
  (0 <=? threshold)%float = true -> (threshold <? 1)%float = true ->
  mask_to_binary (BoolArr g) threshold = IntArr uint8 (gmap2 b2z g).
Proof.
  intros H0 H1. unfold mask_to_binary, greater_than. f_equal.
  rewrite gmap2_compose. apply gmap2_ext_cells. intros _ _ [] _;
    unfold PrimFloat.one, PrimFloat.zero.
  - now rewrite H1.
  - rewrite ltb_negb_leb; [now rewrite H0| |reflexivity].
    rewrite ltb_spec in H1. rewrite is_nan_Prim2SF.
    destruct (Prim2SF threshold); try reflexivity. discriminate H1.
Qed.

Lemma mask_to_binary_of_bool_mask_witness :
  mask_to_binary (BoolArr [[true; false]]) default_threshold = IntArr uint8 [[1; 0]].
Proof.
  apply (mask_to_binary_of_bool_mask [[true; false]] default_threshold); reflexivity.
Defined.

(** ** mobilesam_wrapper.py: outcomes of [set_image] and of the predictions *)

Section WrapperOutcomes.
Context `{B : SamBackend}.
Import mobilesam_wrapper.

(** X7. [set_image] either returns, and then the embedding flag is [True]
    and the current image is the converted input, or raises [ValueError] and
    then the flag is [False]; no other exception leaves it and the flag is
    never left at [None]. *)
Theorem set_image_outcome (image : option Image) (w : MobileSamWrapper) :
  match set_image image w with
  | (Ok _, w') =>
      image_embeddings w' = Some true
      /\ exists i i', image = Some i /\ to_rgb_uint8 i = Ok i' /\ current_image w' = Some i'
  | (Raise e, w') => e = ValueError /\ image_embeddings w' = Some false
  end.
Proof.
  unfold set_image, call. destruct image as [i|]; [|run; auto].
  run. destruct (to_rgb_uint8 i) as [i'|e] eqn:Ei; [|run; auto].
  destruct (String.eqb (device w) "mps"); model_calls; eauto 10.
Qed.

(** X8. A box that does not have exactly four entries (the empty box of
    [shapes_to_box] among them) is refused with [ValueError] by both box
    predictions; the model is not called and the wrapper is unchanged. *)
Theorem predict_from_box_refuses_bad_box (box : list float) (points : grid float)
    (labels : list Z) (multimask_output : bool) (w : MobileSamWrapper) :
  length box <> 4%nat ->
  predict_from_box box multimask_output w = (Raise ValueError, w)
  /\ predict_from_box_and_points box points labels multimask_output w = (Raise ValueError, w).
Proof.
  intros H. apply Nat.eqb_neq in H.
  unfold predict_from_box, predict_from_box_and_points, require_embedding.
  rewrite !length_map, H. run. destruct (image_embeddings w); split; reflexivity.
Qed.

(** X9. A prediction never changes the device, the embedding flag or the
    current image of the wrapper, whether it returns or raises; only the
    model object can change. *)
Theorem predict_keeps_wrapper_fields (box : list float) (points : grid float)
    (labels : list Z) (multimask_output : bool) (w : MobileSamWrapper) :
  let same (w' : MobileSamWrapper) :=
    device w' = device w /\ image_embeddings w' = image_embeddings w
    /\ current_image w' = current_image w in
  same (snd (predict_from_points points labels multimask_output w))
  /\ same (snd (predict_from_box box multimask_output w))
  /\ same (snd (predict_from_box_and_points box points labels multimask_output w)).
Proof.
  intros same. subst same.
  unfold predict_from_points, predict_from_box, predict_from_box_and_points,
    require_embedding, call.
  run. destruct (image_embeddings w) as [b|] eqn:E; run; [|rewrite E; auto 10].
  destruct (negb _); model_calls; rewrite ?E; auto 10.
Qed.

End WrapperOutcomes.

Lemma predict_from_box_refuses_bad_box_witness :
  mobilesam_wrapper.predict_from_box (B := demo_backend) [] true demo_wrapper
    = (Raise ValueError, demo_wrapper)
  /\ mobilesam_wrapper.predict_from_box_and_points (B := demo_backend) []
       [[3; 4]%float] [1] true demo_wrapper
     = (Raise ValueError, demo_wrapper).
Proof.
  apply (predict_from_box_refuses_bad_box (B := demo_backend)). discriminate.
Defined.

Section SetImageDevice.
Context `{B : SamBackend}.
Import mobilesam_wrapper.

(** X10. [set_image] changes the device only by falling back from "mps" to
    "cpu": on any other device the device is left as it is, and on "mps" it
    is afterwards "mps" or "cpu", whether the call returns or raises. *)
Theorem set_image_device (image : option Image) (w : MobileSamWrapper) :
  let w' := snd (set_image image w) in
  (device w <> "mps"%string -> device w' = device w)
  /\ (device w' = device w \/ device w' = "cpu"%string).
Proof.
  intros w'. subst w'. unfold set_image, call.
  destruct image as [i|]; [|run; auto].
  run. destruct (to_rgb_uint8 i) as [i'|e]; [|run; auto].
  destruct (String.eqb_spec (device w) "mps") as [E|E].
  - split; [congruence|]. model_calls; auto.
  - split; [intros _|]; model_calls; auto.
Qed.

End SetImageDevice.

(** ** mobilesam_wrapper.py: the constructor *)

Section DeviceChoice.
Context `{B : SamBackend}.
Import mobilesam_wrapper.

Lemma is_supported_In (d : string) : is_supported d = true -> In d supported_devices.
Proof.
  unfold is_supported. intros H. apply existsb_exists in H as (x & Hx & E).
  apply String.eqb_eq in E. now subst.
Qed.

Lemma select_device_supported (platform : option (string * string))
    (force_device : option string) (mps_available mps_built cuda_available : bool) :
  In (select_device platform force_device mps_available mps_built cuda_available)
     supported_devices.
Proof.
  assert (Hauto : forall m : bool,
             In (if mps_available && mps_built && negb m then "mps"%string
                 else if cuda_available then "cuda"%string else "cpu"%string)
                supported_devices).
  { intros m. destruct (mps_available && mps_built && negb m); [cbn; auto|].
    destruct cuda_available; cbn; auto. }
  unfold select_device.
  match goal with
  | |- context [if ?m then match force_device with _ => _ end else force_device] =>
      generalize (Hauto m);
      generalize (if m then match force_device with
                            | Some f =>
                                if String.eqb f "mps" then force_device
                                else if String.eqb f "自动" then Some "cpu"%string
                                else force_device
                            | None => Some "cpu"%string
                            end
                  else force_device)
  end.
  intros [f|] Ha; [|exact Ha].
  destruct (is_supported f) eqn:E; [now apply is_supported_In | exact Ha].
Qed.

(** X11. A supported device asked for by the caller is the device chosen,
    on every platform and whatever torch reports. *)
Theorem select_device_respects_choice (platform : option (string * string))
    (force_device : string) (mps_available mps_built cuda_available : bool) :
  In force_device supported_devices ->
  select_device platform (Some force_device) mps_available mps_built cuda_available
    = force_device.
Proof.
  intros H. unfold select_device.
  destruct (match platform with Some (s, m) => _ | None => false end);
    cbn in H; destruct H as [<-|[<-|[<-|[]]]]; reflexivity.
Qed.

Lemma select_device_respects_choice_witness :
  select_device (Some ("Darwin", "arm64")%string) (Some "mps"%string) false false true
    = "mps"%string.
Proof.
  apply select_device_respects_choice. cbn. auto.
Defined.

(** X12. On Apple silicon ("Darwin", "arm64") the MPS backend is chosen only
    when the caller asks for it by name: with no device or "自动" given the
    choice is the CPU, and with any other request it is never "mps",
    whatever torch reports as available. *)
Theorem select_device_on_apple_silicon (force_device : option string)
    (mps_available mps_built cuda_available : bool) :
  force_device <> Some "mps"%string ->
  let dev := select_device (Some ("Darwin", "arm64")%string) force_device
               mps_available mps_built cuda_available in
  dev <> "mps"%string
  /\ (force_device = None \/ force_device = Some "自动"%string -> dev = "cpu"%string).
Proof.
  intros Hf dev. subst dev. unfold select_device.
  replace (String.eqb "Darwin" "Darwin" && String.eqb "arm64" "arm64") with true
    by reflexivity.
  cbv iota. rewrite andb_false_r.
  destruct force_device as [f|].
  2:{ cbn. split; [discriminate | reflexivity]. }
  destruct (String.eqb_spec f "mps") as [->|Hmps]; [congruence|].
  destruct (String.eqb_spec f "自动") as [->|Hauto].
  { cbn. split; [discriminate | reflexivity]. }
  split.
  - destruct (is_supported f); [exact Hmps|]. destruct cuda_available; discriminate.
  - intros [H|H]; congruence.
Qed.

Lemma select_device_on_apple_silicon_witness :
  select_device (Some ("Darwin", "arm64")%string) (Some "gpu"%string) true true true
    <> "mps"%string.
Proof.
  apply (select_device_on_apple_silicon (Some "gpu"%string) true true true). discriminate.
Defined.

(** X13. When [__init__] returns, the wrapper runs on a supported device,
    which is the chosen one or, after any fallback, the CPU; no image is set:
    the embedding flag and the current image are [None]. *)
Theorem init_outcome (platform : option (string * string)) (force_device : option string)
    (mps_available mps_built cuda_available : bool) (load reload : result Sam)
    (w : MobileSamWrapper) :
  MobileSamWrapper__init__ platform force_device mps_available mps_built cuda_available
    load reload = Ok w ->
  In (device w) supported_devices
  /\ (device w = select_device platform force_device mps_available mps_built cuda_available
      \/ device w = "cpu"%string)
  /\ image_embeddings w = None
  /\ current_image w = None.
Proof.
  pose proof (select_device_supported platform force_device mps_available mps_built
                cuda_available) as Hsup.
  unfold MobileSamWrapper__init__, place_model, call.
  set (dev := select_device _ _ _ _ _) in *. clearbody dev.
  assert (Hcpu : In "cpu"%string supported_devices) by (cbn; auto).
  destruct load as [s|e], reload as [s'|e']; model_calls;
    try discriminate; intros [= <-]; cbn; auto.
Qed.

End DeviceChoice.

Lemma init_outcome_witness :
  let w := mobilesam_wrapper.Wrapper (B := demo_backend) "cuda" None None None in
  mobilesam_wrapper.MobileSamWrapper__init__ (B := demo_backend) None (Some "cuda"%string)
    false false false (Ok None) (Ok None) = Ok w
  /\ In (mobilesam_wrapper.device w) mobilesam_wrapper.supported_devices
  /\ mobilesam_wrapper.image_embeddings w = None.
Proof.
  split; [reflexivity|].
  destruct (init_outcome (B := demo_backend) None (Some "cuda"%string) false false false
              (Ok None) (Ok None) _ eq_refl) as (Hdev & _ & Hemb & _).
  split; [exact Hdev | exact Hemb].
Defined.

(** ** _widget.py: the layers of the viewer *)

Section Layers.
Context `{B : SamBackend}.
Import widget.

(** X14. [_clear_annotations] always returns and leaves neither a mask layer
    nor a preview layer; the annotation layer "标注", when there is one, is
    emptied together with its point types. Clearing twice is the same as
    clearing once. *)
Theorem clear_annotations_layers (w : Widget) :
  let w' := snd (_clear_annotations w) in
  fst (_clear_annotations w) = Ok tt
  /\ find_layer mask_layer_name (viewer w') = None
  /\ find_layer preview_layer_name (viewer w') = None
  /\ find_layer shapes_layer_name (viewer w')
     = (fun l => set_point_type (Some []) (set_layer_data (ShapesData []) l))
         <$> find_layer shapes_layer_name (viewer w)
  /\ _clear_annotations w' = (Ok tt, w').
Proof.
  intros w'. subst w'. rewrite (clear_annotations_run w). cbn [fst snd].
  set (w0 := if has_layer mask_layer_name (viewer w) || has_layer preview_layer_name (viewer w)
             then after_layer_event w else w).
  split; [reflexivity|]. split; [|split; [|split]].
  - cbn [viewer set_results set_viewer].
    rewrite find_layer_remove_other by reflexivity. apply find_layer_remove_layer.
  - cbn [viewer set_results set_viewer]. apply find_layer_remove_layer.
  - cbn [viewer set_results set_viewer].
    rewrite !find_layer_remove_other by reflexivity. apply find_layer_update_layer.
  - rewrite clear_annotations_run. cbn [viewer set_results set_viewer].
    unfold has_layer.
    rewrite (find_layer_remove_other mask_layer_name preview_layer_name) by reflexivity.
    rewrite !find_layer_remove_layer. cbn [orb].
    rewrite cleared_layers_idempotent by reflexivity. now destruct w0.
Qed.

(** X15. [_clear_annotations] leaves the accepted-mask history, the model
    and the current image as they are, and so every layer other than the
    annotation, mask and preview layers (the labels layer among them). The
    label map, the colours and the id counter stay as they are when neither
    a mask layer nor a preview layer was shown, and also when there is no
    labels layer. Removing a mask or preview layer is a layer event: the
    widget then holds what [_on_layer_change] reads from the labels layer,
    so with a non-empty label map in its metadata the widget holds that map
    and the counter stands one past its largest id, wherever it stood. *)
Theorem clear_annotations_frame (w : Widget) :
  let w' := snd (_clear_annotations w) in
  let shown :=
    has_layer mask_layer_name (viewer w) || has_layer preview_layer_name (viewer w) in
  label_state w' = label_state (if shown then after_layer_event w else w)
  /\ (find_layer labels_layer_name (viewer w) = None -> label_state w' = label_state w)
  /\ (forall layer names,
        shown = true ->
        find_layer labels_layer_name (viewer w) = Some layer ->
        md_label_names (metadata layer) = Some names ->
        names <> [] ->
        label_names w' = names /\ next_label_id w' = max_default0 (keys names) + 1)
  /\ label_mask_history w' = label_mask_history w
  /\ model w' = model w
  /\ current_image w' = current_image w
  /\ current_layer w' = current_layer w
  /\ find_layer labels_layer_name (viewer w') = find_layer labels_layer_name (viewer w)
  /\ forall name,
       String.eqb shapes_layer_name name = false ->
       String.eqb mask_layer_name name = false ->
       String.eqb preview_layer_name name = false ->
       find_layer name (viewer w') = find_layer name (viewer w).
Proof.
  intros w' shown. subst w'. rewrite (clear_annotations_run w). fold shown. cbn [snd].
  assert (H : forall name,
             String.eqb shapes_layer_name name = false ->
             String.eqb mask_layer_name name = false ->
             String.eqb preview_layer_name name = false ->
             find_layer name
               (remove_layer preview_layer_name
                  (remove_layer mask_layer_name
                     (update_layer shapes_layer_name
                        (fun l => set_point_type (Some []) (set_layer_data (ShapesData []) l))
                        (viewer w))))
             = find_layer name (viewer w)).
  { intros name H1 H2 H3.
    now rewrite !find_layer_remove_other, find_layer_update_other. }
  destruct (after_layer_event_frame w) as (_ & Hm & _ & Hi & Hc & _ & _ & _ & Hh).
  split; [reflexivity|]. split; [|split].
  - intros Hl. destruct shown; [|reflexivity].
    now rewrite (after_layer_event_no_labels w Hl).
  - intros layer names Hshown Hl Hn Hne. rewrite Hshown.
    cbn [label_names next_label_id set_results set_viewer].
    rewrite after_layer_event_eq, Hl, Hn.
    destruct names as [|[k x] names]; [congruence|].
    destruct (md_label_colors (metadata layer)); cbn; auto.
  - destruct shown; cbn [label_mask_history model current_image current_layer viewer
                           set_results set_viewer];
      rewrite ?Hm, ?Hi, ?Hc, ?Hh;
      (repeat (split; [reflexivity|])); (split; [apply H; reflexivity | exact H]).
Qed.

(** X16. After [_clear_annotations] there is nothing to work on: accepting,
    adjusting, previewing and selecting a mask all return at once and change
    nothing. *)
Theorem nothing_held_after_clear (w : Widget) (combo_text : string)
    (operation_type index : Z) :
  let w1 := snd (_clear_annotations w) in
  _add_mask_to_labels combo_text w1 = (Ok tt, w1)
  /\ _adjust_mask_boundary operation_type w1 = (Ok tt, w1)
  /\ _preview_selected_mask w1 = (Ok tt, w1)
  /\ _update_selected_mask index w1 = (Ok tt, w1).
Proof.
  intros w1. subst w1. rewrite (clear_annotations_run w). cbn [snd].
  unfold _add_mask_to_labels, _adjust_mask_boundary, _preview_selected_mask,
    _update_selected_mask.
  run. rewrite orb_true_r. auto.
Qed.

(** ** _widget.py: choosing and previewing a candidate *)

(** The preview image of a mask: 255 on the pixels of the binarised mask
    and 0 elsewhere, in the shape of the mask. *)
Lemma times_255_cells (mask : ndarray) :
  exists g,
    times_255 (mask_to_binary mask default_threshold) = IntArr uint8 g
    /\ gshape g = arr_shape mask
    /\ forall i j v, cell g i j = Some v -> v = if mask_on mask i j then 255 else 0.
Proof.
  unfold times_255, mask_on.
  destruct (mask_to_binary_output mask default_threshold) as (g0 & -> & Hs & Hb).
  cbn [astype_int gt_zero]. eexists. split; [reflexivity|]. split.
  - now rewrite !gshape_gmap2.
  - intros i j v. rewrite !cell_gmap2.
    destruct (cell g0 i j) as [z|] eqn:E; cbn; [|discriminate].
    intros [= <-]. destruct (Hb i j z E) as [-> | ->]; reflexivity.
Qed.

Lemma select_guard_passes (index : Z) (masks : mask_seq) (mask : ndarray) :
  0 <= index -> masks_get masks (Z.to_nat index) = Ok mask ->
  (index <? 0) || (masks_len masks =? 0)%nat || (Z.of_nat (masks_len masks) <=? index) = false.
Proof.
  intros H0 H. apply masks_get_Ok_lt in H.
  rewrite !orb_false_iff. repeat split; [apply Z.ltb_ge | apply Nat.eqb_neq | apply Z.leb_gt]; lia.
Qed.

(** The run of [_update_selected_mask] on an index within range. *)
Lemma update_selected_mask_run (index : Z) (w : Widget) (mask : ndarray) :
  0 <= index ->
  masks_get (result_masks w) (Z.to_nat index) = Ok mask ->
  let w1 :=
    set_results (result_masks w) (result_scores w) (Z.to_nat index)
      (if has_layer mask_layer_name (viewer w) then w else after_layer_event w) in
  exists v,
    layer_data <$> find_layer mask_layer_name v = Some (ArrayData mask)
    /\ (forall name, String.eqb mask_layer_name name = false ->
          find_layer name v = find_layer name (viewer w))
    /\ _update_selected_mask index w
       = (Ok tt,
          if find_layer preview_layer_name (viewer w) is Some _
          then set_viewer
                 (update_layer preview_layer_name
                    (set_layer_data
                       (ArrayData (times_255 (mask_to_binary mask default_threshold)))) v)
                 w1
          else set_viewer v w1).
Proof.
  intros H0 Hget w1. unfold _update_selected_mask.
  unfold mbind at 1, M_bind at 1, gets at 1.
  rewrite (select_guard_passes index _ mask H0 Hget). cbv zeta.
  unfold mbind at 1, M_bind at 1, modify at 1.
  unfold mbind at 1, M_bind at 1, lift at 1. rewrite Hget.
  set (w0 := set_results (result_masks w) (result_scores w) (Z.to_nat index) w).
  unfold mbind at 1, M_bind at 1.
  destruct (display_mask_run mask w0) as (v & -> & Hshown & Hother).
  change (viewer w0) with (viewer w) in *.
  assert (E : (if has_layer mask_layer_name (viewer w) then w0 else after_layer_event w0)
              = w1).
  { subst w0 w1. destruct (has_layer mask_layer_name (viewer w)); [reflexivity|].
    apply after_layer_event_set_results. }
  rewrite E.
  exists v. split; [exact Hshown|]. split; [exact Hother|].
  unfold mbind at 1, M_bind at 1, gets at 1.
  change (viewer (set_viewer v w1)) with v.
  rewrite (Hother preview_layer_name eq_refl).
  destruct (find_layer preview_layer_name (viewer w)); reflexivity.
Qed.

(** X17. Selecting a candidate by an index within range makes it the
    selected one and shows it in the mask layer; a preview layer, when there
    is one, shows its binarised form as 0 / 255; the candidates, the scores
    and the labels layer are unchanged. The label map, the colours and the
    id counter are unchanged when the mask layer exists already; a mask layer
    that is new is a layer event, after which they are what
    [_on_layer_change] reads from the labels layer (nothing new without a
    labels layer). *)
Theorem update_selected_mask_shows (index : Z) (w : Widget) (mask : ndarray) :
  0 <= index ->
  masks_get (result_masks w) (Z.to_nat index) = Ok mask ->
  exists w',
    _update_selected_mask index w = (Ok tt, w')
    /\ selected_mask_idx w' = Z.to_nat index
    /\ result_masks w' = result_masks w
    /\ result_scores w' = result_scores w
    /\ layer_data <$> find_layer mask_layer_name (viewer w') = Some (ArrayData mask)
    /\ layer_data <$> find_layer preview_layer_name (viewer w')
       = (fun _ => ArrayData (times_255 (mask_to_binary mask default_threshold)))
           <$> find_layer preview_layer_name (viewer w)
    /\ label_state w'
       = label_state (if has_layer mask_layer_name (viewer w) then w
                      else after_layer_event w)
    /\ (find_layer labels_layer_name (viewer w) = None -> label_state w' = label_state w)
    /\ find_layer labels_layer_name (viewer w') = find_layer labels_layer_name (viewer w).
Proof.
  intros H0 Hget.
  destruct (update_selected_mask_run index w mask H0 Hget) as (v & Hshown & Hother & ->).
  eexists. split; [reflexivity|].
  pose proof (Hother preview_layer_name eq_refl) as Hp.
  pose proof (Hother labels_layer_name eq_refl) as Hl.
  destruct (after_layer_event_frame w) as (_ & _ & _ & _ & _ & Hm & Hs & _).
  assert (Hnone : find_layer labels_layer_name (viewer w) = None ->
                  label_state (if has_layer mask_layer_name (viewer w) then w
                               else after_layer_event w) = label_state w).
  { intros Hn. destruct (has_layer mask_layer_name (viewer w)); [reflexivity|].
    now rewrite (after_layer_event_no_labels w Hn). }
  destruct (find_layer preview_layer_name (viewer w)) as [p|] eqn:Ep;
    cbn [selected_mask_idx result_masks result_scores viewer set_viewer set_results].
  - rewrite find_layer_update_layer, !find_layer_update_other by reflexivity.
    rewrite Hp. cbn [fmap option_fmap option_map].
    repeat (split; [first [reflexivity | assumption]|]). assumption.
  - rewrite Hp.
    repeat (split; [first [reflexivity | assumption]|]). assumption.
Qed.

(** X18. [_update_selected_mask] never fails and never changes the
    candidates. An index that is negative or past the last candidate is
    ignored altogether, so a selected index that was within range stays
    within range whatever index is asked for. *)
Theorem update_selected_mask_keeps_selection_valid (index : Z) (w : Widget) :
  let w' := snd (_update_selected_mask index w) in
  fst (_update_selected_mask index w) = Ok tt
  /\ result_masks w' = result_masks w
  /\ (index < 0 \/ Z.of_nat (masks_len (result_masks w)) <= index -> w' = w)
  /\ ((selected_mask_idx w < masks_len (result_masks w))%nat ->
      (selected_mask_idx w' < masks_len (result_masks w'))%nat).
Proof.
  intros w'. subst w'.
  destruct (Z.ltb_spec index 0) as [Hneg|H0].
  { unfold _update_selected_mask. run.
    replace (index <? 0) with true by (symmetry; now apply Z.ltb_lt). cbn. auto. }
  destruct (Z.leb_spec (Z.of_nat (masks_len (result_masks w))) index) as [Hbig|Hin].
  { unfold _update_selected_mask. run.
    replace (Z.of_nat (masks_len (result_masks w)) <=? index) with true
      by (symmetry; now apply Z.leb_le).
    rewrite orb_true_r. cbn. auto. }
  destruct (masks_get_total (result_masks w) (Z.to_nat index)) as [mask Hget]; [lia|].
  destruct (update_selected_mask_run index w mask H0 Hget) as (v & _ & _ & ->).
  cbn [fst snd]. split; [reflexivity|].
  destruct (find_layer preview_layer_name (viewer w));
    cbn [selected_mask_idx result_masks result_scores viewer set_viewer set_results];
    (split; [reflexivity|]); (split; [lia|]); intros _; lia.
Qed.

(** X19. Previewing the selected candidate puts its binarised form into the
    preview layer (creating the layer if need be): an array of the shape of
    the mask that is 255 on the pixels of the mask and 0 elsewhere. The
    candidates, the selection and every other layer are unchanged. The label
    map, the colours and the id counter are unchanged when the preview layer
    exists already; a preview layer that is new is a layer event, after
    which they are what [_on_layer_change] reads from the labels layer
    (nothing new without a labels layer). *)
Theorem preview_selected_mask_shows (w : Widget) (mask : ndarray) :
  masks_get (result_masks w) (selected_mask_idx w) = Ok mask ->
  exists w' g,
    _preview_selected_mask w = (Ok tt, w')
    /\ layer_data <$> find_layer preview_layer_name (viewer w')
       = Some (ArrayData (IntArr uint8 g))
    /\ gshape g = arr_shape mask
    /\ (forall i j v, cell g i j = Some v -> v = if mask_on mask i j then 255 else 0)
    /\ result_masks w' = result_masks w
    /\ result_scores w' = result_scores w
    /\ selected_mask_idx w' = selected_mask_idx w
    /\ label_state w'
       = label_state (if has_layer preview_layer_name (viewer w) then w
                      else after_layer_event w)
    /\ (find_layer labels_layer_name (viewer w) = None -> label_state w' = label_state w)
    /\ forall name, String.eqb preview_layer_name name = false ->
         find_layer name (viewer w') = find_layer name (viewer w).
Proof.
  intros Hget. destruct (times_255_cells mask) as (g & Eg & Hs & Hc).
  unfold _preview_selected_mask, on_layer, has_layer. run.
  rewrite (guard_passes _ _ _ Hget), Hget, Eg.
  destruct (find_layer preview_layer_name (viewer w)) as [p|] eqn:Ep; cbn.
  - exists (set_viewer (update_layer preview_layer_name
                          (set_layer_data (ArrayData (IntArr uint8 g))) (viewer w)) w), g.
    split; [reflexivity|]. cbn. rewrite find_layer_update_layer, Ep.
    repeat (split; [first [reflexivity | assumption]|]).
    intros name Hne. now apply find_layer_update_other.
  - rewrite layers_insert_run.
    rewrite after_layer_event_set_viewer by (now apply find_layer_add_other).
    destruct (after_layer_event_frame w) as (Hv & _ & _ & _ & _ & Hm & Hsc & Hi & _).
    eexists _, g. split; [reflexivity|].
    cbn [selected_mask_idx result_masks result_scores viewer set_viewer].
    rewrite find_layer_add_layer by exact Ep.
    repeat (split; [first [reflexivity | assumption]|]).
    split.
    + intros Hn. now rewrite (after_layer_event_no_labels w Hn).
    + intros name Hne. now apply find_layer_add_other.
Qed.

End Layers.

(** ** _widget.py: the label map *)

Lemma str_of_int_inj (a b : Z) : str_of_int a = str_of_int b -> a = b.
Proof.
  unfold str_of_int. intros H. apply DecimalZ.to_int_inj.
  assert (Hn : forall z, Z.to_int z <> Decimal.Pos Decimal.Nil
                         /\ Z.to_int z <> Decimal.Neg Decimal.Nil).
  { intros [|p|p]; cbn; split; try discriminate;
      intros [= E]; exact (DecimalPos.Unsigned.to_uint_nonnil p E). }
  apply (f_equal NilZero.int_of_string) in H.
  rewrite !NilZero.isi in H by apply Hn. now injection H.
Qed.

Lemma py_max_int_ge (xs : list Z) (m k : Z) : py_max_int xs = Ok m -> In k xs -> k <= m.
Proof.
  destruct xs as [|x rest]; [discriminate|]. intros [= <-] Hk.
  exact (max_default0_ge (x :: rest) k Hk).
Qed.

Section LabelManagement.
Context `{B : SamBackend}.
Import widget.

(** The confirmed [_clear_all_labels]: once the labels layer is removed the
    layer event finds no labels layer and changes nothing. *)
Lemma clear_all_labels_run (w : Widget) (l : Layer) :
  find_layer labels_layer_name (viewer w) = Some l ->
  _clear_all_labels true w
  = (Ok tt,
     set_next_label_id 1
       (set_label_colors []
          (set_label_names []
             (set_viewer (remove_layer labels_layer_name (viewer w)) w)))).
Proof.
  intros Hl. unfold _clear_all_labels. run. rewrite Hl, layers_remove_run.
  rewrite after_layer_event_no_labels by (cbn; apply find_layer_remove_layer).
  reflexivity.
Qed.

(** X20. [_clear_all_labels] never fails. Without a labels layer, or when
    the user declines, nothing changes. When the user confirms, the labels
    layer is removed and the label map, the colours and the id counter are
    back at their initial values (empty, empty, 1); the candidates and every
    other layer are kept. *)
Theorem clear_all_labels_outcome (reply_yes : bool) (w : Widget) :
  let w' := snd (_clear_all_labels reply_yes w) in
  fst (_clear_all_labels reply_yes w) = Ok tt
  /\ (reply_yes = false \/ find_layer labels_layer_name (viewer w) = None -> w' = w)
  /\ (reply_yes = true -> find_layer labels_layer_name (viewer w) <> None ->
      find_layer labels_layer_name (viewer w') = None
      /\ label_names w' = [] /\ label_colors w' = [] /\ next_label_id w' = 1
      /\ result_masks w' = result_masks w
      /\ result_scores w' = result_scores w
      /\ selected_mask_idx w' = selected_mask_idx w
      /\ forall name, String.eqb labels_layer_name name = false ->
           find_layer name (viewer w') = find_layer name (viewer w)).
Proof.
  intros w'. subst w'.
  destruct (find_layer labels_layer_name (viewer w)) as [l|] eqn:E; destruct reply_yes.
  - rewrite (clear_all_labels_run w l E). cbn.
    split; [reflexivity|]. split; [intros [H|H]; congruence|]. intros _ _.
    split; [apply find_layer_remove_layer|]. repeat (split; [reflexivity|]).
    intros name Hne. now apply find_layer_remove_other.
  - unfold _clear_all_labels. run. rewrite E. cbn.
    split; [reflexivity|]. split; [reflexivity|]. congruence.
  - unfold _clear_all_labels. run. rewrite E. cbn.
    split; [reflexivity|]. split; [reflexivity|]. congruence.
  - unfold _clear_all_labels. run. rewrite E. cbn.
    split; [reflexivity|]. split; [reflexivity|]. congruence.
Qed.

(** X21. [_on_layer_change] takes the label map and the colours of the
    labels layer over into the widget. With a non-empty map the id counter
    becomes the largest id plus one, which is the id the next new name gets
    and is larger than every id in use; with an empty map the counter is
    left alone. The viewer is not changed. *)
Theorem on_layer_change_syncs (w : Widget) (layer : Layer) (names : dict string) :
  find_layer labels_layer_name (viewer w) = Some layer ->
  md_label_names (metadata layer) = Some names ->
  exists w',
    _on_layer_change w = (Ok tt, w')
    /\ label_names w' = names
    /\ label_colors w' = default (label_colors w) (md_label_colors (metadata layer))
    /\ next_label_id w'
       = (if is_nil names then next_label_id w else max_default0 (keys names) + 1)
    /\ (names <> [] -> forall k, In k (keys names) -> k < next_label_id w')
    /\ viewer w' = viewer w
    /\ result_masks w' = result_masks w.
Proof.
  intros Hl Hn. unfold _on_layer_change. run. rewrite Hl, Hn.
  destruct names as [|[k0 n0] names]; cbn.
  - destruct (md_label_colors (metadata layer)); cbn;
      (eexists; split; [reflexivity|]); cbn; repeat (split; [reflexivity|]);
      (split; [congruence | auto]).
  - destruct (md_label_colors (metadata layer)); cbn;
      (eexists; split; [reflexivity|]); cbn; repeat (split; [reflexivity|]);
      (split; [|auto]); intros _ k Hk;
      pose proof (max_default0_ge (keys ((k0, n0) :: names)) k Hk) as Hle;
      cbn in Hle; lia.
Qed.

Lemma export_set_fresh (k : string) (v : string * list float)
    (d : list (string * (string * list float))) :
  ~ In k (map fst d) -> export_set k v d = d ++ [(k, v)].
Proof.
  induction d as [|[k' v'] d IH]; cbn; [reflexivity|].
  intros H. destruct (String.eqb_spec k k') as [->|Hne]; [tauto|].
  rewrite IH; [reflexivity | tauto].
Qed.

Lemma label_entries_distinct (colors : dict (list float)) (names : dict string) :
  NoDup (keys names) ->
  label_entries names colors
  = map (fun '(label_id, name) =>
           (str_of_int label_id, (name, color_or_black colors label_id))) names.
Proof.
  unfold label_entries.
  set (entry := fun '(label_id, name) =>
                  (str_of_int label_id, (name, color_or_black colors label_id))).
  assert (H : forall names (done : dict string),
             NoDup (keys (done ++ names)) ->
             fold_left
               (fun acc '(label_id, name) =>
                  export_set (str_of_int label_id) (name, color_or_black colors label_id) acc)
               names (map entry done)
             = map entry (done ++ names)).
  { clear names. induction names as [|[k n] names IH]; intros done Hnd; cbn.
    - now rewrite app_nil_r.
    - rewrite export_set_fresh.
      + change (map entry done ++ [(str_of_int k, (n, color_or_black colors k))])
          with (map entry done ++ map entry [(k, n)]).
        rewrite <- map_app, IH; rewrite <- app_assoc; [reflexivity | exact Hnd].
      + unfold keys in Hnd. rewrite map_app in Hnd. cbn in Hnd.
        apply NoDup_app in Hnd as (_ & Hdis & _).
        rewrite map_map. intros Hin. apply in_map_iff in Hin as ([k' n'] & Hk & Hin).
        cbn in Hk. apply str_of_int_inj in Hk. subst k'.
        apply (Hdis k); [apply list_elem_of_In, in_map_iff; now exists (k, n') | now left]. }
  intros Hnd. exact (H names [] Hnd).
Qed.

(** X22. With distinct label ids, the exported dict lists every label of
    the map exactly once, in the order of the map, under the decimal text of
    its id, with its name and its colour (black when the id has no colour),
    followed by the name of the current layer; the widget is not changed.
    Nothing is exported for an empty map or a cancelled file dialog. *)
Theorem export_label_info_lists_every_label (file_path : string) (w : Widget) :
  NoDup (keys (label_names w)) ->
  _export_label_info file_path w
  = (Ok (if is_nil (label_names w) || String.eqb file_path EmptyString then None
         else Some (MkExport
                      (map (fun '(label_id, name) =>
                              (str_of_int label_id,
                               (name, color_or_black (label_colors w) label_id)))
                         (label_names w))
                      (current_layer w))),
     w).
Proof.
  intros Hnd. unfold _export_label_info. run.
  destruct (is_nil (label_names w)); cbn; [reflexivity|].
  destruct (String.eqb file_path EmptyString); cbn; [reflexivity|].
  now rewrite label_entries_distinct.
Qed.

End LabelManagement.

(** ** _widget.py: what accepting and adjusting leave alone *)

Section Frames.
Context `{B : SamBackend}.
Import widget.

Lemma same_outside_labels_refl (w : Widget) : same_outside_labels w w.
Proof. unfold same_outside_labels. auto 10. Qed.

Lemma same_outside_labels_trans (w1 w2 w3 : Widget) :
  same_outside_labels w1 w2 -> same_outside_labels w2 w3 -> same_outside_labels w1 w3.
Proof.
  unfold same_outside_labels.
  intros (A1 & A2 & A3 & A4 & A5 & A6 & A7 & A8) (C1 & C2 & C3 & C4 & C5 & C6 & C7 & C8).
  repeat (split; [congruence|]). intros name H. now rewrite C8, A8.
Qed.

Lemma find_layer_snoc_other (name other : string) (l : Layer) (ls : list (string * Layer)) :
  String.eqb other name = false ->
  find_layer name (ls ++ [(other, l)]) = find_layer name ls.
Proof. apply find_layer_add_other. Qed.

Ltac frame_step :=
  unfold same_outside_labels; cbn -[String.eqb];
  repeat (split; [reflexivity|]);
  let n := fresh "n" in
  let Hne := fresh "Hne" in
  intros n Hne;
  rewrite ?find_layer_update_other, ?find_layer_add_other, ?find_layer_snoc_other
    by exact Hne;
  reflexivity.

#[local] Arguments _generate_label_color : simpl never.
#[local] Arguments colorFor : simpl never.
#[local] Arguments relabel : simpl never.
#[local] Arguments _display_mask : simpl never.

Lemma label_id_in_layer_frame (l : Layer) (name : string) (w : Widget) :
  same_outside_labels w (snd (label_id_in_layer l name w)).
Proof.
  unfold label_id_in_layer, on_layer.
  destruct (md_label_names (metadata l)) as [names|].
  - destruct (md_label_colors (metadata l)) as [colors|];
      destruct (find_label_id names name) as [id|]; run; try frame_step;
      rewrite generate_label_color_run; destruct (colorFor _) as [c|e]; run; frame_step.
  - run. rewrite generate_label_color_run; destruct (colorFor _) as [c|e]; run; frame_step.
Qed.

Lemma write_label_frame (l : Layer) (id : Z) (name : string) (bm : ndarray) (idx : nat)
    (w : Widget) :
  same_outside_labels w (snd (write_label l id name bm idx w)).
Proof.
  unfold write_label, record_history, on_layer. run.
  destruct (relabel id bm (layer_data l)) as [a|e]; run; frame_step.
Qed.

Lemma create_labels_layer_frame (mask bm : ndarray) (name : string) (idx : nat) (w : Widget) :
  same_outside_labels w (snd (create_labels_layer mask bm name idx w)).
Proof.
  unfold create_labels_layer. run.
  rewrite generate_label_color_run; destruct (colorFor _) as [c|e]; run; [|frame_step].
  destruct (assign_where int32 _ 1 _) as [g|e]; run; [|frame_step].
  rewrite layers_insert_run. run.
  match goal with
  | |- context [after_layer_event ?X] =>
      destruct (after_layer_event_frame X) as (Hv & Hm & Hml & Hci & Hcl & Hrm & Hrs & Hsi & _)
  end.
  unfold same_outside_labels. cbn -[String.eqb] in *.
  rewrite Hv, Hm, Hml, Hci, Hcl, Hrm, Hrs, Hsi.
  repeat (split; [reflexivity|]).
  intros n Hne. now rewrite find_layer_snoc_other.
Qed.

(** X23. Accepting a mask touches only the label side of the widget: the
    candidates, the scores, the selected index, the model and the current
    image are as before, and so is every layer other than the labels layer,
    whether the accept returns or raises. *)
Theorem add_mask_to_labels_frame (combo_text : string) (w : Widget) :
  same_outside_labels w (snd (_add_mask_to_labels combo_text w)).
Proof.
  unfold _add_mask_to_labels.
  unfold mbind at 1, M_bind at 1, gets at 1.
  unfold mbind at 1, M_bind at 1, gets at 1.
  destruct (_ || _); [apply same_outside_labels_refl|].
  unfold mbind at 1, M_bind at 1, lift at 1.
  destruct (masks_get _ _) as [mask|e]; [|apply same_outside_labels_refl].
  unfold mbind at 1, M_bind at 1, gets at 1.
  unfold mbind at 1, M_bind at 1, gets at 1.
  destruct (find_layer labels_layer_name (viewer w)) as [l|].
  - unfold mbind at 1, M_bind at 1.
    pose proof (label_id_in_layer_frame l (label_name_of combo_text (next_label_id w)) w) as H1.
    destruct (label_id_in_layer _ _ w) as [[id|e] w1]; cbn [snd] in *; [|exact H1].
    eapply same_outside_labels_trans; [exact H1 | apply write_label_frame].
  - apply create_labels_layer_frame.
Qed.

Lemma same_outside_candidates_refl (w : Widget) : same_outside_candidates w w.
Proof. unfold same_outside_candidates. auto 12. Qed.

(** X24. Adjusting the boundary touches only the candidates, their display
    and, through the layer event of a new mask layer, the label state: the
    history, the model, the current image, the scores and the selected index
    are as before, and so is every layer other than the mask and preview
    layers (the labels layer among them), whether the call returns or raises.
    The label map, the colours and the id counter are as before when the
    mask layer exists already and when there is no labels layer; otherwise
    they are as before or what [_on_layer_change] reads from the labels
    layer. *)
Theorem adjust_mask_boundary_outside_candidates (operation_type : Z) (w : Widget) :
  let w' := snd (_adjust_mask_boundary operation_type w) in
  same_outside_candidates w w'
  /\ (label_state w' = label_state w
      \/ (has_layer mask_layer_name (viewer w) = false
          /\ label_state w' = label_state (after_layer_event w)))
  /\ (has_layer mask_layer_name (viewer w) = true -> label_state w' = label_state w)
  /\ (find_layer labels_layer_name (viewer w) = None -> label_state w' = label_state w).
Proof.
  assert (Hstay : forall w' : Widget,
             same_outside_candidates w w' -> label_state w' = label_state w ->
             same_outside_candidates w w'
             /\ (label_state w' = label_state w
                 \/ (has_layer mask_layer_name (viewer w) = false
                     /\ label_state w' = label_state (after_layer_event w)))
             /\ (has_layer mask_layer_name (viewer w) = true -> label_state w' = label_state w)
             /\ (find_layer labels_layer_name (viewer w) = None ->
                 label_state w' = label_state w)) by (intros; auto).
  cbv zeta. unfold _adjust_mask_boundary, on_layer. run.
  destruct (_ || _); [apply Hstay; [apply same_outside_candidates_refl | reflexivity]|].
  destruct (masks_get _ _) as [mask|e]; run;
    [|apply Hstay; [apply same_outside_candidates_refl | reflexivity]].
  destruct (masks_set _ _ _) as [masks'|e]; run;
    [|apply Hstay; [apply same_outside_candidates_refl | reflexivity]].
  destruct (masks_get masks' _) as [shown|e]; run;
    [|apply Hstay; [unfold same_outside_candidates; cbn; auto 12 | reflexivity]].
  match goal with
  | |- context [_display_mask shown ?X] =>
      destruct (display_mask_run shown X) as (v & -> & _ & Hother)
  end.
  cbn [viewer set_results] in *. run.
  rewrite (Hother preview_layer_name eq_refl).
  destruct (after_layer_event_frame w) as (Hv & Hm & Hml & Hci & Hcl & Hrm & Hrs & Hsi & Hh).
  assert (Hframe : forall (v' : list (string * Layer)) (w0 : Widget),
             (forall name, String.eqb mask_layer_name name = false ->
                           String.eqb preview_layer_name name = false ->
                           find_layer name v' = find_layer name (viewer w)) ->
             w0 = w \/ w0 = after_layer_event w ->
             same_outside_candidates w
               (set_viewer v' (set_results masks' (result_scores w) (selected_mask_idx w) w0))).
  { intros v' w0 Hv' [-> | ->]; unfold same_outside_candidates;
      cbn -[String.eqb]; rewrite ?Hm, ?Hml, ?Hci, ?Hcl, ?Hrs, ?Hsi, ?Hh;
      repeat (split; [reflexivity|]); exact Hv'. }
  assert (Hev : after_layer_event
                  (set_results masks' (result_scores w) (selected_mask_idx w) w)
                = set_results masks' (result_scores w) (selected_mask_idx w)
                    (after_layer_event w)) by apply after_layer_event_set_results.
  rewrite Hev.
  destruct (has_layer mask_layer_name (viewer w)) eqn:Ehas;
    destruct (find_layer preview_layer_name (viewer w)); run;
    (split; [apply Hframe; [intros name H1 H2;
                            rewrite ?find_layer_update_other by exact H2; now apply Hother
                           | auto]|]);
    (split; [first [left; reflexivity | right; split; reflexivity]|]);
    (split; [first [reflexivity | discriminate]|]);
    intros Hn; rewrite ?(after_layer_event_no_labels w Hn); reflexivity.
Qed.

End Frames.

(** The layer events at work on the stand-in. After "cell" and "nucleus" are
    accepted the counter stands at 2 although the ids 1 and 2 are in use.
    Without a mask layer, adjusting the boundary shows the candidate in a
    mask layer that is new and the layer event moves the counter to 3, while
    clearing the annotations removes nothing and leaves it at 2. With the
    mask layer shown from the start, clearing the annotations removes it and
    the layer event moves the counter to 3. *)
Example layer_events_move_counter :
  let select i (w : @widget.Widget demo_backend) :=
    widget.set_results (widget.result_masks w) (widget.result_scores w) i w in
  let w1 := snd (widget._add_mask_to_labels (B := demo_backend) "cell" demo_widget) in
  let w2 := snd (widget._add_mask_to_labels "nucleus" (select 2%nat w1)) in
  let s0 := snd (widget._update_selected_mask (B := demo_backend) 1 demo_widget) in
  let s1 := snd (widget._add_mask_to_labels "cell" s0) in
  let s2 := snd (widget._add_mask_to_labels "nucleus" (snd (widget._update_selected_mask 2 s1))) in
  (widget.next_label_id w2 = 2
   /\ has_layer widget.mask_layer_name (widget.viewer w2) = false
   /\ widget.next_label_id (snd (widget._adjust_mask_boundary 1 w2)) = 3
   /\ widget.next_label_id (snd (widget._clear_annotations w2)) = 2)
  /\ (widget.next_label_id s2 = 2
      /\ has_layer widget.mask_layer_name (widget.viewer s2) = true
      /\ widget.next_label_id (snd (widget._adjust_mask_boundary 1 s2)) = 2
      /\ widget.next_label_id (snd (widget._clear_annotations s2)) = 3).
Proof. vm_compute. repeat split; reflexivity. Qed.

(** ** _widget.py: the current image follows the model *)

Section CurrentImage.
Context `{B : SamBackend}.
Import widget.

Lemma set_image_success_marks_true (image : option Image)
    (w : mobilesam_wrapper.MobileSamWrapper) :
  fst (mobilesam_wrapper.set_image image w) = Ok tt ->
  mobilesam_wrapper.image_embeddings (snd (mobilesam_wrapper.set_image image w)) = Some true.
Proof.
  unfold mobilesam_wrapper.set_image, mobilesam_wrapper.call.
  destruct image as [i|]; [|run; discriminate].
  run. destruct (mobilesam_wrapper.to_rgb_uint8 i) as [i'|e]; [|run; discriminate].
  destruct (String.eqb (mobilesam_wrapper.device w) "mps");
    repeat (run;
            match goal with
            | |- context [predictor_reset_image ?s] =>
                destruct (predictor_reset_image s) as [[[]|?] ?]
            | |- context [model_to ?d ?s] => destruct (model_to d s) as [[[]|?] ?]
            | |- context [new_predictor ?s] => destruct (new_predictor s) as [[[]|?] ?]
            | |- context [predictor_set_image ?i ?s] =>
                destruct (predictor_set_image i s) as [[[]|?] ?]
            end); run; try discriminate; reflexivity.
Qed.

(** X25. With a loaded model and an Image layer chosen, [_set_current_image]
    always returns, and the widget's current image follows the model: when
    the model took the image (its embedding flag is [True]) the layer's data
    and name become the current image and layer; when the model refused it
    (flag [False]) the widget keeps the image and layer it had. The viewer is
    not changed. *)
Theorem set_current_image_tracks_model (image_combo : list string)
    (selected_layer_name : string) (w : Widget) (layer : Layer)
    (mw : mobilesam_wrapper.MobileSamWrapper) :
  model_loaded w = true ->
  image_combo <> [] ->
  find_layer selected_layer_name (viewer w) = Some layer ->
  kind layer = ImageLayer ->
  model w = Some mw ->
  exists w' mw',
    _set_current_image image_combo selected_layer_name w = (Ok tt, w')
    /\ model w' = Some mw'
    /\ viewer w' = viewer w
    /\ (mobilesam_wrapper.image_embeddings mw' = Some true
        /\ current_image w' = Some (layer_data layer)
        /\ current_layer w' = Some selected_layer_name
        \/ mobilesam_wrapper.image_embeddings mw' = Some false
           /\ current_image w' = current_image w
           /\ current_layer w' = current_layer w).
Proof.
  intros Hloaded Hcombo Hlayer Hkind Hmodel.
  unfold _set_current_image, on_model. run.
  rewrite Hloaded. destruct image_combo as [|c0 combo]; [congruence|]. cbn.
  rewrite Hlayer. cbn. rewrite Hkind, Hmodel.
  pose proof (set_image_success_marks_true (as_image (layer_data layer)) mw) as Hok.
  pose proof (set_image_failure_marks_false (as_image (layer_data layer)) mw) as Hfail.
  destruct (mobilesam_wrapper.set_image (as_image (layer_data layer)) mw) as [[[]|e] mw'];
    cbn in *.
  - eexists _, mw'. split; [reflexivity|]. cbn. auto 10.
  - destruct (Hfail e eq_refl) as [_ Hf].
    eexists _, mw'. split; [reflexivity|]. cbn. auto 10.
Qed.

End CurrentImage.

Lemma set_current_image_tracks_model_witness :
  exists w' mw',
    widget._set_current_image (B := demo_backend) ["image"; "next"]%string "next"%string
      demo_widget = (Ok tt, w')
    /\ widget.model w' = Some mw'
    /\ widget.viewer w' = widget.viewer demo_widget
    /\ (mobilesam_wrapper.image_embeddings mw' = Some true
        /\ widget.current_image w' = Some (widget.ArrayData demo_next_image)
        /\ widget.current_layer w' = Some "next"%string
        \/ mobilesam_wrapper.image_embeddings mw' = Some false
           /\ widget.current_image w' = widget.current_image demo_widget
           /\ widget.current_layer w' = widget.current_layer demo_widget).
Proof.
  apply (set_current_image_tracks_model (B := demo_backend) ["image"; "next"]%string
           "next"%string demo_widget
           (widget.MkLayer widget.ImageLayer (widget.ArrayData demo_next_image)
              (widget.Meta None None) None)
           demo_wrapper);
    [reflexivity | discriminate | reflexivity | reflexivity | reflexivity].
Defined.

(** ** _widget.py: loading an image of the folder *)

Section LoadImage.
Context `{B : SamBackend}.
Import widget.

#[local] Arguments _set_current_image : simpl never.
#[local] Arguments _clear_annotations : simpl never.



End LoadImage.


(** ** _widget.py: the label raster stays within the label map *)

Lemma find_label_id_In `{B : SamBackend} (names : dict string) (name : string) (L : Z) :
  widget.find_label_id names name = Some L -> In L (keys names).
Proof.
  induction names as [|[k n] names IH]; cbn; [discriminate|].
  destruct (String.eqb n name); [intros [= <-]; now left | intros H; right; auto].
Qed.

(** The pixels of the raster after a mask was written under [L]. *)
Lemma written_pixel (cond : grid bool) (raster : grid Z) (L : Z) (i j : nat) (v : Z) :
  cell (gzip (fun (c : bool) x => if c then L else x) cond
          (gzip (fun (c : bool) x => if c then 0 else x) (gmap2 (Z.eqb L) raster) raster))
       i j = Some v ->
  v = L \/ v = 0 \/ cell raster i j = Some v.
Proof.
  rewrite !cell_gzip, cell_gmap2.
  destruct (cell cond i j) as [c|]; [|discriminate].
  destruct (cell raster i j) as [x|]; cbn; [|discriminate].
  intros [= <-]. destruct c; [auto|]. destruct (L =? x); auto.
Qed.

Lemma created_pixel (mask : ndarray) (i j : nat) (v : Z) :
  cell (gzip (fun (c : bool) x => if c then 1 else x)
          (gt_zero (mask_to_binary mask default_threshold)) (zeros_like mask)) i j = Some v ->
  v = if mask_on mask i j then 1 else 0.
Proof.
  rewrite cell_gzip. unfold mask_on.
  destruct (cell (gt_zero _) i j) as [c|]; [|discriminate].
  assert (Hz : forall z, cell (zeros_like mask) i j = Some z -> z = 0).
  { intros z. destruct mask; cbn; rewrite cell_gmap2;
      match goal with |- context [cell ?g i j] => destruct (cell g i j) end; cbn; congruence. }
  destruct (cell (zeros_like mask) i j) as [z|]; [|discriminate].
  intros [= <-]. cbn. destruct c; [reflexivity | now apply Hz].
Qed.

Section AcceptInvariant.
Context `{B : SamBackend}.
Import widget.

#[local] Arguments mask_to_binary : simpl never.
#[local] Arguments label_name_of : simpl never.
#[local] Arguments find_label_id : simpl never.
#[local] Arguments find_layer : simpl never.
#[local] Arguments update_layer : simpl never.
#[local] Arguments add_layer : simpl never.
#[local] Arguments remove_layer : simpl never.
#[local] Arguments assign_where : simpl never.
#[local] Arguments masks_get : simpl never.
#[local] Arguments masks_len : simpl never.
#[local] Arguments gt_zero : simpl never.
#[local] Arguments zeros_like : simpl never.
#[local] Arguments max_default0 : simpl never.
#[local] Arguments dict_set : simpl never.
#[local] Arguments _generate_label_color : simpl never.
#[local] Arguments colorFor : simpl never.
#[local] Arguments label_id_in_layer : simpl never.
#[local] Arguments write_label : simpl never.
#[local] Arguments create_labels_layer : simpl never.
#[local] Arguments Nat.eqb : simpl never.
#[local] Arguments Nat.leb : simpl never.

(** The state a successful [write_label] leaves. *)
Lemma write_label_inv (l : Layer) (L : Z) (name : string) (bm : ndarray) (idx : nat)
    (w w' : Widget) (d : int_dtype) (raster : grid Z) :
  layer_data l = ArrayData (IntArr d raster) ->
  write_label l L name bm idx w = (Ok tt, w') ->
  let raster' :=
    gzip (fun (c : bool) x => if c then L else x) (gt_zero bm)
      (gzip (fun (c : bool) x => if c then 0 else x) (gmap2 (Z.eqb L) raster) raster) in
  w' = set_viewer
         (update_layer labels_layer_name
            (fun l0 => set_metadata (Meta (Some (label_names w)) (Some (label_colors w)))
                         (set_layer_data (ArrayData (IntArr d raster')) l0))
            (viewer w))
         (set_label_mask_history
            (Some (dict_set L (MkHistory bm name idx) (default [] (label_mask_history w))))
            w).
Proof.
  intros Hd. unfold write_label, relabel, record_history, on_layer.
  rewrite Hd. unfold eq_scalar. run. unfold assign_scalar at 1. unfold assign_where at 1.
  match goal with
  | |- context [negb (same_shape ?c ?g)] => destruct (negb (same_shape c g))
  end; [discriminate|].
  rewrite fits_zero. run. unfold assign_where.
  match goal with
  | |- context [negb (same_shape ?c ?g)] => destruct (negb (same_shape c g))
  end; [discriminate|].
  destruct (negb (fits d L)); [discriminate|]. run.
  intros [= <-]. reflexivity.
Qed.

(** The id under which a mask is accepted is an id of the label map the
    widget then holds, and that map keeps every id of the layer's map. The
    labels layer stays in the viewer. *)
Lemma label_id_in_layer_known (l l0 : Layer) (name : string) (w w1 : Widget)
    (names : dict string) (L : Z) :
  md_label_names (metadata l) = Some names ->
  find_layer labels_layer_name (viewer w) = Some l0 ->
  label_id_in_layer l name w = (Ok L, w1) ->
  In L (keys (label_names w1))
  /\ (forall k, In k (keys names) -> In k (keys (label_names w1)))
  /\ exists l1, find_layer labels_layer_name (viewer w1) = Some l1.
Proof.
  intros Hn Hl0 Hrun.
  assert (Hpresent : exists l1, find_layer labels_layer_name (viewer w1) = Some l1).
  { revert Hrun. unfold label_id_in_layer, on_layer. rewrite Hn. run.
    destruct (md_label_colors (metadata l)); destruct (find_label_id names name); run;
      try (intros [= <- <-]; cbn; eauto);
      rewrite generate_label_color_run; destruct (colorFor _); run; try discriminate;
      intros [= <- <-]; cbn; rewrite ?find_layer_update_layer, Hl0; cbn; eauto. }
  split; [|split; [|exact Hpresent]].
  - destruct (find_label_id names name) as [L0|] eqn:Ef.
    + rewrite (label_id_in_layer_existing l name w names L0 Hn Ef) in Hrun.
      injection Hrun as <- <-. cbn. eapply find_label_id_In, Ef.
    + destruct (label_id_in_layer_new l name w names Hn Ef) as [Hnames Hid].
      rewrite Hrun in Hnames, Hid. cbn in Hnames, Hid. rewrite Hnames.
      destruct Hid as [[= <-]|[e He]]; [|discriminate].
      unfold keys. rewrite map_app. apply in_or_app. right. now left.
  - intros k Hk. destruct (find_label_id names name) as [L0|] eqn:Ef.
    + rewrite (label_id_in_layer_existing l name w names L0 Hn Ef) in Hrun.
      injection Hrun as <- <-. exact Hk.
    + destruct (label_id_in_layer_new l name w names Hn Ef) as [Hnames _].
      rewrite Hrun in Hnames. cbn in Hnames. rewrite Hnames.
      unfold keys. rewrite map_app. apply in_or_app. now left.
Qed.

(** X26. The labels raster stays within the label map. Starting without a
    labels layer, or with one whose label map covers every non-zero pixel of
    its raster, an accept that returns leaves a labels layer whose map is the
    widget's label map and covers every non-zero pixel of the new raster. *)
Theorem accept_keeps_raster_labelled (combo_text : string) (w w' : Widget) (mask : ndarray) :
  masks_get (result_masks w) (selected_mask_idx w) = Ok mask ->
  match find_layer labels_layer_name (viewer w) with
  | None => True
  | Some layer =>
      exists names d raster,
        md_label_names (metadata layer) = Some names
        /\ layer_data layer = ArrayData (IntArr d raster)
        /\ labelled_by names raster
  end ->
  _add_mask_to_labels combo_text w = (Ok tt, w') ->
  exists layer' d' raster',
    find_layer labels_layer_name (viewer w') = Some layer'
    /\ md_label_names (metadata layer') = Some (label_names w')
    /\ layer_data layer' = ArrayData (IntArr d' raster')
    /\ labelled_by (label_names w') raster'.
Proof.
  intros Hmask Hinv. unfold _add_mask_to_labels. run.
  rewrite (guard_passes _ _ _ Hmask), Hmask.
  set (name := label_name_of combo_text (next_label_id w)).
  set (bm := mask_to_binary mask default_threshold).
  destruct (find_layer labels_layer_name (viewer w)) as [layer|] eqn:El.
  - destruct Hinv as (names & d & raster & Hn & Hd & Hlab).
    destruct (label_id_in_layer layer name w) as [[L|e] w1] eqn:Eid; [|discriminate].
    destruct (label_id_in_layer_known layer layer name w w1 names L Hn El Eid)
      as (HL & Hkeep & l1 & Hl1).
    intros Hw. apply (write_label_inv layer L name bm _ w1 w' d raster Hd) in Hw.
    subst w'. cbn. rewrite find_layer_update_layer, Hl1. cbn.
    eexists _, d, _. split; [reflexivity|]. split; [reflexivity|]. split; [reflexivity|].
    intros i j v Hv. apply written_pixel in Hv as [-> | [-> | Hv]]; auto.
    destruct (Hlab i j v Hv) as [-> | Hk]; auto.
  - destruct (create_labels_layer_run mask name (selected_mask_idx w) w El) as [c Hc].
    cbv zeta in Hc. fold bm in Hc. rewrite Hc. intros [= <-]. cbn.
    rewrite find_layer_add_layer by exact El.
    eexists _, int32, _. split; [reflexivity|]. split; [reflexivity|]. split; [reflexivity|].
    intros i j v Hv. subst bm. apply created_pixel in Hv. subst v.
    destruct (mask_on mask i j); cbn; auto.
Qed.

(** X27. After a confirmed [_clear_all_labels] the ids start again: the next
    accept creates a new labels layer, gives the name the id 1 whatever ids
    were in use before, and leaves the counter at 2; the new raster is 1 on
    the pixels of the mask and 0 elsewhere. *)
Theorem clear_all_labels_restarts_ids (combo_text : string) (w : Widget) (mask : ndarray)
    (layer : Layer) :
  find_layer labels_layer_name (viewer w) = Some layer ->
  masks_get (result_masks w) (selected_mask_idx w) = Ok mask ->
  let w1 := snd (_clear_all_labels true w) in
  exists w2 layer2 raster2,
    _add_mask_to_labels combo_text w1 = (Ok tt, w2)
    /\ label_names w2 = [(1, label_name_of combo_text 1)]
    /\ next_label_id w2 = 2
    /\ find_layer labels_layer_name (viewer w2) = Some layer2
    /\ layer_data layer2 = ArrayData (IntArr int32 raster2)
    /\ gshape raster2 = arr_shape mask
    /\ forall i j v, cell raster2 i j = Some v -> v = if mask_on mask i j then 1 else 0.
Proof.
  intros Hl Hmask w1.
  assert (E1 : w1 = set_next_label_id 1
                      (set_label_colors []
                         (set_label_names []
                            (set_viewer (remove_layer labels_layer_name (viewer w)) w)))).
  { subst w1. now rewrite (clear_all_labels_run w layer Hl). }
  assert (Hm1 : masks_get (result_masks w1) (selected_mask_idx w1) = Ok mask)
    by (rewrite E1; exact Hmask).
  assert (Hl1 : find_layer labels_layer_name (viewer w1) = None)
    by (rewrite E1; cbn; apply find_layer_remove_layer).
  assert (Hn1 : next_label_id w1 = 1) by (rewrite E1; reflexivity).
  clearbody w1.
  unfold _add_mask_to_labels. run.
  rewrite (guard_passes _ _ _ Hm1), Hm1, Hl1, Hn1.
  destruct (create_labels_layer_run mask (label_name_of combo_text 1)
              (selected_mask_idx w1) w1 Hl1) as [c Hc].
  cbv zeta in Hc. rewrite Hc.
  eexists _, _, _. split; [reflexivity|]. cbn.
  rewrite find_layer_add_layer by exact Hl1.
  split; [reflexivity|]. split; [reflexivity|]. split; [reflexivity|].
  split; [reflexivity|]. split.
  - rewrite gshape_gzip; [apply gshape_zeros_like|].
    now rewrite gshape_gt_zero, gshape_zeros_like, arr_shape_mask_to_binary.
  - intros i j v. apply created_pixel.
Qed.

End AcceptInvariant.

Lemma accept_keeps_raster_labelled_witness :
  let w' := snd (widget._add_mask_to_labels (B := demo_backend) "membrane" demo_labeled_widget) in
  labelled_by demo_names demo_raster
  /\ exists layer' d' raster',
       widget.find_layer widget.labels_layer_name (widget.viewer w') = Some layer'
       /\ widget.md_label_names (widget.metadata layer') = Some (widget.label_names w')
       /\ widget.layer_data layer' = widget.ArrayData (IntArr d' raster')
       /\ labelled_by (widget.label_names w') raster'.
Proof.
  assert (H : labelled_by demo_names demo_raster).
  { intros [|[|[|i]]] [|[|[|j]]] v; cbn; intros [= <-]; auto. }
  split; [exact H|].
  apply (accept_keeps_raster_labelled (B := demo_backend) "membrane" demo_labeled_widget _
           (BoolArr [[true; false]; [false; false]])).
  - reflexivity.
  - exists demo_names, int32, demo_raster. repeat split. exact H.
  - vm_compute. reflexivity.
Defined.

Lemma clear_all_labels_restarts_ids_witness :
  exists w2 layer2 raster2,
    widget._add_mask_to_labels (B := demo_backend) "membrane"
      (snd (widget._clear_all_labels true demo_labeled_widget)) = (Ok tt, w2)
    /\ widget.label_names w2 = [(1, widget.label_name_of "membrane" 1)]
    /\ widget.next_label_id w2 = 2
    /\ widget.find_layer widget.labels_layer_name (widget.viewer w2) = Some layer2
    /\ widget.layer_data layer2 = widget.ArrayData (IntArr int32 raster2)
    /\ gshape raster2 = arr_shape (BoolArr [[true; false]; [false; false]])
    /\ forall i j v, cell raster2 i j = Some v ->
         v = if mask_on (BoolArr [[true; false]; [false; false]]) i j then 1 else 0.
Proof.
  apply (clear_all_labels_restarts_ids (B := demo_backend) "membrane" demo_labeled_widget
           (BoolArr [[true; false]; [false; false]])
           (demo_labels_layer (widget.Meta (Some demo_names) (Some demo_colors))));
    reflexivity.
Defined.

(** ** _widget.py: growing and shrinking a candidate *)

Lemma cell_morph (pick : Z -> Z -> Z) (g : grid Z) (i j : nat) :
  cell (morph pick g) i j = (fun v => fold_left pick (window3 g i j) v) <$> cell g i j.
Proof.
  unfold morph, cell. rewrite list_lookup_imap.
  destruct (g !! i) as [row|]; cbn; [|reflexivity].
  rewrite list_lookup_imap. destruct (row !! j); reflexivity.
Qed.

Lemma fold_max_ge (l : list Z) : forall v, v <= fold_left Z.max l v.
Proof.
  induction l as [|x l IH]; intros v; cbn; [lia|].
  specialize (IH (Z.max v x)). lia.
Qed.

Lemma fold_min_le (l : list Z) : forall v, fold_left Z.min l v <= v.
Proof.
  induction l as [|x l IH]; intros v; cbn; [lia|].
  specialize (IH (Z.min v x)). lia.
Qed.

Lemma binary_dilate (g : grid Z) : binary g -> binary (cv2_dilate g).
Proof.
  intros H. apply binary_morph; [|exact H]. intros a b [-> | ->] [-> | ->]; cbn; auto.
Qed.

Lemma binary_erode (g : grid Z) : binary g -> binary (cv2_erode g).
Proof.
  intros H. apply binary_morph; [|exact H]. intros a b [-> | ->] [-> | ->]; cbn; auto.
Qed.

(** Dilation keeps every pixel that is on; erosion keeps every pixel that
    is off. *)
Lemma dilate_keeps_on (g : grid Z) (i j : nat) :
  binary g -> cell g i j = Some 1 -> cell (cv2_dilate g) i j = Some 1.
Proof.
  intros Hb Hc. pose proof (binary_dilate g Hb i j) as Hd.
  unfold cv2_dilate in *. rewrite cell_morph, Hc in *. cbn in *.
  pose proof (fold_max_ge (window3 g i j) 1) as Hge.
  destruct (Hd _ eq_refl) as [E|E]; [lia | now rewrite E].
Qed.

Lemma erode_keeps_off (g : grid Z) (i j : nat) :
  binary g -> cell g i j = Some 0 -> cell (cv2_erode g) i j = Some 0.
Proof.
  intros Hb Hc. pose proof (binary_erode g Hb i j) as Hd.
  unfold cv2_erode in *. rewrite cell_morph, Hc in *. cbn in *.
  pose proof (fold_min_le (window3 g i j) 0) as Hle.
  destruct (Hd _ eq_refl) as [E|E]; [now rewrite E | lia].
Qed.

Lemma mask_on_binarised (mask : ndarray) (i j : nat) :
  mask_on mask i j = on_in (astype_int uint8 (mask_to_binary mask default_threshold)) i j.
Proof.
  unfold mask_on, on_in.
  destruct (mask_to_binary_output mask default_threshold) as (g0 & -> & _ & Hb).
  cbn [gt_zero astype_int]. rewrite !cell_gmap2.
  destruct (cell g0 i j) as [z|] eqn:E; cbn; [|reflexivity].
  destruct (Hb i j z E) as [-> | ->]; reflexivity.
Qed.

Lemma mask_on_stored (masks : mask_seq) (a : grid Z) (i j : nat) :
  binary a -> mask_on (stored masks (as_float32 a)) i j = on_in a i j.
Proof.
  intros Hb. unfold mask_on, on_in, stored, as_float32.
  destruct masks as [l|[l|d l|d l]];
    [ | | destruct d | destruct d ];
    cbn [astype_float astype_bool astype_int mask_to_binary greater_than gt_zero
         in_integer_branch int_dtype_eqb orb];
    rewrite !cell_gmap2;
    (destruct (cell a i j) as [v|] eqn:E; cbn [fmap option_fmap option_map default];
     [destruct (Hb i j v E) as [-> | ->]; vm_compute; reflexivity | reflexivity]).
Qed.

Lemma arr_shape_stored (masks : mask_seq) (a : ndarray) :
  arr_shape (stored masks a) = arr_shape a.
Proof.
  destruct masks as [l|[l|d l|d l]]; cbn [stored arr_shape]; [reflexivity| | |].
  - destruct a; cbn; [reflexivity | apply gshape_gmap2 | apply gshape_gmap2].
  - apply gshape_astype_int.
  - apply gshape_astype_float.
Qed.

Section GrowShrink.
Context `{B : SamBackend}.
Import widget.

(** The run of [_adjust_mask_boundary] on a held candidate. *)
Lemma adjust_mask_boundary_run (operation_type : Z) (w : Widget) (mask : ndarray) :
  masks_get (result_masks w) (selected_mask_idx w) = Ok mask ->
  exists w',
    _adjust_mask_boundary operation_type w = (Ok tt, w')
    /\ masks_get (result_masks w') (selected_mask_idx w)
       = Ok (stored (result_masks w) (as_float32 (adjusted operation_type mask))).
Proof.
  intros Hget.
  destruct (masks_set_spec _ _ mask (as_float32 (adjusted operation_type mask)) Hget
              (eq_sym (arr_shape_adjusted operation_type mask)))
    as (masks' & Hset & _ & _ & Hsel).
  unfold _adjust_mask_boundary.
  unfold mbind at 1, M_bind at 1, gets at 1.
  unfold mbind at 1, M_bind at 1, gets at 1.
  rewrite (guard_passes _ _ _ Hget).
  unfold mbind at 1, M_bind at 1, lift at 1. rewrite Hget.
  fold (adjusted operation_type mask). fold (as_float32 (adjusted operation_type mask)).
  unfold mbind at 1, M_bind at 1, lift at 1. rewrite Hset.
  unfold mbind at 1, M_bind at 1, modify at 1.
  unfold mbind at 1, M_bind at 1, lift at 1. rewrite Hsel.
  set (w1 := set_results masks' (result_scores w) (selected_mask_idx w) w).
  unfold mbind at 1, M_bind at 1.
  destruct (display_mask_results
              (stored (result_masks w) (as_float32 (adjusted operation_type mask))) w1)
    as (Hd & Hm & _).
  destruct (_display_mask _ w1) as [r w2]. cbn in Hd, Hm. subst r.
  unfold mbind at 1, M_bind at 1, gets at 1.
  destruct (find_layer preview_layer_name (viewer w2));
    (eexists; split; [reflexivity|]); cbn; rewrite Hm; subst w1; exact Hsel.
Qed.

(** X28. Growing never loses a pixel and shrinking never gains one. After
    [_adjust_mask_boundary] the selected candidate has the shape it had; for
    a positive operation type every pixel the candidate covered is still
    covered, and otherwise every pixel it covers now was covered before,
    whatever container and dtype the candidates are held in. *)
Theorem adjust_grows_or_shrinks (operation_type : Z) (w : Widget) (mask : ndarray) :
  masks_get (result_masks w) (selected_mask_idx w) = Ok mask ->
  exists w' mask',
    _adjust_mask_boundary operation_type w = (Ok tt, w')
    /\ masks_get (result_masks w') (selected_mask_idx w) = Ok mask'
    /\ arr_shape mask' = arr_shape mask
    /\ (0 < operation_type ->
        forall i j, mask_on mask i j = true -> mask_on mask' i j = true)
    /\ (operation_type <= 0 ->
        forall i j, mask_on mask' i j = true -> mask_on mask i j = true).
Proof.
  intros Hget.
  destruct (adjust_mask_boundary_run operation_type w mask Hget) as (w' & Hrun & Hsel).
  exists w', (stored (result_masks w) (as_float32 (adjusted operation_type mask))).
  split; [exact Hrun|]. split; [exact Hsel|]. split.
  { now rewrite arr_shape_stored, arr_shape_adjusted. }
  pose proof (binary_mask_to_binary mask default_threshold) as Hb.
  set (b := astype_int uint8 (mask_to_binary mask default_threshold)) in *.
  split.
  - intros Hop i j. rewrite mask_on_stored by apply binary_adjusted.
    rewrite mask_on_binarised. fold b. unfold adjusted. fold b.
    replace (0 <? operation_type) with true by (symmetry; now apply Z.ltb_lt).
    unfold on_in. destruct (cell b i j) as [v|] eqn:E; [|discriminate].
    intros Hv. apply Z.eqb_eq in Hv. subst v.
    now rewrite (dilate_keeps_on b i j Hb E).
  - intros Hop i j. rewrite mask_on_stored by apply binary_adjusted.
    rewrite mask_on_binarised. fold b. unfold adjusted. fold b.
    replace (0 <? operation_type) with false by (symmetry; apply Z.ltb_ge; lia).
    unfold on_in. destruct (cell b i j) as [v|] eqn:E.
    + destruct (Hb i j v E) as [-> | ->]; [|reflexivity].
      now rewrite (erode_keeps_off b i j Hb E).
    + unfold cv2_erode. now rewrite cell_morph, E.
Qed.

End GrowShrink.

Lemma adjust_grows_or_shrinks_witness :
  exists w' mask',
    widget._adjust_mask_boundary (B := demo_backend) 1 demo_widget = (Ok tt, w')
    /\ masks_get (widget.result_masks w') (widget.selected_mask_idx demo_widget) = Ok mask'
    /\ arr_shape mask' = arr_shape (BoolArr [[true; true]; [false; false]])
    /\ (0 < 1 ->
        forall i j, mask_on (BoolArr [[true; true]; [false; false]]) i j = true ->
                    mask_on mask' i j = true)
    /\ (1 <= 0 ->
        forall i j, mask_on mask' i j = true ->
                    mask_on (BoolArr [[true; true]; [false; false]]) i j = true).
Proof.
  apply (adjust_grows_or_shrinks (B := demo_backend) 1 demo_widget
           (BoolArr [[true; true]; [false; false]])).
  reflexivity.
Defined.

Lemma update_selected_mask_shows_witness :
  exists w',
    widget._update_selected_mask (B := demo_backend) 2 demo_widget = (Ok tt, w')
    /\ widget.selected_mask_idx w' = 2%nat
    /\ widget.result_masks w' = widget.result_masks demo_widget.
Proof.
  destruct (update_selected_mask_shows (B := demo_backend) 2 demo_widget
              (BoolArr [[true; true]; [true; false]]) ltac:(lia) eq_refl)
    as (w' & Hrun & Hsel & Hmasks & _).
  exists w'. auto.
Defined.

Lemma preview_selected_mask_shows_witness :
  exists w' g,
    widget._preview_selected_mask (B := demo_backend) demo_widget = (Ok tt, w')
    /\ widget.layer_data <$> widget.find_layer widget.preview_layer_name (widget.viewer w')
       = Some (widget.ArrayData (IntArr uint8 g))
    /\ gshape g = [2; 2]%nat.
Proof.
  destruct (preview_selected_mask_shows (B := demo_backend) demo_widget
              (BoolArr [[true; true]; [false; false]]) eq_refl)
    as (w' & g & Hrun & Hlayer & Hshape & _).
  exists w', g. auto.
Defined.

Lemma on_layer_change_syncs_witness :
  exists w',
    widget._on_layer_change (B := demo_backend) demo_labeled_widget = (Ok tt, w')
    /\ widget.label_names w' = demo_names
    /\ widget.next_label_id w' = 3.
Proof.
  destruct (on_layer_change_syncs (B := demo_backend) demo_labeled_widget
              (demo_labels_layer (widget.Meta (Some demo_names) (Some demo_colors)))
              demo_names eq_refl eq_refl)
    as (w' & Hrun & Hnames & _ & Hnext & _).
  exists w'. auto.
Defined.

Lemma export_label_info_lists_every_label_witness :
  fst (widget._export_label_info (B := demo_backend) "labels.json" demo_labeled_widget)
  = Ok (Some (widget.MkExport
                [("1"%string, ("cell"%string, [1; 0; 0; 1]%float));
                 ("2"%string, ("nucleus"%string, [0; 1; 0; 1]%float))]
                (Some "image"%string))).
Proof.
  rewrite (export_label_info_lists_every_label (B := demo_backend) "labels.json"
             demo_labeled_widget).
  - reflexivity.
  - apply (bool_decide_unpack _). vm_compute. exact I.
Defined.

(** ** _widget.py: accepting the same mask twice *)

Lemma grid_ext {A} (g : grid A) : forall h : grid A,
  gshape g = gshape h -> (forall i j, cell g i j = cell h i j) -> g = h.
Proof.
  unfold gshape.
  induction g as [|r g IH]; intros [|s h] Hs Hc; try discriminate Hs; [reflexivity|].
  rewrite !fmap_cons in Hs. injection Hs as Hr Hg. f_equal.
  - apply list_eq. intros j. exact (Hc 0%nat j).
  - apply IH; [exact Hg|]. intros i j. exact (Hc (S i) j).
Qed.

Lemma dict_set_twice {V} (k : Z) (v : V) (d : dict V) :
  dict_set k v (dict_set k v d) = dict_set k v d.
Proof.
  induction d as [|[k' v'] d IH]; cbn.
  - now rewrite Z.eqb_refl.
  - destruct (k =? k') eqn:E; cbn; rewrite ?Z.eqb_refl, ?E; [reflexivity|]. now rewrite IH.
Qed.

(** Writing a mask under [L] into a raster that already holds it there
    changes nothing. *)
Lemma written_twice (cond : grid bool) (raster : grid Z) (L : Z) :
  gshape cond = gshape raster ->
  let write r :=
    gzip (fun (c : bool) x => if c then L else x) cond
      (gzip (fun (c : bool) x => if c then 0 else x) (gmap2 (Z.eqb L) r) r) in
  write (write raster) = write raster.
Proof.
  intros Hs write.
  assert (Hshape : forall r, gshape cond = gshape r -> gshape (write r) = gshape r).
  { intros r Hr. unfold write.
    rewrite gshape_gzip; [apply gshape_gzip, gshape_gmap2|].
    rewrite gshape_gzip; [exact Hr | apply gshape_gmap2]. }
  apply grid_ext.
  - rewrite !Hshape; [reflexivity | exact Hs | now rewrite Hshape].
  - intros i j. unfold write. rewrite !cell_gzip, !cell_gmap2, !cell_gzip, !cell_gmap2.
    destruct (cell cond i j) as [c|]; [|reflexivity].
    destruct (cell raster i j) as [x|]; cbn; [|reflexivity].
    destruct c; [reflexivity|].
    destruct (Z.eqb_spec L x) as [->|Hne].
    + destruct (x =? 0); reflexivity.
    + destruct (Z.eqb_spec L x); [congruence | reflexivity].
Qed.

Section AcceptTwice.
Context `{B : SamBackend}.
Import widget.

#[local] Arguments mask_to_binary : simpl never.
#[local] Arguments label_name_of : simpl never.
#[local] Arguments find_label_id : simpl never.
#[local] Arguments find_layer : simpl never.
#[local] Arguments update_layer : simpl never.
#[local] Arguments assign_where : simpl never.
#[local] Arguments masks_get : simpl never.
#[local] Arguments masks_len : simpl never.
#[local] Arguments gt_zero : simpl never.
#[local] Arguments max_default0 : simpl never.
#[local] Arguments dict_set : simpl never.
#[local] Arguments _generate_label_color : simpl never.
#[local] Arguments colorFor : simpl never.
#[local] Arguments label_id_in_layer : simpl never.
#[local] Arguments write_label : simpl never.
#[local] Arguments Nat.eqb : simpl never.
#[local] Arguments Nat.leb : simpl never.

Lemma update_layer_twice (name : string) (f f' : Layer -> Layer) (ls : list (string * Layer)) :
  (forall l, f' (f l) = f l) ->
  update_layer name f' (update_layer name f ls) = update_layer name f ls.
Proof.
  intros H. unfold update_layer.
  induction ls as [|[n l] ls IH]; [reflexivity|].
  destruct (String.eqb n name) eqn:E; cbn; rewrite E; [now rewrite H | now rewrite IH].
Qed.

Lemma find_label_id_snoc (names : dict string) (name : string) (id : Z) :
  find_label_id names name = None ->
  find_label_id (names ++ [(id, name)]) name = Some id.
Proof.
  unfold find_label_id.
  induction names as [|[k n] names IH]; cbn.
  - now rewrite String.eqb_refl.
  - destruct (String.eqb n name); [discriminate | exact IH].
Qed.

(** A successful [write_label] found the mask of the shape of the raster
    and the id within the range of its dtype. *)
Lemma write_label_inv_shape (l : Layer) (L : Z) (name : string) (bm : ndarray) (idx : nat)
    (w w' : Widget) (d : int_dtype) (raster : grid Z) :
  layer_data l = ArrayData (IntArr d raster) ->
  write_label l L name bm idx w = (Ok tt, w') ->
  gshape (gt_zero bm) = gshape raster /\ fits d L = true.
Proof.
  intros Hd. unfold write_label, relabel, record_history, on_layer.
  rewrite Hd. unfold eq_scalar. run. unfold assign_scalar at 1. unfold assign_where at 1.
  match goal with
  | |- context [negb (same_shape ?c ?g)] => destruct (negb (same_shape c g))
  end; [discriminate|].
  rewrite fits_zero. run. unfold assign_where.
  match goal with
  | |- context [negb (same_shape ?c ?g)] => destruct (same_shape c g) eqn:Es
  end; [|discriminate]. cbn [negb].
  destruct (fits d L); [|discriminate]. intros _. split; [|reflexivity].
  unfold same_shape in Es. apply bool_decide_eq_true_1 in Es. rewrite Es.
  apply gshape_gzip, gshape_gmap2.
Qed.

(** What [label_id_in_layer] leaves when the layer carries a label map and
    the call returns: the name is in the widget's map under the returned id,
    the counter is untouched and the labels layer is still there. *)
Lemma label_id_in_layer_mapped (l l0 : Layer) (name : string) (w w1 : Widget)
    (names : dict string) (L : Z) :
  md_label_names (metadata l) = Some names ->
  find_layer labels_layer_name (viewer w) = Some l0 ->
  label_id_in_layer l name w = (Ok L, w1) ->
  find_label_id (label_names w1) name = Some L
  /\ next_label_id w1 = next_label_id w
  /\ exists l1, find_layer labels_layer_name (viewer w1) = Some l1.
Proof.
  intros Hn Hl0 Hrun.
  destruct (label_id_in_layer_known l l0 name w w1 names L Hn Hl0 Hrun) as (_ & _ & Hpresent).
  split; [|split; [|exact Hpresent]].
  - destruct (find_label_id names name) as [L0|] eqn:Ef.
    + rewrite (label_id_in_layer_existing l name w names L0 Hn Ef) in Hrun.
      injection Hrun as <- <-. exact Ef.
    + destruct (label_id_in_layer_new l name w names Hn Ef) as [Hnames Hid].
      rewrite Hrun in Hnames, Hid. cbn in Hnames, Hid. rewrite Hnames.
      destruct Hid as [[= <-]|[e He]]; [|discriminate].
      now apply find_label_id_snoc.
  - revert Hrun. unfold label_id_in_layer, on_layer. rewrite Hn. run.
    destruct (md_label_colors (metadata l)); destruct (find_label_id names name); run;
      try (intros [= <- <-]; reflexivity);
      rewrite generate_label_color_run; destruct (colorFor _); run; try discriminate;
      intros [= <- <-]; reflexivity.
Qed.

(** X29. Accepting is idempotent on a labels layer that carries a label
    map: when an accept has returned, accepting the same candidate again
    under the same text returns as well and leaves the widget exactly as the
    first accept left it: same ids, same raster, same colours, same
    history. *)
Theorem accept_twice (combo_text : string) (w w1 : Widget) (mask : ndarray)
    (layer : Layer) (names : dict string) (d : int_dtype) (raster : grid Z) :
  masks_get (result_masks w) (selected_mask_idx w) = Ok mask ->
  find_layer labels_layer_name (viewer w) = Some layer ->
  md_label_names (metadata layer) = Some names ->
  layer_data layer = ArrayData (IntArr d raster) ->
  _add_mask_to_labels combo_text w = (Ok tt, w1) ->
  _add_mask_to_labels combo_text w1 = (Ok tt, w1).
Proof.
  intros Hmask Hlayer Hnames Hdata.
  set (bm := mask_to_binary mask default_threshold).
  set (name := label_name_of combo_text (next_label_id w)).
  assert (Hrun : forall (v : Widget) (m : ndarray) (l : Layer),
             masks_get (result_masks v) (selected_mask_idx v) = Ok m ->
             find_layer labels_layer_name (viewer v) = Some l ->
             _add_mask_to_labels combo_text v
             = (let (r, s) := label_id_in_layer l
                                (label_name_of combo_text (next_label_id v)) v in
                match r with
                | Ok id => write_label l id (label_name_of combo_text (next_label_id v))
                             (mask_to_binary m default_threshold) (selected_mask_idx v) s
                | Raise e => (Raise e, s)
                end)).
  { intros v m l Hm Hl. unfold _add_mask_to_labels. run.
    rewrite (guard_passes _ _ _ Hm), Hm, Hl. reflexivity. }
  rewrite (Hrun w mask layer Hmask Hlayer). fold name bm.
  destruct (label_id_in_layer layer name w) as [[L|e] wa] eqn:Eid; [|discriminate].
  destruct (label_id_in_layer_mapped layer layer name w wa names L Hnames Hlayer Eid)
    as (Hfound & Hnext & la & Hla).
  pose proof (label_id_in_layer_frame layer name w) as Hframe.
  rewrite Eid in Hframe. cbn [snd] in Hframe.
  destruct Hframe as (Hm & _ & Hi & _).
  intros Hw.
  destruct (write_label_inv_shape layer L name bm _ wa w1 d raster Hdata Hw) as [Hshape Hfits].
  apply (write_label_inv layer L name bm _ wa w1 d raster Hdata) in Hw. cbv zeta in Hw.
  set (raster1 := gzip (fun (c : bool) x => if c then L else x) (gt_zero bm)
                    (gzip (fun (c : bool) x => if c then 0 else x)
                       (gmap2 (Z.eqb L) raster) raster)) in *.
  set (F := fun l0 : Layer =>
              set_metadata (Meta (Some (label_names wa)) (Some (label_colors wa)))
                (set_layer_data (ArrayData (IntArr d raster1)) l0)) in *.
  set (h := MkHistory bm name (selected_mask_idx w)) in *.
  assert (Hl1 : find_layer labels_layer_name (viewer w1) = Some (F la))
    by (rewrite Hw; cbn; now rewrite find_layer_update_layer, Hla).
  assert (Hm1 : masks_get (result_masks w1) (selected_mask_idx w1) = Ok mask)
    by (rewrite Hw; cbn; now rewrite Hm, Hi).
  assert (Hn1 : next_label_id w1 = next_label_id w) by (rewrite Hw; exact Hnext).
  assert (Hi1 : selected_mask_idx w1 = selected_mask_idx wa) by (rewrite Hw; reflexivity).
  rewrite (Hrun w1 mask (F la) Hm1 Hl1), Hn1. fold name bm.
  rewrite (label_id_in_layer_existing (F la) name w1 (label_names wa) L eq_refl Hfound).
  cbn [md_label_colors metadata F set_metadata default].
  assert (Hshape1 : gshape raster1 = arr_shape bm).
  { assert (Hinner : gshape (gzip (fun (c : bool) x => if c then 0 else x)
                                (gmap2 (Z.eqb L) raster) raster) = gshape raster)
      by apply gshape_gzip, gshape_gmap2.
    unfold raster1. rewrite gshape_gzip; rewrite Hinner; [|exact Hshape].
    now rewrite <- Hshape, gshape_gt_zero. }
  rewrite (write_label_ok (F la) L name bm _ _ d raster1 eq_refl Hshape1 Hfits).
  f_equal. rewrite Hi1, Hi. fold h.
  pose proof (written_twice (gt_zero bm) raster L Hshape) as Hwt.
  cbv beta zeta in Hwt. fold raster1 in Hwt. rewrite Hwt.
  rewrite Hw. cbn. unfold set_viewer, set_label_mask_history. cbn.
  rewrite dict_set_twice, update_layer_twice by reflexivity. reflexivity.
Qed.

End AcceptTwice.

Lemma accept_twice_witness :
  let w1 := snd (widget._add_mask_to_labels (B := demo_backend) "membrane" demo_labeled_widget) in
  widget._add_mask_to_labels (B := demo_backend) "membrane" demo_labeled_widget = (Ok tt, w1)
  /\ widget._add_mask_to_labels "membrane" w1 = (Ok tt, w1).
Proof.
  assert (H : widget._add_mask_to_labels (B := demo_backend) "membrane" demo_labeled_widget
              = (Ok tt, snd (widget._add_mask_to_labels (B := demo_backend) "membrane"
                               demo_labeled_widget)))
    by (vm_compute; reflexivity).
  split; [exact H|].
  exact (accept_twice (B := demo_backend) "membrane" demo_labeled_widget _
           (BoolArr [[true; false]; [false; false]])
           (demo_labels_layer (widget.Meta (Some demo_names) (Some demo_colors)))
           demo_names int32 demo_raster eq_refl eq_refl eq_refl eq_refl H).
Defined.
